(** * FileSelectorTool (src/index.js): a shallow embedding and its properties

    The Editor.js block tool of this repository keeps a little state
    ([_data], [_displayData], [nodes]), builds DOM nodes and reacts to the
    uploader's callbacks.  The embedding below follows the class method by
    method.  The DOM is a store of elements addressed by node identities, so
    that the aliasing between [this.nodes.*] and the children of the wrapper
    is the one of the source.  Methods are state transformers that may throw;
    a throw keeps the mutations done before it, as in JavaScript. *)

From Stdlib Require Import ZArith String Ascii List Lia.
From Stdlib Require Import Decimal DecimalString DecimalFacts DecimalPos DecimalN.
From stdpp Require Import base decidable option list gmap strings.

Local Open Scope string_scope.
Local Open Scope list_scope.
Set Warnings "-register-all".

(** ** JavaScript values *)

Module JS.

(** The values that travel through the tool without being inspected beyond
    their truthiness (the host's block data, the [success] flag).  Numbers
    are the integer-valued ones. *)
Inductive value :=
| Undefined
| Null
| Bool (b : bool)
| Num (n : Z)
| Str (s : string)
| Obj (fields : list (string * value)).

(** ToBoolean. *)
Definition truthy (v : value) : bool :=
  match v with
  | Undefined | Null => false
  | Bool b => b
  | Num n => negb (n =? 0)%Z
  | Str s => negb (String.eqb s "")
  | Obj _ => true
  end.

(** [a || b] *)
Definition or (a b : value) : value := if truthy a then a else b.

(** Property read [v.k] on a plain data object; primitives and missing keys
    give [undefined]. *)
Fixpoint assoc (k : string) (fields : list (string * value)) : value :=
  match fields with
  | [] => Undefined
  | (k', v) :: rest => if String.eqb k k' then v else assoc k rest
  end.

Definition get (v : value) (k : string) : value :=
  match v with
  | Obj fields => assoc k fields
  | _ => Undefined
  end.

(** An optional string property: [None] is [undefined]. *)
Definition truthy_str (o : option string) : bool :=
  match o with
  | Some s => negb (String.eqb s "")
  | None => false
  end.

(** The size of a file as a response carries it.  The source documents it as
    a string and uses it as a number ([+size], [size / Math.pow(2, 20)]); the
    example of the specification gives a number.  Here it is either: a
    number, which for a count of bytes is an integer (fractions, NaN and the
    infinities are no sizes of files and are left out), or a string. *)
Inductive size_value :=
| SizeNum (n : Z)
| SizeStr (s : string).

(** An optional size property: [None] is [undefined].  A number is falsy
    when it is zero, a string when it is empty: the string "0" is truthy. *)
Definition truthy_size (o : option size_value) : bool :=
  match o with
  | Some (SizeNum n) => negb (n =? 0)%Z
  | Some (SizeStr s) => negb (String.eqb s "")
  | None => false
  end.

Definition of_str (o : option string) : value :=
  match o with Some s => Str s | None => Undefined end.

Definition of_size (o : option size_value) : value :=
  match o with
  | Some (SizeNum n) => Num n
  | Some (SizeStr s) => Str s
  | None => Undefined
  end.

(** [o || d] on an optional string. *)
Definition str_or (o : option string) (d : string) : string :=
  match o with
  | Some s => if String.eqb s "" then d else s
  | None => d
  end.

(** *** String.prototype.split('.') , Array.prototype.pop, toLowerCase *)

(** [s.split(sep)] for a one-character separator: never empty, the pieces
    between consecutive separators in order. *)
Fixpoint split (sep : ascii) (s : string) : list string :=
  match s with
  | EmptyString => [EmptyString]
  | String c rest =>
      if Ascii.eqb c sep then EmptyString :: split sep rest
      else match split sep rest with
           | piece :: pieces => String c piece :: pieces
           | [] => [String c EmptyString]
           end
  end.

(** [a.pop()]: the last element, [undefined] on an empty array. *)
Definition pop (a : list string) : option string := last a.

(** toLowerCase on ASCII text: the letters A-Z move to a-z, every other
    code unit stays.  On a string of ASCII characters only ([ascii_only])
    this is String.prototype.toLowerCase; beyond ASCII JavaScript also
    lower-cases the other letters of Unicode, which this function leaves as
    they are. *)
Definition lower_ascii (c : ascii) : ascii :=
  let n := nat_of_ascii c in
  if (65 <=? n)%nat && (n <=? 90)%nat then ascii_of_nat (n + 32) else c.

Fixpoint toLowerCase (s : string) : string :=
  match s with
  | EmptyString => EmptyString
  | String c rest => String (lower_ascii c) (toLowerCase rest)
  end.

(** Every code unit of the string is an ASCII character (below 128). *)
Fixpoint ascii_only (s : string) : bool :=
  match s with
  | EmptyString => true
  | String c rest => (nat_of_ascii c <? 128)%nat && ascii_only rest
  end.

(** *** Number.prototype.toFixed(1)

    The receiver is [sign * num / 2^k], the exact value of the double that
    [size / Math.pow(2, k)] yields for an integer-valued [size] (dividing by
    a power of two only moves the exponent).  Following ECMA-262: strip the
    sign, let [n] be the integer for which [n / 10 - x] is closest to zero,
    the larger one on a tie, print [n] in decimal, pad to two digits and put
    the point before the last one.  This is toFixed for receivers below
    10^21 (larger ones print in exponent form); the tool applies it to the
    sizes of [exact_number] only, which are below 2^53, and takes the text of
    every other size from the engine. *)
Definition dec (n : Z) : string :=
  NilZero.string_of_uint (N.to_uint (Z.to_N n)).

Definition toFixed1_n (num : Z) (k : Z) : Z :=
  (2 * 10 * Z.abs num + 2 ^ k) / (2 * 2 ^ k).

Definition toFixed1 (num : Z) (k : Z) : string :=
  let s := if (num <? 0)%Z then "-" else "" in
  let n := toFixed1_n num k in
  let m := dec n in
  let m := if (String.length m <=? 1)%nat then "0" +:+ m else m in
  let kk := String.length m in
  let a := substring 0 (kk - 1) m in
  let b := substring (kk - 1) 1 m in
  s +:+ a +:+ "." +:+ b.

(** *** The number of a size

    A string of decimal digits read as the integer it spells. *)
Definition digit_value (c : ascii) : option Z :=
  let n := nat_of_ascii c in
  if (48 <=? n)%nat && (n <=? 57)%nat then Some (Z.of_nat (n - 48)) else None.

Fixpoint digits_value (acc : Z) (s : string) : option Z :=
  match s with
  | EmptyString => Some acc
  | String c rest =>
      match digit_value c with
      | Some d => digits_value (10 * acc + d) rest
      | None => None
      end
  end.

(** [+size], where it is an integer that a double holds exactly: a number
    of magnitude below 2^53, or a non-empty string of decimal digits that
    spells one.  On these, [Math.log10], the division by a power of two and
    [toFixed] are computed below as the engine computes them.  Every other
    size (a larger number, a numeral with a sign, a point, an exponent or
    blanks, text that is no numeral) gives [None]: what the engine makes of
    it is taken from the engine, see [API]. *)
Definition exact_number (v : size_value) : option Z :=
  let spelled :=
    match v with
    | SizeNum n => Some n
    | SizeStr EmptyString => None
    | SizeStr s => digits_value 0 s
    end in
  match spelled with
  | Some n => if (Z.abs n <? 2 ^ 53)%Z then Some n else None
  | None => None
  end.

(** The digits of a decimal numeral as characters. *)
Definition digit_char (d : digits) : ascii :=
  match d with
  | d0 => "0" | d1 => "1" | d2 => "2" | d3 => "3" | d4 => "4"
  | d5 => "5" | d6 => "6" | d7 => "7" | d8 => "8" | d9 => "9"
  end%char.

Definition digit_of (r : N) : digits :=
  match r with
  | 0 => d0 | 1 => d1 | 2 => d2 | 3 => d3 | 4 => d4
  | 5 => d5 | 6 => d6 | 7 => d7 | 8 => d8 | _ => d9
  end%N.

(** Whether the separator occurs in a string. *)
Fixpoint occurs (sep : ascii) (s : string) : bool :=
  match s with
  | EmptyString => false
  | String c rest => Ascii.eqb c sep || occurs sep rest
  end.

End JS.


(** ** The part of the DOM the tool touches *)

Module DOM.

(** Node identities. *)
Abbreviation node := nat.

(** The listeners the tool registers: its bound [enableFileUpload], and in
    the settings menu one closure per entry that has an [onClick]. *)
Inductive listener :=
| EnableFileUpload
| TuneClick (entry : nat).

(** A child of an element: parsed markup set through [innerHTML], a text
    node set through [textContent], or an element of the store. *)
Inductive child :=
| Markup (html : string)
| Text (t : string)
| Elem (n : node).

#[global] Instance listener_eq_dec : EqDecision listener.
Proof. solve_decision. Defined.

#[global] Instance child_eq_dec : EqDecision child.
Proof. solve_decision. Defined.

Record element := Element {
  tagName : string;
  classList : list string;
  style_color : option string;
  attributes : list (string * string);
  contentEditable : option string;
  childNodes : list child;
  parentNode : option node;
  listeners : list (string * listener)
}.

Definition with_classList (f : list string -> list string) (e : element) :=
  Element (tagName e) (f (classList e)) (style_color e) (attributes e)
          (contentEditable e) (childNodes e) (parentNode e) (listeners e).

Definition with_style_color (c : option string) (e : element) :=
  Element (tagName e) (classList e) c (attributes e)
          (contentEditable e) (childNodes e) (parentNode e) (listeners e).

Definition with_attributes (f : list (string * string) -> list (string * string))
    (e : element) :=
  Element (tagName e) (classList e) (style_color e) (f (attributes e))
          (contentEditable e) (childNodes e) (parentNode e) (listeners e).

Definition with_contentEditable (c : option string) (e : element) :=
  Element (tagName e) (classList e) (style_color e) (attributes e)
          c (childNodes e) (parentNode e) (listeners e).

Definition with_childNodes (f : list child -> list child) (e : element) :=
  Element (tagName e) (classList e) (style_color e) (attributes e)
          (contentEditable e) (f (childNodes e)) (parentNode e) (listeners e).

Definition with_parentNode (p : option node) (e : element) :=
  Element (tagName e) (classList e) (style_color e) (attributes e)
          (contentEditable e) (childNodes e) p (listeners e).

Definition with_listeners
    (f : list (string * listener) -> list (string * listener)) (e : element) :=
  Element (tagName e) (classList e) (style_color e) (attributes e)
          (contentEditable e) (childNodes e) (parentNode e) (f (listeners e)).

(** The store: every element ever created, and the next free identity. *)
Record document := Document {
  heap : gmap nat element;
  next : node
}.

Definition update (n : node) (f : element -> element) (d : document) : document :=
  Document (alter f n (heap d)) (next d).

(** document.createElement(tag) *)
Definition createElement (tag : string) (d : document) : node * document :=
  (next d,
   Document (<[next d := Element tag [] None [] None [] None []]> (heap d))
            (S (next d))).

(** DOMTokenList: [add] keeps the first occurrence of a token, [remove]
    drops it. *)
Definition add_token (l : list string) (t : string) : list string :=
  if bool_decide (t ∈ l) then l else l ++ [t].

Definition remove_token (l : list string) (t : string) : list string :=
  filter (λ c, c ≠ t) l.

Definition classList_add (n : node) (tokens : list string) : document -> document :=
  update n (with_classList (λ l, fold_left add_token tokens l)).

Definition classList_remove (n : node) (tokens : list string) : document -> document :=
  update n (with_classList (λ l, fold_left remove_token tokens l)).

(** The element children of [n] lose their parent. *)
Definition orphan (c : child) (d : document) : document :=
  match c with
  | Elem m => update m (with_parentNode None) d
  | _ => d
  end.

Definition replace_children (n : node) (cs : list child) (d : document) : document :=
  match heap d !! n with
  | Some e => update n (with_childNodes (λ _, cs)) (foldr orphan d (childNodes e))
  | None => d
  end.

(** [n.innerHTML = html] *)
Definition markup (html : string) : list child :=
  if String.eqb html "" then [] else [Markup html].

Definition set_innerHTML (n : node) (html : string) : document -> document :=
  replace_children n (markup html).

(** [n.textContent = t] *)
Definition text (t : string) : list child :=
  if String.eqb t "" then [] else [Text t].

Definition set_textContent (n : node) (t : string) : document -> document :=
  replace_children n (text t).

(** [n.remove()]: leaves its parent, if it has one. *)
Definition remove (n : node) (d : document) : document :=
  match heap d !! n with
  | Some e =>
      match parentNode e with
      | Some p =>
          update n (with_parentNode None)
            (update p (with_childNodes (filter (λ c, c ≠ Elem n))) d)
      | None => d
      end
  | None => d
  end.

(** [p.appendChild(c)]: [c] first leaves its former parent.  (Every call of
    the tool appends an element it has just created, so the hierarchy check
    of the DOM cannot fail and is left out.) *)
Definition appendChild (p c : node) (d : document) : document :=
  update c (with_parentNode (Some p))
    (update p (with_childNodes (λ cs, cs ++ [Elem c])) (remove c d)).

(** [n.setAttribute(name, v)] *)
Fixpoint put_attribute (name v : string) (l : list (string * string)) :=
  match l with
  | [] => [(name, v)]
  | (k, w) :: rest =>
      if String.eqb k name then (k, v) :: rest
      else (k, w) :: put_attribute name v rest
  end.

Definition setAttribute (n : node) (name v : string) : document -> document :=
  update n (with_attributes (put_attribute name v)).

(** [n.addEventListener(type, f)]: a listener already registered for the
    type is not registered twice. *)
Definition add_listener (type : string) (f : listener) (l : list (string * listener)) :=
  if bool_decide ((type, f) ∈ l) then l else l ++ [(type, f)].

Definition addEventListener (n : node) (type : string) (f : listener)
    : document -> document :=
  update n (with_listeners (add_listener type f)).

(** What a node looks like from outside: the tree below it, identities
    forgotten.  [depth] bounds the descent. *)
Inductive tree :=
| TMarkup (html : string)
| TText (t : string)
| TElem (tag : string) (classes : list string) (color : option string)
        (attrs : list (string * string)) (editable : option string)
        (handlers : list (string * listener)) (children : list tree)
| TCut.

Fixpoint snapshot (depth : nat) (h : gmap nat element) (n : node) : tree :=
  match depth with
  | O => TCut
  | S depth' =>
      match h !! n with
      | Some e =>
          TElem (tagName e) (classList e) (style_color e) (attributes e)
                (contentEditable e) (listeners e)
                (map (λ c, match c with
                           | Markup html => TMarkup html
                           | Text t => TText t
                           | Elem m => snapshot depth' h m
                           end) (childNodes e))
      | None => TCut
      end
  end.

(** What an element looks like, whatever hangs below or above it. *)
Definition same_look (e e' : element) : Prop :=
  tagName e' = tagName e ∧ classList e' = classList e
  ∧ style_color e' = style_color e ∧ attributes e' = attributes e
  ∧ contentEditable e' = contentEditable e ∧ listeners e' = listeners e.

(** Two stores agree on which nodes exist and on how each looks. *)
Definition alike (h h' : gmap nat element) : Prop :=
  ∀ m, match h !! m, h' !! m with
       | Some e, Some e' => same_look e e'
       | None, None => True
       | _, _ => False
       end.

(** A tree cut at a depth, as [snapshot] cuts it. *)
Fixpoint cut (depth : nat) (t : tree) {struct t} : tree :=
  match t with
  | TElem tag classes color attrs editable handlers children =>
      match depth with
      | O => TCut
      | S depth' =>
          TElem tag classes color attrs editable handlers (map (cut depth') children)
      end
  | _ => t
  end.

(** Children that are markup or text only. *)
Definition leaf_only (cs : list child) : Prop :=
  Forall (λ c, match c with Elem _ => False | _ => True end) cs.

(** The tree of an element that holds markup or text only. *)
Definition leaf (e : element) : tree :=
  TElem (tagName e) (classList e) (style_color e) (attributes e)
        (contentEditable e) (listeners e)
        (map (λ c, match c with
                   | Markup html => TMarkup html
                   | Text t => TText t
                   | Elem _ => TCut
                   end) (childNodes e)).

End DOM.

(** ** The tool *)

Module Tool.

Import DOM.

(** *** Data *)

(** One entry of [config.settings]. *)
Record tune := Tune {
  tune_title : string;
  tune_icon : string;
  tune_onClick : bool
}.

(** The [config] object handed to the constructor; [None] is a missing
    property. *)
Record ToolConfig := {
  cfg_settings : option (list tune);
  cfg_endpoint : option string;
  cfg_types : option string;
  cfg_buttonText : option string;
  cfg_errorMessage : option string;
  cfg_uploader : option unit
}.

(** [this.config] *)
Record config := Config {
  settings : list tune;
  endpoint : string;
  types : string;
  buttonText : string;
  errorMessage : string;
  uploader : option unit
}.

(** UploadResponseFormat and its FileData: [name] and [title] strings,
    [size] a number or a string (see [JS.size_value]), each possibly missing;
    [success] any value, [file] possibly missing. *)
Record FileData := {
  fd_url : option string;
  fd_name : option string;
  fd_size : option JS.size_value;
  fd_title : option string
}.

Record UploadResponse := {
  success : JS.value;
  file : option FileData
}.

(** [this._displayData].  A missing property and one holding [undefined]
    read alike everywhere in the tool, so [{}] is the record of [None]s. *)
Record DisplayFile := {
  extension : option string;
  name : option string;
  size : option JS.size_value
}.

Record DisplayData := {
  dd_file : DisplayFile;
  dd_title : option string
}.

(** [this.nodes] *)
Record Nodes := {
  wrapper : option node;
  button : option node;
  title : option node
}.

(** [api.notifier.show({message, style})] *)
Record notification := {
  message : string;
  style : string
}.

(** The instance, the document it draws in and the calls it has made to its
    collaborators: notifications shown, [block.dispatchChange()] calls,
    [removeLoader] callbacks waiting for their LOADER_TIMEOUT,
    [uploader.uploadSelectedFile] calls, and the tooltips registered with
    [api.tooltip.onHover] (the element and the title). *)
Record tool := Tool {
  doc : document;
  nodes : Nodes;
  _displayData : DisplayData;
  _data : JS.value;
  this_config : config;
  notifier : list notification;
  dispatchChange : nat;
  timers : nat;
  uploadSelectedFile : nat;
  tooltip : list (nat * string)
}.

Definition with_doc (f : document -> document) (s : tool) : tool :=
  Tool (f (doc s)) (nodes s) (_displayData s) (_data s) (this_config s)
       (notifier s) (dispatchChange s) (timers s) (uploadSelectedFile s) (tooltip s).

Definition with_nodes (f : Nodes -> Nodes) (s : tool) : tool :=
  Tool (doc s) (f (nodes s)) (_displayData s) (_data s) (this_config s)
       (notifier s) (dispatchChange s) (timers s) (uploadSelectedFile s) (tooltip s).

Definition with_displayData (dd : DisplayData) (s : tool) : tool :=
  Tool (doc s) (nodes s) dd (_data s) (this_config s)
       (notifier s) (dispatchChange s) (timers s) (uploadSelectedFile s) (tooltip s).

Definition with_data (v : JS.value) (s : tool) : tool :=
  Tool (doc s) (nodes s) (_displayData s) v (this_config s)
       (notifier s) (dispatchChange s) (timers s) (uploadSelectedFile s) (tooltip s).

Definition with_notifier (f : list notification -> list notification) (s : tool) :=
  Tool (doc s) (nodes s) (_displayData s) (_data s) (this_config s)
       (f (notifier s)) (dispatchChange s) (timers s) (uploadSelectedFile s) (tooltip s).

Definition with_dispatchChange (f : nat -> nat) (s : tool) : tool :=
  Tool (doc s) (nodes s) (_displayData s) (_data s) (this_config s)
       (notifier s) (f (dispatchChange s)) (timers s) (uploadSelectedFile s) (tooltip s).

Definition with_timers (f : nat -> nat) (s : tool) : tool :=
  Tool (doc s) (nodes s) (_displayData s) (_data s) (this_config s)
       (notifier s) (dispatchChange s) (f (timers s)) (uploadSelectedFile s) (tooltip s).

Definition with_uploadSelectedFile (f : nat -> nat) (s : tool) : tool :=
  Tool (doc s) (nodes s) (_displayData s) (_data s) (this_config s)
       (notifier s) (dispatchChange s) (timers s) (f (uploadSelectedFile s))
       (tooltip s).

Definition with_tooltip (f : list (nat * string) -> list (nat * string)) (s : tool) :=
  Tool (doc s) (nodes s) (_displayData s) (_data s) (this_config s)
       (notifier s) (dispatchChange s) (timers s) (uploadSelectedFile s)
       (f (tooltip s)).

(** *** Methods run in a state and may throw *)

Inductive exn := TypeError.

Inductive result (A : Type) :=
| Ok (a : A)
| Throw (e : exn).
Arguments Ok {A} a.
Arguments Throw {A} e.

Definition M (A : Type) : Type := tool -> result A * tool.

Definition ret {A} (a : A) : M A := λ s, (Ok a, s).

Definition throw {A} (e : exn) : M A := λ s, (Throw e, s).

Definition bind {A B} (m : M A) (k : A -> M B) : M B :=
  λ s, match m s with
       | (Ok a, s') => k a s'
       | (Throw e, s') => (Throw e, s')
       end.

Notation "'let*' x := m 'in' k" := (bind m (λ x, k))
  (at level 10, x name, m at level 100, k at level 200, only parsing).
Notation "m >> k" := (bind m (λ _, k))
  (at level 90, right associativity, only parsing).

Definition gets {A} (f : tool -> A) : M A := λ s, (Ok (f s), s).

Definition modify (f : tool -> tool) : M unit := λ s, (Ok tt, f s).

(** A step on the document. *)
Definition dom (f : document -> document) : M unit := modify (with_doc f).

(** Reading a property of [o]: a TypeError when [o] is [null]. *)
Definition deref {A} (o : option A) : M A :=
  match o with
  | Some a => ret a
  | None => throw TypeError
  end.

Definition nodes_wrapper : M node := let* n := gets nodes in deref (wrapper n).
Definition nodes_button : M node := let* n := gets nodes in deref (button n).
Definition nodes_title : M node := let* n := gets nodes in deref (title n).

(** The state after [m], and what [m] returned. *)
Definition exec {A} (m : M A) (s : tool) : tool := snd (m s).
Definition outcome {A} (m : M A) (s : tool) : result A := fst (m s).

(** *** The host and the bundled assets

    [api.styles] and [api.i18n.t] are the host's; the three SVG sources are
    inlined by the bundler.  Both are fixed for the life of an instance.  The
    style entries are class tokens, as Editor.js provides them.

    The host also brings the JavaScript engine.  For a size outside
    [JS.exact_number] the embedding does not compute what the engine makes
    of it and takes it from there: [engine_log10_ge_6 v] is the outcome of
    [Math.log10(+v) >= 6] and [engine_toFixed1 v k] the text of
    [(v / Math.pow(2, k)).toFixed(1)]. *)

Record API := {
  styles_block : string;
  styles_button : string;
  styles_loader : string;
  i18n_t : string -> string;
  engine_log10_ge_6 : JS.size_value -> bool;
  engine_toFixed1 : JS.size_value -> Z -> string
}.

Record CSS_classes := {
  baseClass : string;
  apiButton : string;
  loader : string;
  css_wrapper : string;
  wrapperWithFile : string;
  wrapperLoading : string;
  css_button : string;
  css_title : string;
  css_size : string;
  downloadButton : string;
  fileInfo : string;
  fileIcon : string
}.

(** What a read of [this.EXTENSIONS[k]] can give: the colour of an own
    property, a member inherited from [Object.prototype] (a function, or the
    prototype itself for [__proto__]), or [undefined]. *)
Inductive property :=
| Own (colour : string)
| Inherited
| Missing.

Definition property_truthy (p : property) : bool :=
  match p with
  | Own c => negb (String.eqb c "")
  | Inherited => true
  | Missing => false
  end.

(** get EXTENSIONS() *)
Definition EXTENSIONS : gmap string string :=
  list_to_map [
    ("doc", "#3e74da"); ("docx", "#3e74da"); ("odt", "#3e74da");
    ("pdf", "#d47373"); ("rtf", "#656ecd"); ("tex", "#5a5a5b");
    ("txt", "#5a5a5b"); ("pptx", "#e07066"); ("ppt", "#e07066");
    ("mp3", "#eab456"); ("mp4", "#f676a6"); ("xls", "#3f9e64");
    ("xlsx", "#3f9e64"); ("html", "#2988f0"); ("htm", "#2988f0");
    ("png", "#f676a6"); ("jpg", "#f67676"); ("jpeg", "#f67676");
    ("gif", "#f6af76"); ("zip", "#4f566f"); ("rar", "#4f566f");
    ("exe", "#e26f6f"); ("svg", "#bf5252"); ("key", "#e07066");
    ("sketch", "#df821c"); ("ai", "#df821c"); ("psd", "#388ae5");
    ("dmg", "#e26f6f"); ("json", "#2988f0"); ("csv", "#3f9e64")
  ].

(** The names every object literal inherits. *)
Definition Object_prototype : list string := [
  "constructor"; "__defineGetter__"; "__defineSetter__"; "hasOwnProperty";
  "__lookupGetter__"; "__lookupSetter__"; "isPrototypeOf";
  "propertyIsEnumerable"; "toString"; "valueOf"; "__proto__";
  "toLocaleString"
].

(** [this.EXTENSIONS[k]]: own properties first, then the prototype. *)
Definition EXTENSIONS_get (k : string) : property :=
  match EXTENSIONS !! k with
  | Some c => Own c
  | None => if bool_decide (k ∈ Object_prototype) then Inherited else Missing
  end.

(** [Math.log10(+size) >= e] for an integer-valued [size]: the logarithm of
    a count below [10^e] stays below [e], that of [10^e] is [e]; zero and
    negative counts give [-Infinity] and [NaN], for which the test fails. *)
Definition Math_log10_ge (size e : Z) : bool := (10 ^ e <=? size)%Z.

(** The arguments of [make]. *)
Inductive classNames :=
| One (c : string)
| Many (cs : list string).

Inductive attribute :=
| prop_innerHTML (html : string)
| prop_contentEditable (b : bool).

Section Instance.

Variable api : API.
Variables Icon FileIcon CustomFileIcon : string.

(** get CSS() *)
Definition CSS : CSS_classes := {|
  baseClass := styles_block api;
  apiButton := styles_button api;
  loader := styles_loader api;
  css_wrapper := "cdx-file-selector";
  wrapperWithFile := "cdx-file-selector--with-file";
  wrapperLoading := "cdx-file-selector--loading";
  css_button := "cdx-file-selector__button";
  css_title := "cdx-file-selector__title";
  css_size := "cdx-file-selector__size";
  downloadButton := "cdx-file-selector__download-button";
  fileInfo := "cdx-file-selector__file-info";
  fileIcon := "cdx-file-selector__file-icon"
|}.

(** constructor({ data, config, api, block }) in a document [d] *)
Definition constructor (d : document) (data : JS.value) (c : ToolConfig) : tool := {|
  doc := d;
  nodes := {| wrapper := None; button := None; title := None |};
  _displayData := {|
    dd_file := {| extension := None; name := None; size := None |};
    dd_title := Some ""
  |};
  this_config := {|
    settings := default [] (cfg_settings c);
    endpoint := JS.str_or (cfg_endpoint c) "";
    types := JS.str_or (cfg_types c) "*";
    buttonText := JS.str_or (cfg_buttonText c) "Select file to upload";
    errorMessage := JS.str_or (cfg_errorMessage c) "File upload failed";
    uploader := cfg_uploader c
  |};
  _data := JS.or data (JS.Obj []);
  notifier := [];
  dispatchChange := 0;
  timers := 0;
  uploadSelectedFile := 0;
  tooltip := []
|}.

(** validate(savedData) *)
Definition validate (savedData : JS.value) : bool := true.

(** get data() *)
Definition data (s : tool) : JS.value := _data s.

(** set data(data) *)
Definition set_data (v : JS.value) : M unit :=
  modify (with_data (JS.or v (JS.Obj []))) >>
  modify (with_dispatchChange S).

(** save(toolsContent) *)
Definition save (s : tool) : JS.value := data s.

(** make(tagName, classNames, attributes) *)
Definition assign (el : node) (a : attribute) : M unit :=
  match a with
  | prop_innerHTML html => dom (set_innerHTML el html)
  | prop_contentEditable b =>
      dom (update el (with_contentEditable (Some (if b then "true" else "false"))))
  end.

Fixpoint assign_all (el : node) (attributes : list attribute) : M unit :=
  match attributes with
  | [] => ret tt
  | a :: rest => assign el a >> assign_all el rest
  end.

Definition createElement (tagName : string) : M node :=
  λ s, let (el, d) := DOM.createElement tagName (doc s) in
       (Ok el, with_doc (λ _, d) s).

Definition make (tagName : string) (cn : classNames) (attributes : list attribute)
    : M node :=
  let* el := createElement tagName in
  match cn with
  | Many cs => dom (classList_add el cs)
  | One c => if negb (String.eqb c "") then dom (classList_add el [c]) else ret tt
  end >>
  assign_all el attributes >>
  ret el.

(** pluginHasData() *)
Definition Object_values (f : DisplayFile) : list JS.value :=
  [JS.of_str (extension f); JS.of_str (name f); JS.of_size (size f)].

Definition not_undefined (v : JS.value) : bool :=
  match v with JS.Undefined => false | _ => true end.

Definition strict_ne_empty (o : option string) : bool :=
  match o with
  | Some s => negb (String.eqb s "")
  | None => true
  end.

Definition pluginHasData (s : tool) : bool :=
  strict_ne_empty (dd_title (_displayData s))
  || existsb not_undefined (Object_values (dd_file (_displayData s))).

(** prepareUploadButton() *)
Definition prepareUploadButton : M unit :=
  let* b := make "div" (Many [apiButton CSS; css_button CSS]) [] in
  modify (with_nodes (λ n, {| wrapper := wrapper n; button := Some b; title := title n |})) >>
  let* text := gets (λ s, buttonText (this_config s)) in
  let* b := nodes_button in
  dom (set_innerHTML b (Icon +:+ " " +:+ text)) >>
  let* b := nodes_button in
  dom (addEventListener b "click" EnableFileUpload) >>
  let* w := nodes_wrapper in
  let* b := nodes_button in
  dom (appendChild w b).

(** enableFileUpload(): hands over to the uploader, which calls [onPreview]
    back once a file is chosen. *)
Definition enableFileUpload : M unit :=
  modify (with_uploadSelectedFile S).

Definition onPreview : M unit :=
  let* w := nodes_wrapper in
  dom (classList_add w [wrapperLoading CSS; loader CSS]).

(** removeLoader(): the removal waits for LOADER_TIMEOUT. *)
Definition LOADER_TIMEOUT : Z := 500.

Definition removeLoader : M unit := modify (with_timers S).

(** The callback [removeLoader] hands to [setTimeout]. *)
Definition removeLoader_callback : M unit :=
  let* w := nodes_wrapper in
  dom (classList_remove w [wrapperLoading CSS; loader CSS]).

(** appendFileIcon() *)
Definition appendFileIcon : M unit :=
  let* ext := gets (λ s, JS.str_or (extension (dd_file (_displayData s))) "") in
  let extensionColor := EXTENSIONS_get ext in
  let* icon := make "div" (One (fileIcon CSS))
                 [prop_innerHTML (if property_truthy extensionColor
                             then CustomFileIcon else FileIcon)] in
  (if property_truthy extensionColor then
     match extensionColor with
     | Own c => dom (update icon (with_style_color (Some c)))
     | _ => ret tt
     end >>
     (if (3 <? String.length ext)%nat
      then dom (classList_add icon ["longer"])
      else dom (classList_remove icon ["longer"])) >>
     dom (setAttribute icon "data-extension" ext)
   else ret tt) >>
  let* w := nodes_wrapper in
  dom (appendChild w icon).

(** [Math.log10(+size) >= 6] *)
Definition log10_ge_6 (size : JS.size_value) : bool :=
  match JS.exact_number size with
  | Some n => Math_log10_ge n 6
  | None => engine_log10_ge_6 api size
  end.

(** [(size / Math.pow(2, k)).toFixed(1)] *)
Definition quotient_toFixed1 (size : JS.size_value) (k : Z) : string :=
  match JS.exact_number size with
  | Some n => JS.toFixed1 n k
  | None => engine_toFixed1 api size k
  end.

(** The size shown on the card and its unit. *)
Definition sizePrefix (size : JS.size_value) : string :=
  if log10_ge_6 size then "MiB" else "KiB".

Definition formattedSize (size : JS.size_value) : string :=
  if log10_ge_6 size then quotient_toFixed1 size 20 else quotient_toFixed1 size 10.

(** showFileData() *)
Definition showFileData : M unit :=
  let* w := nodes_wrapper in
  dom (set_innerHTML w "") >>
  let* w := nodes_wrapper in
  dom (classList_add w [wrapperWithFile CSS]) >>
  let* size := gets (λ s, size (dd_file (_displayData s))) in
  let* title_ := gets (λ s, dd_title (_displayData s)) in
  appendFileIcon >>
  let* info := make "div" (One (fileInfo CSS)) [] in
  (if JS.truthy_str title_ then
     let* t := make "div" (One (css_title CSS)) [prop_contentEditable false] in
     modify (with_nodes (λ n, {| wrapper := wrapper n; button := button n; title := Some t |})) >>
     let* t := nodes_title in
     dom (set_textContent t (default "" title_)) >>
     let* t := nodes_title in
     dom (appendChild info t)
   else ret tt) >>
  (if JS.truthy_size size then
     let bytes := default (JS.SizeNum 0) size in
     let* fileSize := make "div" (One (css_size CSS)) [] in
     dom (set_textContent fileSize (formattedSize bytes)) >>
     dom (setAttribute fileSize "data-size" (sizePrefix bytes)) >>
     dom (appendChild info fileSize)
   else ret tt) >>
  let* w := nodes_wrapper in
  dom (appendChild w info) >>
  let* w := nodes_wrapper in
  dom (addEventListener w "click" EnableFileUpload).

(** uploadingFailed(errorMessage) *)
Definition uploadingFailed (msg : string) : M unit :=
  modify (with_notifier (λ l, l ++ [{| message := msg; style := "error" |}])) >>
  removeLoader.

(** onUpload(response) *)
Definition derive_extension (name : option string) : M string :=
  if JS.truthy_str name then
    let* last := deref (JS.pop (JS.split "." (default "" name))) in
    ret (JS.toLowerCase last)
  else ret "".

Definition onUpload (response : UploadResponse) : M unit :=
  let body := response in
  match (if JS.truthy (success body) then file body else None) with
  | Some f =>
      let* ext := derive_extension (fd_name f) in
      modify (with_displayData {|
        dd_file := {| extension := Some ext; name := fd_name f; size := fd_size f |};
        dd_title := fd_title f
      |}) >>
      let* b := nodes_button in
      dom (remove b) >>
      showFileData >>
      removeLoader
  | None =>
      let* msg := gets (λ s, errorMessage (this_config s)) in
      uploadingFailed msg
  end.

(** render() *)
Definition render : M node :=
  let* holder := make "div" (One (baseClass CSS)) [] in
  let* w := make "div" (One (css_wrapper CSS)) [] in
  modify (with_nodes (λ n, {| wrapper := Some w; button := button n; title := title n |})) >>
  let* has := gets pluginHasData in
  (if has then showFileData else prepareUploadButton) >>
  let* w := nodes_wrapper in
  dom (appendChild holder w) >>
  ret holder.

(** renderSettings(): the callback of [settings.forEach], then the loop. *)
Definition tune_button (wrapper : node) (entry : nat) (tune : tune) : M unit :=
  let title := i18n_t api (tune_title tune) in
  let* button := createElement "div" in
  dom (classList_add button ["cdx-settings-button"]) >>
  dom (set_innerHTML button (tune_icon tune)) >>
  (if tune_onClick tune
   then dom (addEventListener button "click" (TuneClick entry))
   else ret tt) >>
  modify (with_tooltip (λ l, l ++ [(button, title)])) >>
  dom (appendChild wrapper button).

Fixpoint forEach_tune (wrapper : node) (entry : nat) (tunes : list tune) : M unit :=
  match tunes with
  | [] => ret tt
  | tune :: rest =>
      tune_button wrapper entry tune >> forEach_tune wrapper (S entry) rest
  end.

Definition renderSettings : M node :=
  let* settings := gets (λ s, settings (this_config s)) in
  let* wrapper := createElement "div" in
  dom (classList_add wrapper ["file-selector-settings"]) >>
  forEach_tune wrapper 0 settings >>
  ret wrapper.

(** rendered() *)
Definition rendered_hook : M unit := ret tt.

(** *** The life of an instance

    What the host, the user and the uploader can make happen to an instance
    once it is constructed.  A call that throws hands the exception to its
    caller; the instance stays as the call left it. *)
Inductive event :=
| CallRender
| CallSetData (v : JS.value)
| CallEnableFileUpload
| CallOnPreview
| CallOnUpload (response : UploadResponse)
| CallUploadingFailed (error : string)
| FireTimeout
| CallRenderSettings
| CallSave
| CallValidate (savedData : JS.value)
| CallRendered.

Definition step (e : event) : M unit :=
  match e with
  | CallRender => render >> ret tt
  | CallSetData v => set_data v
  | CallEnableFileUpload => enableFileUpload
  | CallOnPreview => onPreview
  | CallOnUpload response => onUpload response
  | CallUploadingFailed error => uploadingFailed error
  | FireTimeout =>
      let* pending := gets timers in
      match pending with
      | O => ret tt
      | S n => modify (with_timers (λ _, n)) >> removeLoader_callback
      end
  | CallRenderSettings => renderSettings >> ret tt
  | CallSave => gets save >> ret tt
  | CallValidate savedData => ret (validate savedData) >> ret tt
  | CallRendered => rendered_hook
  end.

Definition run (es : list event) (s : tool) : tool :=
  fold_left (λ s e, exec (step e) s) es s.

(** The wrapper as the page shows it. *)
Definition view (depth : nat) (s : tool) : option tree :=
  match wrapper (nodes s) with
  | Some w => Some (snapshot depth (heap (doc s)) w)
  | None => None
  end.

(** *** What the two views look like

    The elements [showFileData] and [prepareUploadButton] create, and the
    trees they make of the wrapper. *)

Definition icon_element (parent : node) (dd : DisplayData) : element :=
  let ext := JS.str_or (extension (dd_file dd)) "" in
  let extensionColor := EXTENSIONS_get ext in
  if property_truthy extensionColor then
    Element "div"
      (if (3 <? String.length ext)%nat
       then [fileIcon CSS; "longer"] else [fileIcon CSS])
      (match extensionColor with Own c => Some c | _ => None end)
      [("data-extension", ext)] None (markup CustomFileIcon) (Some parent) []
  else
    Element "div" [fileIcon CSS] None [] None (markup FileIcon) (Some parent) [].

Definition info_element (parent : node) (children : list child) : element :=
  Element "div" [fileInfo CSS] None [] None children (Some parent) [].

Definition title_element (parent : node) (t : string) : element :=
  Element "div" [css_title CSS] None [] (Some "false") (text t) (Some parent) [].

Definition size_element (parent : node) (bytes : JS.size_value) : element :=
  Element "div" [css_size CSS] None [("data-size", sizePrefix bytes)] None
          (text (formattedSize bytes)) (Some parent) [].

Definition button_element (parent : node) (label : string) : element :=
  Element "div" (fold_left add_token [apiButton CSS; css_button CSS] []) None []
          None (markup (Icon +:+ " " +:+ label)) (Some parent)
          [("click", EnableFileUpload)].

(** The store after [showFileData], over the store [h] in which the
    wrapper [w], looking like [e], has just been emptied. *)
Definition card_heap (w : node) (e : element) (n : node) (dd : DisplayData)
    (h : gmap nat element) : gmap nat element :=
  let t := JS.truthy_str (dd_title dd) in
  let z := JS.truthy_size (size (dd_file dd)) in
  let tid := S (S n) in
  let sid := if t then S (S (S n)) else S (S n) in
  let h :=
    <[S n := info_element w
               ((if t then [Elem tid] else []) ++ (if z then [Elem sid] else []))]>
      (<[n := icon_element w dd]>
         (<[w := Element (tagName e) (add_token (classList e) (wrapperWithFile CSS))
                         (style_color e) (attributes e) (contentEditable e)
                         [Elem n; Elem (S n)] (parentNode e)
                         (add_listener "click" EnableFileUpload (listeners e))]> h)) in
  let h := if t then <[tid := title_element (S n) (default "" (dd_title dd))]> h else h in
  if z then <[sid := size_element (S n) (default (JS.SizeNum 0) (size (dd_file dd)))]> h else h.

Definition card_next (n : node) (dd : DisplayData) : node :=
  (if JS.truthy_size (size (dd_file dd)) then 1 else 0)
  + (if JS.truthy_str (dd_title dd) then 1 else 0) + S (S n).

Definition card_title (n : node) (dd : DisplayData) (t : option node) : option node :=
  if JS.truthy_str (dd_title dd) then Some (S (S n)) else t.

(** The wrapper once it shows a file: its own look, plus the with-file
    class and the click listener, over the icon and the file info. *)
Definition file_card (e : element) (dd : DisplayData) : tree :=
  TElem (tagName e) (add_token (classList e) (wrapperWithFile CSS))
        (style_color e) (attributes e) (contentEditable e)
        (add_listener "click" EnableFileUpload (listeners e))
        [leaf (icon_element 0 dd);
         TElem "div" [fileInfo CSS] None [] None []
           ((if JS.truthy_str (dd_title dd)
             then [leaf (title_element 0 (default "" (dd_title dd)))] else [])
            ++ (if JS.truthy_size (size (dd_file dd))
                then [leaf (size_element 0 (default (JS.SizeNum 0) (size (dd_file dd))))]
                else []))].

(** The wrapper while it offers the upload button. *)
Definition upload_button (e : element) (label : string) : tree :=
  TElem (tagName e) (classList e) (style_color e) (attributes e)
        (contentEditable e) (listeners e) [leaf (button_element 0 label)].

(** The wrapper [render] starts from. *)
Definition fresh_wrapper : element :=
  Element "div" [css_wrapper CSS] None [] None [] None [].

(** The display state a successful upload of [f] leaves. *)
Definition uploaded (f : FileData) : DisplayData := {|
  dd_file := {|
    extension :=
      Some (if JS.truthy_str (fd_name f)
            then JS.toLowerCase
                   (default "" (JS.pop (JS.split "." (default "" (fd_name f)))))
            else "");
    name := fd_name f;
    size := fd_size f
  |};
  dd_title := fd_title f
|}.

(** *** When a call goes through

    The instance has been rendered: the wrapper and the button exist, and
    the wrapper is a node of the document. *)
Definition rendered (s : tool) : Prop :=
  ∃ w b e, wrapper (nodes s) = Some w ∧ button (nodes s) = Some b
           ∧ heap (doc s) !! w = Some e ∧ w < next (doc s).

(** Before the first [render]: no node yet, and nothing to show. *)
Definition unrendered (s : tool) : Prop :=
  wrapper (nodes s) = None ∧ button (nodes s) = None ∧ pluginHasData s = false.

(** The wrapper, when there is one, is a node of the document. *)
Definition well_formed (s : tool) : Prop :=
  ∀ w, wrapper (nodes s) = Some w ->
       w < next (doc s) ∧ is_Some (heap (doc s) !! w).

(** A response the success branch of [onUpload] takes. *)
Definition successful (r : UploadResponse) : bool :=
  JS.truthy (success r) && bool_decide (is_Some (file r)).

Definition is_upload (e : event) : bool :=
  match e with CallOnUpload _ => true | _ => false end.

Definition successful_upload (e : event) : bool :=
  match e with CallOnUpload r => successful r | _ => false end.

(** The classes of the wrapper, none while there is no wrapper. *)
Definition wrapper_classes (s : tool) : list string :=
  match wrapper (nodes s) with
  | Some w =>
      match heap (doc s) !! w with
      | Some e => classList e
      | None => []
      end
  | None => []
  end.

End Instance.

(** What a call leaves alone, whether it returns or throws. *)
Definition keeps {X A} (proj : tool -> X) (m : M A) : Prop :=
  ∀ s, proj (exec m s) = proj s.

(** A field that is neither the document, the node references nor the
    tooltips. *)
Definition beside_dom {X} (proj : tool -> X) : Prop :=
  (∀ f s, proj (with_doc f s) = proj s)
  ∧ (∀ f s, proj (with_nodes f s) = proj s)
  ∧ (∀ f s, proj (with_tooltip f s) = proj s).

(** Block data that carries the file and the title of an upload. *)
Definition reflects (v : JS.value) (f : FileData) : Prop :=
  JS.get v "title" = JS.of_str (fd_title f)
  ∧ JS.get (JS.get v "file") "name" = JS.of_str (fd_name f)
  ∧ JS.get (JS.get v "file") "size" = JS.of_size (fd_size f).

(** *** A sample instance

    The styles Editor.js hands out, stand-ins for the three SVG sources, an
    empty configuration and the upload of the specification's example.  For
    the sizes left to it the engine answers here as it does for text that
    is no numeral, which it reads as NaN. *)
Definition editor_styles : API := {|
  styles_block := "cdx-block";
  styles_button := "cdx-button";
  styles_loader := "cdx-loader";
  i18n_t := λ text, text;
  engine_log10_ge_6 := λ _, false;
  engine_toFixed1 := λ _ _, "NaN"
|}.

Definition toolbox_svg : string := "<svg toolbox/>".
Definition standard_svg : string := "<svg standard/>".
Definition custom_svg : string := "<svg custom/>".

Definition no_config : ToolConfig := {|
  cfg_settings := None; cfg_endpoint := None; cfg_types := None;
  cfg_buttonText := None; cfg_errorMessage := None; cfg_uploader := None
|}.

Definition empty_document : document := Document ∅ 0.

Definition sample_file : FileData := {|
  fd_url := None; fd_name := Some "a.pdf"; fd_size := Some (JS.SizeNum 2048);
  fd_title := Some "A"
|}.

Definition sample_response : UploadResponse := {|
  success := JS.Num 1; file := Some sample_file
|}.

Definition failed_response : UploadResponse := {|
  success := JS.Num 0; file := None
|}.

(** The sample instance, constructed without data and rendered once. *)
Definition sample_tool : tool :=
  exec (render editor_styles toolbox_svg standard_svg custom_svg)
       (constructor empty_document JS.Undefined no_config).

End Tool.

(** ** What the host sees of an instance

    What a sequence of calls leaves in the collaborators' logs, and which
    nodes of the document belong to the tool. *)

Module Host.

Import DOM Tool.

(** A field no DOM work, no display state and no loader timer touches. *)
Definition beside_upload {X} (proj : tool -> X) : Prop :=
  beside_dom proj
  ∧ (∀ dd s, proj (with_displayData dd s) = proj s)
  ∧ (∀ f s, proj (with_timers f s) = proj s).

(** The notifications a call shows, under the configuration [cfg]. *)
Definition notes (cfg : config) (ev : event) : list notification :=
  match ev with
  | CallOnUpload r =>
      if successful r then []
      else [{| message := errorMessage cfg; style := "error" |}]
  | CallUploadingFailed msg => [{| message := msg; style := "error" |}]
  | _ => []
  end.

Definition is_set_data (ev : event) : bool :=
  match ev with CallSetData _ => true | _ => false end.

Definition is_enableFileUpload (ev : event) : bool :=
  match ev with CallEnableFileUpload => true | _ => false end.

Definition is_render (ev : event) : bool :=
  match ev with CallRender => true | _ => false end.

(** The block data after a sequence of calls that started with [v]. *)
Definition assigned (es : list event) (v : JS.value) : JS.value :=
  fold_left (λ v ev, match ev with
                     | CallSetData x => JS.or x (JS.Obj [])
                     | _ => v
                     end) es v.

(** The button [renderSettings] makes of an entry of [config.settings]. *)
Definition settings_button (parent : node) (entry : nat) (tune : tune) : element :=
  Element "div" ["cdx-settings-button"] None [] None (markup (tune_icon tune))
          (Some parent)
          (if tune_onClick tune then [("click", TuneClick entry)] else []).

(** The two references every drawing goes through. *)
Definition refs (s : tool) : option node * option node :=
  (wrapper (nodes s), button (nodes s)).

(** The wrapper is a plain [div] that listens to nothing, or to clicks with
    the bound [enableFileUpload] and with nothing else. *)
Definition plain (e : element) : Prop :=
  tagName e = "div" ∧ style_color e = None ∧ attributes e = []
  ∧ contentEditable e = None
  ∧ (listeners e = [] ∨ listeners e = [("click", EnableFileUpload)]).

Definition plain_wrapper (s : tool) : Prop :=
  ∀ w e, wrapper (nodes s) = Some w -> heap (doc s) !! w = Some e -> plain e.

(** *** The nodes of the tool and the nodes of the host

    The tool draws in the document of the host.  The nodes from [base] on
    are the ones created since the instance was constructed. *)

(** The counter of a document lies beyond all its nodes. *)
Definition tidy (d : document) : Prop :=
  ∀ m, is_Some (heap d !! m) -> m < next d.

(** The nodes from [base] on hang below one another only: neither their
    parents nor their children are older nodes. *)
Definition closed (base : node) (d : document) : Prop :=
  base <= next d
  ∧ ∀ m e, base <= m -> heap d !! m = Some e ->
           (∀ p, parentNode e = Some p -> base <= p)
           ∧ (∀ c, Elem c ∈ childNodes e -> base <= c).

(** The instance refers to nodes from [base] on only. *)
Definition owns (base : node) (s : tool) : Prop :=
  closed base (doc s)
  ∧ (∀ x, wrapper (nodes s) = Some x -> base <= x)
  ∧ (∀ x, button (nodes s) = Some x -> base <= x)
  ∧ (∀ x, title (nodes s) = Some x -> base <= x).

(** The nodes below [base] are in [d'] what they are in [d]. *)
Definition steady (base : node) (d d' : document) : Prop :=
  ∀ m, m < base -> heap d' !! m = heap d !! m.

(** A DOM operation that stays among the nodes from [base] on. *)
Definition inside (base : node) (f : document -> document) : Prop :=
  ∀ d, closed base d -> closed base (f d) ∧ steady base d (f d).

(** A computation that stays among the nodes from [base] on, whether it
    returns or throws, and whose result satisfies [Q] when it returns. *)
Definition safe (base : node) {A} (m : M A) (Q : A -> Prop) : Prop :=
  ∀ s, owns base s ->
       owns base (exec m s)
       ∧ steady base (doc s) (doc (exec m s))
       ∧ ∀ a, outcome m s = Ok a -> Q a.

(** A document of the host with one node of its own. *)
Definition host_document : document :=
  Document {[0 := Element "body" ["page"] None [] None [Text "Notes"] None []]} 1.

End Host.

(** ** Facts about the JavaScript primitives *)

Module JSFacts.

Import JS.

(** *** Strings *)

Example split_abc : split "." "a.b.c" = ["a"; "b"; "c"].
Proof. reflexivity. Qed.

Example split_trailing : split "." "a." = ["a"; ""].
Proof. reflexivity. Qed.

Example toFixed_2048 : toFixed1 2048 10 = "2.0".
Proof. reflexivity. Qed.

Example toFixed_tie : toFixed1 (-1280) 10 = "-1.3".
Proof. vm_compute. reflexivity. Qed.

Example toFixed_small : toFixed1 1 10 = "0.0".
Proof. vm_compute. reflexivity. Qed.


Lemma append_cons a (x y : string) : String a x +:+ y = String a (x +:+ y).
Proof. reflexivity. Qed.

Lemma append_nil (y : string) : "" +:+ y = y.
Proof. reflexivity. Qed.

Lemma length_append (x y : string) :
  String.length (x +:+ y) = (String.length x + String.length y)%nat.
Proof.
  induction x; [reflexivity|].
  rewrite append_cons. cbn [String.length]. rewrite IHx. reflexivity.
Qed.

Lemma substring_all (x : string) : substring 0 (String.length x) x = x.
Proof. induction x; cbn; [reflexivity|rewrite IHx; reflexivity]. Qed.

Lemma substring_prefix (x y : string) :
  substring 0 (String.length x) (x +:+ y) = x.
Proof.
  induction x.
  - rewrite append_nil. destruct y; reflexivity.
  - rewrite append_cons. cbn. rewrite IHx. reflexivity.
Qed.

Lemma substring_suffix (x y : string) :
  substring (String.length x) (String.length y) (x +:+ y) = y.
Proof.
  induction x; [apply substring_all|].
  rewrite append_cons. cbn. exact IHx.
Qed.

(** *** Decimal printing: the last digit of [10 q + r] is [r] *)


Lemma string_of_uint_to_list d :
  NilEmpty.string_of_uint d = string_of_list_ascii (map digit_char (to_list d)).
Proof. induction d; cbn; try rewrite IHd; reflexivity. Qed.

Lemma N_below_ten (r : N) : (r < 10)%N ->
  r = 0%N \/ r = 1%N \/ r = 2%N \/ r = 3%N \/ r = 4%N \/
  r = 5%N \/ r = 6%N \/ r = 7%N \/ r = 8%N \/ r = 9%N.
Proof. lia. Qed.

Lemma to_uint_rev_lu n : N.to_uint n = Decimal.rev (DecimalPos.Unsigned.to_lu n).
Proof. destruct n; reflexivity. Qed.

Ltac succs r p :=
  match r with
  | O => constr:((10 * N.pos p)%N)
  | S ?r' => let t := succs r' p in constr:(N.succ t)
  end.

Lemma to_lu_snoc (q r : N) : (0 < q)%N -> (r < 10)%N ->
  to_list (DecimalPos.Unsigned.to_lu (10 * q + r))
  = digit_of r :: to_list (DecimalPos.Unsigned.to_lu q).
Proof.
  intros Hq Hr. destruct q as [|p]; [lia|].
  pose proof (DecimalPos.Unsigned.to_ldec_tenfold p) as T.
  destruct (N_below_ten r Hr) as [->|[->|[->|[->|[->|[->|[->|[->|[->| ->]]]]]]]]].
  - rewrite N.add_0_r, T. reflexivity.
  - let t := succs 1%nat p in replace (10 * N.pos p + 1)%N with t by lia.
    rewrite !DecimalPos.Unsigned.to_lu_succ, T. reflexivity.
  - let t := succs 2%nat p in replace (10 * N.pos p + 2)%N with t by lia.
    rewrite !DecimalPos.Unsigned.to_lu_succ, T. reflexivity.
  - let t := succs 3%nat p in replace (10 * N.pos p + 3)%N with t by lia.
    rewrite !DecimalPos.Unsigned.to_lu_succ, T. reflexivity.
  - let t := succs 4%nat p in replace (10 * N.pos p + 4)%N with t by lia.
    rewrite !DecimalPos.Unsigned.to_lu_succ, T. reflexivity.
  - let t := succs 5%nat p in replace (10 * N.pos p + 5)%N with t by lia.
    rewrite !DecimalPos.Unsigned.to_lu_succ, T. reflexivity.
  - let t := succs 6%nat p in replace (10 * N.pos p + 6)%N with t by lia.
    rewrite !DecimalPos.Unsigned.to_lu_succ, T. reflexivity.
  - let t := succs 7%nat p in replace (10 * N.pos p + 7)%N with t by lia.
    rewrite !DecimalPos.Unsigned.to_lu_succ, T. reflexivity.
  - let t := succs 8%nat p in replace (10 * N.pos p + 8)%N with t by lia.
    rewrite !DecimalPos.Unsigned.to_lu_succ, T. reflexivity.
  - let t := succs 9%nat p in replace (10 * N.pos p + 9)%N with t by lia.
    rewrite !DecimalPos.Unsigned.to_lu_succ, T. reflexivity.
Qed.

Lemma to_uint_snoc (q r : N) : (0 < q)%N -> (r < 10)%N ->
  to_list (N.to_uint (10 * q + r)) = to_list (N.to_uint q) ++ [digit_of r].
Proof.
  intros Hq Hr. rewrite !to_uint_rev_lu, !rev_spec, to_lu_snoc by assumption.
  reflexivity.
Qed.

Lemma to_uint_nonnil n : N.to_uint n <> Nil.
Proof. destruct n; [discriminate|apply DecimalPos.Unsigned.to_uint_nonnil]. Qed.

Lemma dec_to_list n :
  dec n = string_of_list_ascii (map digit_char (to_list (N.to_uint (Z.to_N n)))).
Proof.
  unfold dec, NilZero.string_of_uint.
  pose proof (to_uint_nonnil (Z.to_N n)) as H.
  destruct (N.to_uint (Z.to_N n)); try contradiction; apply string_of_uint_to_list.
Qed.

Lemma string_of_list_ascii_app l1 l2 :
  string_of_list_ascii (l1 ++ l2)
  = string_of_list_ascii l1 +:+ string_of_list_ascii l2.
Proof.
  induction l1; [reflexivity|].
  cbn [app string_of_list_ascii]. rewrite IHl1. reflexivity.
Qed.

Lemma dec_digit r :
  (0 <= r < 10)%Z -> dec r = String (digit_char (digit_of (Z.to_N r))) "".
Proof.
  intros H.
  assert (r = 0 \/ r = 1 \/ r = 2 \/ r = 3 \/ r = 4 \/
          r = 5 \/ r = 6 \/ r = 7 \/ r = 8 \/ r = 9)%Z
    as [->|[->|[->|[->|[->|[->|[->|[->|[->| ->]]]]]]]]] by lia; reflexivity.
Qed.

Lemma dec_snoc q r :
  (0 < q)%Z -> (0 <= r < 10)%Z -> dec (10 * q + r) = dec q +:+ dec r.
Proof.
  intros Hq Hr. rewrite (dec_to_list (10 * q + r)), (dec_to_list q), (dec_digit r Hr).
  replace (Z.to_N (10 * q + r)) with (10 * Z.to_N q + Z.to_N r)%N by lia.
  rewrite to_uint_snoc by lia.
  rewrite map_app, string_of_list_ascii_app. reflexivity.
Qed.

Lemma dec_length_pos n : (0 < String.length (dec n))%nat.
Proof.
  rewrite dec_to_list. pose proof (to_uint_nonnil (Z.to_N n)) as H.
  destruct (N.to_uint (Z.to_N n)); try contradiction; cbn; lia.
Qed.

(** *** toFixed(1) *)

Lemma toFixed1_n_nonneg num k : (0 <= k -> 0 <= toFixed1_n num k)%Z.
Proof.
  intros Hk. unfold toFixed1_n.
  apply Z.div_pos; pose proof (Z.pow_pos_nonneg 2 k); lia.
Qed.

(** The tenths chosen are the nearest ones, the larger on a tie. *)
Lemma toFixed1_n_nearest num k : (0 <= k)%Z ->
  (- 2 ^ k <= 2 * (10 * Z.abs num - toFixed1_n num k * 2 ^ k) < 2 ^ k)%Z.
Proof.
  intros Hk. unfold toFixed1_n.
  assert (0 < 2 ^ k)%Z as HP by (apply Z.pow_pos_nonneg; lia).
  set (P := (2 ^ k)%Z) in *. set (a := Z.abs num).
  pose proof (Z.div_mod (2 * 10 * a + P) (2 * P) ltac:(lia)) as D.
  pose proof (Z.mod_pos_bound (2 * 10 * a + P) (2 * P) ltac:(lia)) as B.
  nia.
Qed.

(** The text is the integer part, a point and one digit. *)
Lemma toFixed1_digits num k : (0 <= k)%Z ->
  toFixed1 num k =
  (if (num <? 0)%Z then "-" else "")
  +:+ dec (toFixed1_n num k / 10) +:+ "." +:+ dec (toFixed1_n num k mod 10).
Proof.
  intros Hk. unfold toFixed1.
  pose proof (toFixed1_n_nonneg num k Hk) as Hn.
  set (n := toFixed1_n num k) in *.
  pose proof (Z.div_mod n 10 ltac:(lia)) as D.
  pose proof (Z.mod_pos_bound n 10 ltac:(lia)) as B.
  destruct (Z_lt_dec n 10) as [Hs|Hl].
  - rewrite (Z.div_small n 10), (Z.mod_small n 10) by lia.
    rewrite (dec_digit n) by lia. reflexivity.
  - assert (0 < n / 10)%Z as Hq by (apply Z.div_str_pos; lia).
    assert (E : dec n = dec (n / 10) +:+ dec (n mod 10)).
    { rewrite D at 1. apply dec_snoc; lia. }
    rewrite E, (dec_digit (n mod 10)) by lia.
    set (x := dec (n / 10)).
    set (c := digit_char (digit_of (Z.to_N (n mod 10)))).
    pose proof (dec_length_pos (n / 10)) as Hx. fold x in Hx.
    assert (L : String.length (x +:+ String c "") = S (String.length x)).
    { rewrite length_append. cbn [String.length]. lia. }
    rewrite L.
    replace (S (String.length x) <=? 1)%nat with false
      by (symmetry; apply Nat.leb_gt; lia).
    rewrite L.
    replace (S (String.length x) - 1)%nat with (String.length x) by lia.
    rewrite substring_prefix.
    change 1%nat with (String.length (String c "")) at 1.
    rewrite substring_suffix. reflexivity.
Qed.

(** *** split and pop *)

Lemma split_nonempty sep s : split sep s <> [].
Proof.
  destruct s as [|c rest]; cbn; [discriminate|].
  destruct (Ascii.eqb c sep); [discriminate|].
  destruct (split sep rest); discriminate.
Qed.

Lemma pop_split sep s : exists piece, pop (split sep s) = Some piece.
Proof.
  unfold pop. pose proof (split_nonempty sep s) as H.
  destruct (last (split sep s)) as [piece|] eqn:E; [eauto|].
  apply last_None in E. contradiction.
Qed.


Lemma split_without sep s : occurs sep s = false -> split sep s = [s].
Proof.
  induction s as [|c rest IH]; cbn; [reflexivity|].
  intros H. apply orb_false_iff in H as [Hc Hrest].
  rewrite Hc, (IH Hrest). reflexivity.
Qed.

(** Splitting around one occurrence of the separator. *)
Lemma split_app sep pre suf :
  split sep (pre +:+ String sep suf) = split sep pre ++ split sep suf.
Proof.
  induction pre as [|c rest IH].
  - rewrite append_nil. cbn. rewrite Ascii.eqb_refl. reflexivity.
  - rewrite append_cons. cbn [split]. rewrite IH.
    destruct (Ascii.eqb c sep); [reflexivity|].
    pose proof (split_nonempty sep rest) as Hne.
    destruct (split sep rest) as [|x xs]; [contradiction|reflexivity].
Qed.

(** What follows the last separator is the last piece. *)
Lemma pop_split_app sep pre suf :
  occurs sep suf = false ->
  pop (split sep (pre +:+ String sep suf)) = Some suf.
Proof.
  intros H. unfold pop. rewrite split_app, (split_without _ _ H), last_app.
  reflexivity.
Qed.

End JSFacts.

(** ** Facts about the DOM operations *)

Module DOMFacts.

Import DOM.

(** *** Class lists and listeners *)

Lemma add_token_elem l t : t ∈ add_token l t.
Proof.
  unfold add_token. case_bool_decide; [assumption|].
  apply elem_of_app. right. apply list_elem_of_singleton. reflexivity.
Qed.

Lemma add_token_idem l t : add_token (add_token l t) t = add_token l t.
Proof.
  unfold add_token at 1. rewrite bool_decide_eq_true_2; [reflexivity|].
  apply add_token_elem.
Qed.

Lemma remove_token_not_elem l t : t ∉ remove_token l t.
Proof.
  unfold remove_token. intros H. apply list_elem_of_filter in H as [H _].
  apply H. reflexivity.
Qed.

Lemma remove_token_elem l t u : u ∈ remove_token l t <-> u ≠ t ∧ u ∈ l.
Proof. unfold remove_token. rewrite list_elem_of_filter. reflexivity. Qed.


Lemma add_listener_idem type f l :
  add_listener type f (add_listener type f l) = add_listener type f l.
Proof.
  unfold add_listener at 1. rewrite bool_decide_eq_true_2; [reflexivity|].
  unfold add_listener. case_bool_decide; [assumption|].
  apply elem_of_app. right. apply list_elem_of_singleton. reflexivity.
Qed.


Lemma same_look_refl e : same_look e e.
Proof. repeat split. Qed.

Lemma same_look_trans e1 e2 e3 :
  same_look e1 e2 -> same_look e2 e3 -> same_look e1 e3.
Proof.
  unfold same_look. intros (?&?&?&?&?&?) (?&?&?&?&?&?).
  repeat split; congruence.
Qed.

Lemma same_look_children f e : same_look e (with_childNodes f e).
Proof. repeat split. Qed.

Lemma same_look_parent p e : same_look e (with_parentNode p e).
Proof. repeat split. Qed.


Lemma alike_refl h : alike h h.
Proof. intros m. destruct (h !! m); [apply same_look_refl|exact I]. Qed.

Lemma alike_trans h1 h2 h3 : alike h1 h2 -> alike h2 h3 -> alike h1 h3.
Proof.
  intros H12 H23 m. specialize (H12 m). specialize (H23 m).
  destruct (h1 !! m), (h2 !! m), (h3 !! m); try contradiction; try exact I.
  eapply same_look_trans; eassumption.
Qed.

Lemma alike_alter f n h :
  (∀ e, same_look e (f e)) -> alike h (alter f n h).
Proof.
  intros Hf m. rewrite lookup_alter. destruct (decide (n = m)) as [->|].
  - destruct (h !! m); cbn; [apply Hf|exact I].
  - destruct (h !! m); [apply same_look_refl|exact I].
Qed.

Lemma alike_lookup h h' m e :
  alike h h' -> h !! m = Some e -> ∃ e', h' !! m = Some e' ∧ same_look e e'.
Proof.
  intros H E. specialize (H m). rewrite E in H.
  destruct (h' !! m) as [e'|]; [eauto|contradiction].
Qed.

(** *** Operations that only move nodes around *)

Lemma orphans_next cs d : next (foldr orphan d cs) = next d.
Proof.
  induction cs as [|c cs IH]; [reflexivity|].
  cbn [foldr]. destruct c; cbn; exact IH.
Qed.

Lemma orphans_alike cs d : alike (heap d) (heap (foldr orphan d cs)).
Proof.
  induction cs as [|c cs IH]; [apply alike_refl|].
  cbn [foldr]. destruct c; cbn; try exact IH.
  eapply alike_trans; [exact IH|].
  apply alike_alter. intros e. apply same_look_parent.
Qed.

Lemma replace_children_next n cs d : next (replace_children n cs d) = next d.
Proof.
  unfold replace_children. destruct (heap d !! n); [|reflexivity].
  cbn. apply orphans_next.
Qed.

Lemma replace_children_alike n cs d : alike (heap d) (heap (replace_children n cs d)).
Proof.
  unfold replace_children. destruct (heap d !! n); [|apply alike_refl].
  cbn. eapply alike_trans; [apply orphans_alike|].
  apply alike_alter. intros e'. apply same_look_children.
Qed.

Lemma replace_children_lookup n cs d e :
  heap d !! n = Some e ->
  ∃ e', heap (replace_children n cs d) !! n = Some e'
        ∧ same_look e e' ∧ childNodes e' = cs.
Proof.
  intros E. unfold replace_children. rewrite E. cbn.
  destruct (alike_lookup _ _ _ _ (orphans_alike (childNodes e) d) E) as (e1 & E1 & L1).
  rewrite lookup_alter_eq, E1. cbn. eexists. split; [reflexivity|].
  split; [|reflexivity].
  eapply same_look_trans; [exact L1|apply same_look_children].
Qed.

Lemma remove_next n d : next (remove n d) = next d.
Proof.
  unfold remove. destruct (heap d !! n) as [e|]; [|reflexivity].
  destruct (parentNode e); reflexivity.
Qed.

Lemma remove_alike n d : alike (heap d) (heap (remove n d)).
Proof.
  unfold remove. destruct (heap d !! n) as [e|]; [|apply alike_refl].
  destruct (parentNode e); [|apply alike_refl]. cbn.
  eapply alike_trans; apply alike_alter; intros e'.
  - apply same_look_children.
  - apply same_look_parent.
Qed.

End DOMFacts.

(** ** Running the methods *)

Module ToolFacts.

Import DOM Tool JSFacts DOMFacts.

(** *** One step at a time *)

Lemma bind_bind {A B C} (m : M A) (k1 : A -> M B) (k2 : B -> M C) s :
  bind (bind m k1) k2 s = bind m (λ a, bind (k1 a) k2) s.
Proof. unfold bind. destruct (m s) as [[a|e] s']; reflexivity. Qed.

Lemma bind_ret {A B} (a : A) (k : A -> M B) s : bind (ret a) k s = k a s.
Proof. reflexivity. Qed.

Lemma bind_throw {A B} e (k : A -> M B) s : bind (throw e) k s = (Throw e, s).
Proof. reflexivity. Qed.

Lemma step_gets {A B} (f : tool -> A) (k : A -> M B) s a :
  f s = a -> bind (gets f) k s = k a s.
Proof. intros <-. reflexivity. Qed.

Lemma step_modify {B} (f : tool -> tool) (k : unit -> M B) s s' :
  f s = s' -> bind (modify f) k s = k tt s'.
Proof. intros <-. reflexivity. Qed.

Lemma step_dom {B} (f : document -> document) (k : unit -> M B) s s' :
  with_doc f s = s' -> bind (dom f) k s = k tt s'.
Proof. intros <-. reflexivity. Qed.

Lemma step_createElement {B} tag (k : node -> M B) s n s' :
  next (doc s) = n ->
  with_doc (λ d, Document (<[next d := Element tag [] None [] None [] None []]> (heap d))
                          (S (next d))) s = s' ->
  bind (Tool.createElement tag) k s = k n s'.
Proof. intros <- <-. reflexivity. Qed.

Lemma step_deref {A B} (a : A) (k : A -> M B) s :
  bind (deref (Some a)) k s = k a s.
Proof. reflexivity. Qed.

Lemma step_run {A B} (m : M A) (k : A -> M B) s a s' :
  m s = (Ok a, s') -> bind m k s = k a s'.
Proof. unfold bind. intros ->. reflexivity. Qed.

Lemma last_dom (f : document -> document) s s' :
  with_doc f s = s' -> dom f s = (Ok tt, s').
Proof. intros <-. reflexivity. Qed.

Lemma last_modify (f : tool -> tool) s s' :
  f s = s' -> modify f s = (Ok tt, s').
Proof. intros <-. reflexivity. Qed.

Lemma alter_lookup_insert (f : element -> element) (h : gmap nat element) n e :
  h !! n = Some e -> alter f n h = <[n := f e]> h.
Proof. intros H. rewrite alter_alt, H. reflexivity. Qed.

(** Lookups in a store written as insertions over a known base. *)
Ltac lookup_tac :=
  repeat first
    [ rewrite lookup_insert_eq
    | rewrite lookup_insert_ne by lia ];
  try match goal with
      | H : ?h !! ?w = Some _ |- context [?h !! ?w] => rewrite H
      end.

(** Updates sink to the insertion of the node they touch. *)
Ltac alter_tac :=
  repeat first
    [ rewrite alter_insert_eq
    | rewrite alter_insert_ne by lia
    | match goal with
      | H : ?h !! ?w = Some _ |- context [alter _ ?w ?h] =>
          rewrite (alter_lookup_insert _ h w _ H)
      end ].

Ltac state_tac :=
  unfold with_doc, with_nodes, with_displayData, with_data, with_notifier,
         with_dispatchChange, with_timers, with_uploadSelectedFile, with_tooltip;
  cbn [doc nodes _displayData _data this_config notifier dispatchChange
       timers uploadSelectedFile tooltip wrapper button title heap next
       dd_file dd_title extension name size].

Ltac elem_tac :=
  unfold with_classList, with_style_color, with_attributes, with_contentEditable,
         with_childNodes, with_parentNode, with_listeners;
  cbn [tagName classList style_color attributes contentEditable childNodes
       parentNode listeners foldr orphan fold_left app heap next put_attribute
       String.eqb Ascii.eqb Bool.eqb filter].

Ltac doc_tac :=
  unfold classList_add, classList_remove, setAttribute, addEventListener,
         set_innerHTML, set_textContent, replace_children, appendChild, remove,
         update;
  cbn [heap next];
  repeat (progress (lookup_tac; elem_tac; unfold update; alter_tac)).

Ltac side := state_tac; try doc_tac; reflexivity.

Ltac css_tac :=
  cbn [CSS baseClass apiButton loader css_wrapper wrapperWithFile wrapperLoading
       css_button css_title css_size downloadButton fileInfo fileIcon].

Ltac mstep :=
  first
    [ rewrite bind_bind
    | rewrite bind_ret
    | rewrite step_deref
    | erewrite step_gets by side
    | erewrite step_modify by side
    | erewrite step_createElement by side
    | erewrite step_dom by side
    | erewrite last_dom by side
    | erewrite last_modify by side
    | match goal with
      | H : ?b = _ |- context [if ?b then _ else _] => rewrite H
      | H : ?x = _ |- context [match ?x with _ => _ end] => rewrite H
      end
    | progress css_tac
    | progress cbn [wrapper button title default JS.truthy_str JS.truthy_size negb]
    | progress change (negb (String.eqb ?s "")) with true ].

Ltac mrun := repeat mstep.

Section Runs.

Variable api : API.
Variables Icon FileIcon CustomFileIcon : string.

Lemma appendFileIcon_run h n w e b t dd dat cfg nt dc tm us tp :
  h !! w = Some e -> w < n ->
  appendFileIcon api FileIcon CustomFileIcon
    (Tool (Document h n) (Build_Nodes (Some w) b t) dd dat cfg nt dc tm us tp)
  = (Ok tt,
     Tool (Document (<[n := icon_element api FileIcon CustomFileIcon w dd]>
                       (<[w := with_childNodes (λ cs, cs ++ [Elem n]) e]> h))
                    (S n))
          (Build_Nodes (Some w) b t) dd dat cfg nt dc tm us tp).
Proof.
  intros Hw Hlt. destruct e as [tag cl col ats ed cs p ls].
  unfold appendFileIcon, icon_element, make, nodes_wrapper, assign_all, assign.
  destruct (property_truthy _) eqn:Hp.
  - destruct (EXTENSIONS_get _) as [c| |] eqn:Hg; try discriminate;
      destruct (3 <? String.length _)%nat eqn:Hl; mrun; reflexivity.
  - mrun. reflexivity.
Qed.

Lemma set_innerHTML_doc w html h n :
  set_innerHTML w html (Document h n)
  = Document (heap (set_innerHTML w html (Document h n))) n.
Proof.
  pose proof (replace_children_next w (markup html) (Document h n)) as H.
  unfold set_innerHTML. destruct (replace_children _ _ _) as [h' n']. cbn in *.
  congruence.
Qed.

Lemma showFileData_run h n w e1 b t dd dat cfg nt dc tm us tp :
  let h1 := heap (set_innerHTML w "" (Document h n)) in
  h1 !! w = Some e1 -> childNodes e1 = [] -> w < n ->
  showFileData api FileIcon CustomFileIcon
    (Tool (Document h n) (Build_Nodes (Some w) b t) dd dat cfg nt dc tm us tp)
  = (Ok tt,
     Tool (Document (card_heap api FileIcon CustomFileIcon w e1 n dd h1) (card_next n dd))
          (Build_Nodes (Some w) b (card_title n dd t)) dd dat cfg nt dc tm us tp).
Proof.
  intros h1 Hw Hcs Hlt. destruct e1 as [tag cl col ats ed cs p ls].
  cbn in Hcs. subst cs.
  unfold showFileData, nodes_wrapper.
  rewrite bind_bind. erewrite step_gets by side. cbn [wrapper]. rewrite step_deref.
  erewrite step_dom by (state_tac; rewrite set_innerHTML_doc; reflexivity).
  fold h1. clearbody h1.
  unfold card_heap, card_next, card_title.
  destruct (JS.truthy_str (dd_title dd)) eqn:Ht;
    destruct (JS.truthy_size (size (dd_file dd))) eqn:Hz.
  all: unfold make, assign_all, assign, nodes_wrapper, nodes_title;
    repeat first
      [ erewrite step_run
          by (apply appendFileIcon_run; [lookup_tac; reflexivity|lia]);
        elem_tac; rewrite insert_insert_eq
      | mstep ];
    reflexivity.
Qed.

(** *** The views *)

Lemma leaf_only_markup html : leaf_only (markup html).
Proof. unfold markup. destruct (String.eqb html ""); repeat constructor. Qed.

Lemma leaf_only_text t : leaf_only (text t).
Proof. unfold text. destruct (String.eqb t ""); repeat constructor. Qed.

Lemma snapshot_S d (h : gmap nat element) n :
  snapshot (S d) h n
  = match h !! n with
    | Some e =>
        TElem (tagName e) (classList e) (style_color e) (attributes e)
              (contentEditable e) (listeners e)
              (map (λ c, match c with
                         | Markup html => TMarkup html
                         | Text t => TText t
                         | Elem m => snapshot d h m
                         end) (childNodes e))
    | None => TCut
    end.
Proof. reflexivity. Qed.

Lemma snapshot_leaf d (h : gmap nat element) n e :
  h !! n = Some e -> leaf_only (childNodes e) -> snapshot (S d) h n = leaf e.
Proof.
  intros H L. rewrite snapshot_S, H. unfold leaf. f_equal.
  induction L as [|c cs Hc _ IH]; [reflexivity|].
  cbn [map]. rewrite IH. destruct c; [reflexivity|reflexivity|contradiction].
Qed.

Lemma cut_leaf d e : cut (S d) (leaf e) = leaf e.
Proof.
  unfold leaf. cbn [cut]. f_equal. rewrite map_map. apply map_ext.
  intros []; reflexivity.
Qed.

Lemma cut_0_leaf e : cut 0 (leaf e) = TCut.
Proof. reflexivity. Qed.

Lemma leaf_only_icon w dd :
  leaf_only (childNodes (icon_element api FileIcon CustomFileIcon w dd)).
Proof.
  unfold icon_element. destruct (property_truthy _); apply leaf_only_markup.
Qed.

Lemma leaf_parent_icon w w' dd :
  leaf (icon_element api FileIcon CustomFileIcon w dd)
  = leaf (icon_element api FileIcon CustomFileIcon w' dd).
Proof. unfold icon_element. destruct (property_truthy _); reflexivity. Qed.

(** A node that holds markup or text only, seen at any depth. *)
Lemma snapshot_cut_leaf d (h : gmap nat element) n e e' :
  h !! n = Some e -> leaf_only (childNodes e) -> leaf e = leaf e' ->
  snapshot d h n = cut d (leaf e').
Proof.
  intros H L E. destruct d; [reflexivity|].
  rewrite (snapshot_leaf d h n e H L), cut_leaf. exact E.
Qed.

Ltac leaf_tac :=
  eapply snapshot_cut_leaf;
  [ lookup_tac; reflexivity
  | first [ apply leaf_only_icon | apply leaf_only_text | apply leaf_only_markup ]
  | first [ apply leaf_parent_icon | reflexivity ] ].

Lemma card_view w e n dd (h1 : gmap nat element) depth :
  w < n ->
  snapshot depth (card_heap api FileIcon CustomFileIcon w e n dd h1) w
  = cut depth (file_card api FileIcon CustomFileIcon e dd).
Proof.
  intros Hlt. destruct depth as [|d]; [reflexivity|].
  rewrite snapshot_S. unfold card_heap, file_card.
  destruct (JS.truthy_str (dd_title dd));
    destruct (JS.truthy_size (size (dd_file dd)));
    lookup_tac;
    cbn [tagName classList style_color attributes contentEditable listeners
         childNodes map cut app];
    (f_equal; f_equal; [leaf_tac|]; f_equal;
     destruct d as [|d]; [reflexivity|];
      rewrite snapshot_S; lookup_tac;
      cbn [tagName classList style_color attributes contentEditable listeners
           childNodes map cut app info_element];
      repeat (f_equal; try leaf_tac)).
Qed.

Lemma prepareUploadButton_run h n w e b t dd dat cfg nt dc tm us tp :
  h !! w = Some e -> w < n ->
  prepareUploadButton api Icon
    (Tool (Document h n) (Build_Nodes (Some w) b t) dd dat cfg nt dc tm us tp)
  = (Ok tt,
     Tool (Document (<[n := button_element api Icon w (buttonText cfg)]>
                       (<[w := with_childNodes (λ cs, cs ++ [Elem n]) e]> h))
                    (S n))
          (Build_Nodes (Some w) (Some n) t) dd dat cfg nt dc tm us tp).
Proof.
  intros Hw Hlt. destruct e as [tag cl col ats ed cs p ls].
  unfold prepareUploadButton, make, assign_all, nodes_wrapper, nodes_button.
  mrun. reflexivity.
Qed.

Lemma leaf_only_button w label :
  leaf_only (childNodes (button_element api Icon w label)).
Proof. apply leaf_only_markup. Qed.

Ltac view_tac :=
  let depth := fresh "depth" in
  intros depth; destruct depth as [|depth]; [reflexivity|];
  rewrite snapshot_S; lookup_tac;
  cbn [tagName classList style_color attributes contentEditable listeners
       childNodes map cut app];
  f_equal; repeat (f_equal; try leaf_tac);
  (destruct depth as [|depth];
   [ reflexivity
   | rewrite snapshot_S; lookup_tac;
     cbn [tagName classList style_color attributes contentEditable listeners
          childNodes map cut app info_element];
     repeat (f_equal; try leaf_tac) ]).

Lemma render_run h n w0 b t dd dat cfg nt dc tm us tp :
  let s := Tool (Document h n) (Build_Nodes w0 b t) dd dat cfg nt dc tm us tp in
  ∃ h' n' t',
    render api Icon FileIcon CustomFileIcon s
    = (Ok n,
       Tool (Document h' n')
            (Build_Nodes (Some (S n))
                         (if pluginHasData s then b else Some (S (S n))) t')
            dd dat cfg nt dc tm us tp)
    ∧ S n < n'
    ∧ is_Some (h' !! S n)
    ∧ ∀ depth,
        snapshot depth h' (S n)
        = cut depth
            (if pluginHasData s
             then file_card api FileIcon CustomFileIcon (fresh_wrapper api) dd
             else upload_button api Icon (fresh_wrapper api) (buttonText cfg)).
Proof.
  intros s.
  destruct (pluginHasData s) eqn:Hh; subst s;
    unfold pluginHasData in Hh; cbn [_displayData] in Hh.
  - destruct (negb (String.eqb (baseClass (CSS api)) "")) eqn:Hb;
      destruct (JS.truthy_str (dd_title dd)) eqn:Ht;
      destruct (JS.truthy_size (size (dd_file dd))) eqn:Hz;
      (eexists _, _, _; split;
       [ unfold render, make, assign_all;
         mrun; unfold pluginHasData; cbn [_displayData]; rewrite Hh;
         (erewrite step_run
            by (apply showFileData_run;
                [doc_tac; lookup_tac; reflexivity|reflexivity|lia]));
         unfold card_heap, card_next, card_title; rewrite ?Ht, ?Hz;
         doc_tac; unfold markup; elem_tac; rewrite ?insert_insert_eq;
         cbn [Nat.add]; unfold nodes_wrapper; mrun; reflexivity
       | split; [lia|]; split; [lookup_tac; eauto|];
         unfold file_card, fresh_wrapper; rewrite ?Ht, ?Hz; view_tac ]).
  - destruct (negb (String.eqb (baseClass (CSS api)) "")) eqn:Hb;
      (eexists _, _, _; split;
       [ unfold render, make, assign_all;
         mrun; unfold pluginHasData; cbn [_displayData]; rewrite Hh;
         (erewrite step_run
            by (apply prepareUploadButton_run; [lookup_tac; reflexivity|lia]));
         elem_tac; rewrite ?insert_insert_eq;
         unfold nodes_wrapper; mrun; reflexivity
       | split; [lia|]; split; [lookup_tac; eauto|];
         unfold upload_button, fresh_wrapper; view_tac ]).
Qed.

(** The extension [onUpload] derives from a file name. *)
Lemma derive_extension_run name s :
  derive_extension name s
  = (Ok (if JS.truthy_str name
         then JS.toLowerCase (default "" (JS.pop (JS.split "." (default "" name))))
         else ""), s).
Proof.
  unfold derive_extension. destruct (JS.truthy_str name); [|reflexivity].
  destruct (pop_split "." (default "" name)) as [piece E]. rewrite E. reflexivity.
Qed.

Lemma remove_doc b h n : remove b (Document h n) = Document (heap (remove b (Document h n))) n.
Proof.
  pose proof (remove_next b (Document h n)) as H.
  destruct (remove _ _) as [h' n']. cbn in *. congruence.
Qed.

Lemma file_card_look e e' dd :
  same_look e e' ->
  file_card api FileIcon CustomFileIcon e' dd = file_card api FileIcon CustomFileIcon e dd.
Proof.
  intros (H1 & H2 & H3 & H4 & H5 & H6). unfold file_card.
  rewrite H1, H2, H3, H4, H5, H6. reflexivity.
Qed.

Lemma onUpload_run h n w b e t dd dat cfg nt dc tm us tp r f :
  h !! w = Some e -> w < n ->
  JS.truthy (success r) = true -> file r = Some f ->
  ∃ h1 e1,
    same_look e e1
    ∧ onUpload api FileIcon CustomFileIcon r
        (Tool (Document h n) (Build_Nodes (Some w) (Some b) t) dd dat cfg nt dc tm us tp)
      = (Ok tt,
         Tool (Document (card_heap api FileIcon CustomFileIcon w e1 n (uploaded f) h1)
                        (card_next n (uploaded f)))
              (Build_Nodes (Some w) (Some b) (card_title n (uploaded f) t))
              (uploaded f) dat cfg nt dc (S tm) us tp).
Proof.
  intros Hw Hlt Hs Hf.
  pose proof (remove_alike b (Document h n)) as A1. cbn [heap] in A1.
  set (h2 := heap (remove b (Document h n))) in *.
  destruct (alike_lookup _ _ _ _ A1 Hw) as (e2 & Hw2 & L2).
  destruct (replace_children_lookup w (markup "") (Document h2 n) e2 Hw2)
    as (e1 & Hw1 & L1 & C1).
  exists (heap (set_innerHTML w "" (Document h2 n))), e1.
  split; [eapply same_look_trans; eassumption|].
  unfold onUpload. rewrite Hs, Hf.
  erewrite step_run by apply derive_extension_run.
  unfold nodes_button.
  do 5 mstep.
  erewrite step_dom by (state_tac; rewrite remove_doc; reflexivity).
  fold h2.
  erewrite step_run by (apply showFileData_run; [exact Hw1|exact C1|exact Hlt]).
  reflexivity.
Qed.

(** Where the wrapper sits in the store of a file card. *)
Lemma card_heap_wrapper w e n dd (h : gmap nat element) :
  w < n ->
  ∃ e', card_heap api FileIcon CustomFileIcon w e n dd h !! w = Some e'
        ∧ tagName e' = tagName e
        ∧ classList e' = add_token (classList e) (wrapperWithFile (CSS api))
        ∧ style_color e' = style_color e ∧ attributes e' = attributes e
        ∧ contentEditable e' = contentEditable e
        ∧ listeners e' = add_listener "click" EnableFileUpload (listeners e).
Proof.
  intros Hlt. unfold card_heap.
  destruct (JS.truthy_str (dd_title dd)); destruct (JS.truthy_size (size (dd_file dd)));
    lookup_tac; eexists; (split; [reflexivity|]); repeat split.
Qed.

Lemma card_next_le n dd : n < card_next n dd.
Proof. unfold card_next. lia. Qed.

(** Showing the card again over a card changes nothing to its look. *)
Lemma file_card_again e e' dd :
  tagName e' = tagName e ->
  classList e' = add_token (classList e) (wrapperWithFile (CSS api)) ->
  style_color e' = style_color e -> attributes e' = attributes e ->
  contentEditable e' = contentEditable e ->
  listeners e' = add_listener "click" EnableFileUpload (listeners e) ->
  file_card api FileIcon CustomFileIcon e' dd = file_card api FileIcon CustomFileIcon e dd.
Proof.
  intros H1 H2 H3 H4 H5 H6. unfold file_card.
  rewrite H1, H2, H3, H4, H5, H6, add_token_idem, add_listener_idem. reflexivity.
Qed.


End Runs.

Section Settings.

Variable api : API.
Variables Icon FileIcon CustomFileIcon : string.

Abbreviation onUpload' := (onUpload api FileIcon CustomFileIcon).
Abbreviation step' := (step api Icon FileIcon CustomFileIcon).

(** *** The settings menu touches new nodes only *)

Lemma tune_button_run entry tune h n ws e nd dd dat cfg nt dc tm us tp :
  h !! ws = Some e -> ws < n ->
  tune_button api ws entry tune (Tool (Document h n) nd dd dat cfg nt dc tm us tp)
  = (Ok tt,
     Tool (Document
             (<[n := Element "div" ["cdx-settings-button"] None [] None
                             (markup (tune_icon tune)) (Some ws)
                             (if tune_onClick tune then [("click", TuneClick entry)] else [])]>
                (<[ws := with_childNodes (λ cs, cs ++ [Elem n]) e]> h))
             (S n))
          nd dd dat cfg nt dc tm us (tp ++ [(n, i18n_t api (tune_title tune))])).
Proof.
  intros Hw Hlt. destruct e as [tag cl col ats ed cs p ls].
  unfold tune_button. destruct (tune_onClick tune) eqn:Hc; mrun; reflexivity.
Qed.

Lemma forEach_tune_run tunes :
  ∀ entry h n ws e nd dd dat cfg nt dc tm us tp,
    h !! ws = Some e -> ws < n ->
    ∃ h' n' tp',
      forEach_tune api ws entry tunes (Tool (Document h n) nd dd dat cfg nt dc tm us tp)
      = (Ok tt, Tool (Document h' n') nd dd dat cfg nt dc tm us tp')
      ∧ n <= n'
      ∧ is_Some (h' !! ws)
      ∧ ∀ m, m < n -> m ≠ ws -> h' !! m = h !! m.
Proof.
  induction tunes as [|tune rest IH];
    intros entry h n ws e nd dd dat cfg nt dc tm us tp Hw Hlt.
  - exists h, n, tp. repeat split; eauto.
  - cbn [forEach_tune].
    erewrite step_run by (apply tune_button_run; eassumption).
    edestruct (IH (S entry)) as (h' & n' & tp' & E & Hn & Hs & Hold);
      [| |exists h', n', tp'; split; [exact E|]].
    + lookup_tac. reflexivity.
    + lia.
    + split; [lia|]. split; [exact Hs|].
      intros m Hm Hne. rewrite Hold by lia.
      rewrite lookup_insert_ne by lia. rewrite lookup_insert_ne by congruence.
      reflexivity.
Qed.

Lemma renderSettings_run h n nd dd dat cfg nt dc tm us tp :
  ∃ h' n' tp',
    renderSettings api (Tool (Document h n) nd dd dat cfg nt dc tm us tp)
    = (Ok n, Tool (Document h' n') nd dd dat cfg nt dc tm us tp')
    ∧ n < n'
    ∧ ∀ m, m < n -> h' !! m = h !! m.
Proof.
  unfold renderSettings.
  edestruct (forEach_tune_run (settings cfg) 0
               (<[n := Element "div" ["file-selector-settings"] None [] None [] None []]> h)
               (S n) n) as (h' & n' & tp' & E & Hn & _ & Hold);
    [apply lookup_insert_eq|lia|].
  exists h', n', tp'. split.
  - mrun. erewrite step_run by exact E. reflexivity.
  - split; [lia|]. intros m Hm. rewrite Hold by lia.
    apply lookup_insert_ne. lia.
Qed.

(** [save], [validate] and [rendered] leave the tool as it is. *)
Lemma exec_save s : exec (gets save >> ret tt) s = s.
Proof. reflexivity. Qed.

Lemma exec_validate savedData s : exec (ret (validate savedData) >> ret tt) s = s.
Proof. reflexivity. Qed.

Lemma exec_rendered_hook s : exec rendered_hook s = s.
Proof. reflexivity. Qed.

Lemma exec_renderSettings h n nd dd dat cfg nt dc tm us tp :
  ∃ h' n' tp',
    exec (renderSettings api >> ret tt) (Tool (Document h n) nd dd dat cfg nt dc tm us tp)
    = Tool (Document h' n') nd dd dat cfg nt dc tm us tp'
    ∧ n < n'
    ∧ ∀ m, m < n -> h' !! m = h !! m.
Proof.
  destruct (renderSettings_run h n nd dd dat cfg nt dc tm us tp)
    as (h' & n' & tp' & E & Hn & Hold).
  exists h', n', tp'. split; [|auto].
  unfold exec. erewrite step_run by exact E. reflexivity.
Qed.

End Settings.

Section Rendered.

Variable api : API.
Variables Icon FileIcon CustomFileIcon : string.

Abbreviation onUpload' := (onUpload api FileIcon CustomFileIcon).
Abbreviation step' := (step api Icon FileIcon CustomFileIcon).

(** *** Once rendered, always rendered *)


Lemma successful_inv r :
  successful r = true -> JS.truthy (success r) = true ∧ ∃ f, file r = Some f.
Proof.
  unfold successful. intros H. apply andb_true_iff in H as [H1 H2].
  apply bool_decide_eq_true in H2 as [f Hf]. eauto.
Qed.

Lemma unsuccessful_inv r :
  successful r = false ->
  (if JS.truthy (success r) then file r else None) = None.
Proof.
  unfold successful. intros H. destruct (JS.truthy (success r)); [|reflexivity].
  destruct (file r); [|reflexivity].
  rewrite bool_decide_eq_true_2 in H by eauto. discriminate.
Qed.

Lemma onUpload_failure r s :
  successful r = false ->
  onUpload' r s
  = (Ok tt,
     with_timers S
       (with_notifier
          (λ l, l ++ [{| message := errorMessage (this_config s); style := "error" |}])
          s)).
Proof.
  intros H. unfold onUpload. rewrite (unsuccessful_inv r H). reflexivity.
Qed.

Lemma rendered_onUpload r s :
  rendered s ->
  outcome (onUpload' r) s = Ok tt ∧ rendered (exec (onUpload' r) s).
Proof.
  intros (w & b & e & Hw & Hb & He & Hlt).
  destruct s as [[h n] [w0 b0 t] dd dat cfg nt dc tm us tp]. cbn in Hw, Hb, He, Hlt.
  subst w0 b0.
  destruct (successful r) eqn:Hs.
  - destruct (successful_inv r Hs) as (Ht & f & Hf).
    destruct (onUpload_run api FileIcon CustomFileIcon h n w b e t dd dat cfg nt dc tm us tp r f He Hlt Ht Hf)
      as (h1 & e1 & L & E).
    unfold outcome, exec. rewrite E. split; [reflexivity|].
    destruct (card_heap_wrapper api FileIcon CustomFileIcon w e1 n (uploaded f) h1 Hlt) as (e' & He' & _).
    exists w, b, e'. cbn. repeat split; [exact He'|].
    pose proof (card_next_le n (uploaded f)). lia.
  - unfold outcome, exec. rewrite (onUpload_failure r _ Hs). split; [reflexivity|].
    exists w, b, e. cbn. repeat split; assumption.
Qed.

Lemma rendered_step ev s : rendered s -> rendered (exec (step' ev) s).
Proof.
  intros R. destruct ev as [|v| | |r|msg| | | |sd| ]; cbn [step].
  - destruct R as (w & b & e & Hw & Hb & He & Hlt).
    destruct s as [[h n] [w0 b0 t] dd dat cfg nt dc tm us tp]. cbn in Hw, Hb, He, Hlt.
    subst w0 b0.
    destruct (render_run api Icon FileIcon CustomFileIcon h n (Some w) (Some b) t dd dat cfg nt dc tm us tp)
      as (h' & n' & t' & E & Hn & [e' He'] & _).
    unfold exec. erewrite step_run by exact E. cbn.
    match goal with |- context [pluginHasData ?x] => destruct (pluginHasData x) end.
    + exists (S n), b, e'. cbn. repeat split; assumption.
    + exists (S n), (S (S n)), e'. cbn. repeat split; assumption.
  - destruct R as (w & b & e & Hw & Hb & He & Hlt). exists w, b, e.
    destruct s as [[h n] [w0 b0 t] dd dat cfg nt dc tm us tp]. cbn in *. auto.
  - destruct R as (w & b & e & Hw & Hb & He & Hlt). exists w, b, e.
    destruct s as [[h n] [w0 b0 t] dd dat cfg nt dc tm us tp]. cbn in *. auto.
  - destruct R as (w & b & e & Hw & Hb & He & Hlt).
    destruct s as [[h n] [w0 b0 t] dd dat cfg nt dc tm us tp]. cbn in Hw, Hb, He, Hlt.
    subst w0 b0. unfold exec, onPreview, nodes_wrapper. mrun. cbn.
    eexists w, b, _. cbn. repeat split; [lookup_tac; reflexivity|assumption].
  - apply rendered_onUpload. exact R.
  - destruct R as (w & b & e & Hw & Hb & He & Hlt). exists w, b, e.
    destruct s as [[h n] [w0 b0 t] dd dat cfg nt dc tm us tp]. cbn in *. auto.
  - destruct R as (w & b & e & Hw & Hb & He & Hlt).
    destruct s as [[h n] [w0 b0 t] dd dat cfg nt dc tm us tp]. cbn in Hw, Hb, He, Hlt.
    subst w0 b0. unfold exec, removeLoader_callback, nodes_wrapper.
    destruct tm as [|tm]; mrun; cbn.
    + exists w, b, e. cbn. auto.
    + eexists w, b, _. cbn. repeat split; [lookup_tac; reflexivity|assumption].
  - destruct R as (w & b & e & Hw & Hb & He & Hlt).
    destruct s as [[h n] nd dd dat cfg nt dc tm us tp]. cbn in Hw, Hb, He, Hlt.
    destruct (exec_renderSettings api h n nd dd dat cfg nt dc tm us tp)
      as (h' & n' & tp' & E & Hn & Hold).
    rewrite E. exists w, b, e. cbn.
    repeat split; [assumption|assumption|rewrite Hold by lia; exact He|lia].
  - rewrite exec_save. exact R.
  - rewrite exec_validate. exact R.
  - rewrite exec_rendered_hook. exact R.
Qed.

End Rendered.

Section Twice.

Variable api : API.
Variables Icon FileIcon CustomFileIcon : string.

Abbreviation onUpload' := (onUpload api FileIcon CustomFileIcon).
Abbreviation step' := (step api Icon FileIcon CustomFileIcon).

(** *** The same upload twice *)

Lemma onUpload_twice r s depth :
  rendered s -> successful r = true ->
  view depth (exec (onUpload' r) (exec (onUpload' r) s))
  = view depth (exec (onUpload' r) s).
Proof.
  intros (w & b & e & Hw & Hb & He & Hlt) Hs.
  destruct s as [[h n] [w0 b0 t] dd dat cfg nt dc tm us tp]. cbn in Hw, Hb, He, Hlt.
  subst w0 b0.
  destruct (successful_inv r Hs) as (Ht & f & Hf).
  destruct (onUpload_run api FileIcon CustomFileIcon h n w b e t dd dat cfg nt dc tm us tp r f He Hlt Ht Hf)
    as (h1 & e1 & L1 & E1).
  unfold exec at 2 3. rewrite E1. cbn [snd].
  destruct (card_heap_wrapper api FileIcon CustomFileIcon w e1 n (uploaded f) h1 Hlt)
    as (e' & He' & F1 & F2 & F3 & F4 & F5 & F6).
  pose proof (card_next_le n (uploaded f)) as Hn.
  assert (Hlt' : w < card_next n (uploaded f)) by lia.
  destruct (onUpload_run api FileIcon CustomFileIcon _ _ w b e' (card_title n (uploaded f) t)
              (uploaded f) dat cfg nt dc (S tm) us tp r f He' Hlt' Ht Hf)
    as (h2 & e2 & L2 & E2).
  unfold exec. rewrite E2. unfold view. cbn [snd nodes wrapper doc heap].
  rewrite !card_view by assumption.
  rewrite (file_card_look api FileIcon CustomFileIcon e' e2 _ L2).
  rewrite (file_card_again api FileIcon CustomFileIcon e1 e' _ F1 F2 F3 F4 F5 F6).
  reflexivity.
Qed.

Lemma rendered_iter r k s :
  rendered s -> rendered (Nat.iter k (exec (onUpload' r)) s).
Proof.
  intros R. induction k as [|k IH]; [exact R|].
  cbn [Nat.iter]. apply rendered_onUpload. exact IH.
Qed.

Lemma onUpload_again r k s depth :
  rendered s -> successful r = true ->
  view depth (Nat.iter (S (S k)) (exec (onUpload' r)) s)
  = view depth (exec (onUpload' r) s).
Proof.
  intros R Hs. induction k as [|k IH].
  - cbn [Nat.iter]. apply onUpload_twice; assumption.
  - rewrite <- IH. 
    change (Nat.iter (S (S (S k))) (exec (onUpload' r)) s)
      with (exec (onUpload' r) (exec (onUpload' r) (Nat.iter (S k) (exec (onUpload' r)) s))).
    change (Nat.iter (S (S k)) (exec (onUpload' r)) s)
      with (exec (onUpload' r) (Nat.iter (S k) (exec (onUpload' r)) s)).
    apply onUpload_twice; [|assumption].
    apply rendered_iter. exact R.
Qed.

End Twice.

Section Frames.

Variable api : API.
Variables Icon FileIcon CustomFileIcon : string.

Abbreviation onUpload' := (onUpload api FileIcon CustomFileIcon).
Abbreviation step' := (step api Icon FileIcon CustomFileIcon).

(** *** What a call leaves alone, whether it returns or throws *)



Lemma keeps_bind {X A B} (proj : tool -> X) (m : M A) (k : A -> M B) :
  keeps proj m -> (∀ a, keeps proj (k a)) -> keeps proj (bind m k).
Proof.
  intros Hm Hk s. specialize (Hm s). unfold exec, bind in *.
  destruct (m s) as [[a|e] s']; cbn in *.
  - rewrite <- Hm. apply Hk.
  - exact Hm.
Qed.

Lemma keeps_ret {X A} (proj : tool -> X) (a : A) : keeps proj (ret a).
Proof. intros s. reflexivity. Qed.

Lemma keeps_throw {X A} (proj : tool -> X) e : keeps proj (@throw A e).
Proof. intros s. reflexivity. Qed.

Lemma keeps_gets {X A} (proj : tool -> X) (f : tool -> A) : keeps proj (gets f).
Proof. intros s. reflexivity. Qed.

Lemma keeps_deref {X A} (proj : tool -> X) (o : option A) : keeps proj (deref o).
Proof. destruct o; [apply keeps_ret|apply keeps_throw]. Qed.

Lemma keeps_modify {X} (proj : tool -> X) f :
  (∀ s, proj (f s) = proj s) -> keeps proj (modify f).
Proof. intros H s. apply H. Qed.

Section Beside.

Context {X : Type} (proj : tool -> X) (Hproj : beside_dom proj).

Lemma keeps_dom f : keeps proj (dom f).
Proof. intros s. apply Hproj. Qed.

Lemma keeps_nodes f : keeps proj (modify (with_nodes f)).
Proof. intros s. apply Hproj. Qed.

Lemma keeps_createElement tag : keeps proj (Tool.createElement tag).
Proof.
  intros s. unfold exec, Tool.createElement.
  destruct (DOM.createElement tag (doc s)) as [el d]. apply Hproj.
Qed.

Lemma keeps_nodes_wrapper : keeps proj nodes_wrapper.
Proof. apply keeps_bind; [apply keeps_gets|intros; apply keeps_deref]. Qed.

Lemma keeps_nodes_button : keeps proj nodes_button.
Proof. apply keeps_bind; [apply keeps_gets|intros; apply keeps_deref]. Qed.

Lemma keeps_nodes_title : keeps proj nodes_title.
Proof. apply keeps_bind; [apply keeps_gets|intros; apply keeps_deref]. Qed.

Ltac keeps_tac :=
  repeat first
    [ apply keeps_bind; [|intros]
    | apply keeps_ret
    | apply keeps_gets
    | apply keeps_deref
    | apply keeps_dom
    | apply keeps_nodes
    | apply keeps_createElement
    | apply keeps_nodes_wrapper
    | apply keeps_nodes_button
    | apply keeps_nodes_title
    | assumption
    | match goal with
      | |- keeps _ (if ?b then _ else _) => destruct b
      | |- keeps _ (match ?x with _ => _ end) => destruct x
      end ].

Lemma keeps_assign_all el attributes : keeps proj (assign_all el attributes).
Proof.
  induction attributes as [|a rest IH]; cbn [assign_all]; [apply keeps_ret|].
  unfold assign. keeps_tac.
Qed.

Lemma keeps_make tag cn attributes : keeps proj (make tag cn attributes).
Proof. unfold make. keeps_tac; try apply keeps_assign_all. Qed.

Lemma keeps_appendFileIcon : keeps proj (appendFileIcon api FileIcon CustomFileIcon).
Proof. unfold appendFileIcon. keeps_tac; try apply keeps_make. Qed.

Lemma keeps_showFileData : keeps proj (showFileData api FileIcon CustomFileIcon).
Proof.
  unfold showFileData. keeps_tac;
    try first [apply keeps_appendFileIcon | apply keeps_make].
Qed.

Lemma keeps_prepareUploadButton : keeps proj (prepareUploadButton api Icon).
Proof. unfold prepareUploadButton. keeps_tac; try apply keeps_make. Qed.

Lemma keeps_render : keeps proj (render api Icon FileIcon CustomFileIcon).
Proof.
  unfold render. keeps_tac;
    try first [apply keeps_make | apply keeps_showFileData | apply keeps_prepareUploadButton].
Qed.

Lemma keeps_onPreview : keeps proj (onPreview api).
Proof. unfold onPreview. keeps_tac. Qed.

Lemma keeps_removeLoader_callback : keeps proj (removeLoader_callback api).
Proof. unfold removeLoader_callback. keeps_tac. Qed.

Lemma keeps_renderSettings : keeps proj (renderSettings api >> ret tt).
Proof.
  intros [[h n] nd dd dat cfg nt dc tm us tp].
  destruct (exec_renderSettings api h n nd dd dat cfg nt dc tm us tp)
    as (h' & n' & tp' & E & _).
  rewrite E. destruct Hproj as (Hd & _ & Ht).
  change (Tool (Document h' n') nd dd dat cfg nt dc tm us tp')
    with (with_tooltip (λ _, tp')
            (with_doc (λ _, Document h' n')
               (Tool (Document h n) nd dd dat cfg nt dc tm us tp))).
  rewrite Ht, Hd. reflexivity.
Qed.

End Beside.

Lemma beside_displayData : beside_dom _displayData.
Proof. repeat split; reflexivity. Qed.

Lemma beside_data : beside_dom _data.
Proof. repeat split; reflexivity. Qed.

(** The display state moves on a successful upload, and only then. *)
Lemma displayData_onUpload r s :
  _displayData (exec (onUpload' r) s)
  = match (if JS.truthy (success r) then file r else None) with
    | Some f => uploaded f
    | None => _displayData s
    end.
Proof.
  unfold onUpload. destruct (if JS.truthy (success r) then file r else None) as [f|].
  - unfold exec. erewrite step_run by apply derive_extension_run.
    erewrite step_modify by reflexivity.
    match goal with
    | |- _displayData (snd (?m ?s0)) = _ => change (_displayData (exec m s0) = uploaded f)
    end.
    assert (K : keeps _displayData
                  (bind nodes_button (λ b, bind (dom (remove b))
                     (λ _, bind (showFileData api FileIcon CustomFileIcon) (λ _, removeLoader))))).
    { pose proof beside_displayData as B.
      apply keeps_bind; [apply keeps_nodes_button; exact B|intros b].
      apply keeps_bind; [apply keeps_dom; exact B|intros _].
      apply keeps_bind; [apply keeps_showFileData; exact B|intros _].
      intros s1. reflexivity. }
    rewrite K. reflexivity.
  - reflexivity.
Qed.

Lemma displayData_step ev s :
  _displayData (exec (step' ev) s)
  = match ev with
    | CallOnUpload r =>
        match (if JS.truthy (success r) then file r else None) with
        | Some f => uploaded f
        | None => _displayData s
        end
    | _ => _displayData s
    end.
Proof.
  pose proof beside_displayData as B.
  destruct ev as [|v| | |r|msg| | | |sd| ]; cbn [step].
  - apply keeps_bind; [apply keeps_render; exact B|intros; apply keeps_ret].
  - reflexivity.
  - reflexivity.
  - apply keeps_onPreview; exact B.
  - apply displayData_onUpload.
  - reflexivity.
  - apply keeps_bind; [apply keeps_gets|intros [|k]; [apply keeps_ret|]].
    apply keeps_bind; [intros s1; reflexivity|intros _].
    apply keeps_removeLoader_callback; exact B.
  - apply keeps_renderSettings; exact B.
  - reflexivity.
  - reflexivity.
  - reflexivity.
Qed.

(** The block data moves when the host assigns it, and only then. *)
Lemma data_onUpload r s : _data (exec (onUpload' r) s) = _data s.
Proof.
  pose proof beside_data as B.
  unfold onUpload. destruct (if JS.truthy (success r) then file r else None) as [f|].
  - revert s. apply keeps_bind; [intros s; unfold exec; rewrite derive_extension_run; reflexivity|intros ext].
    apply keeps_bind; [intros s; reflexivity|intros _].
    apply keeps_bind; [apply keeps_nodes_button; exact B|intros b].
    apply keeps_bind; [apply keeps_dom; exact B|intros _].
    apply keeps_bind; [apply keeps_showFileData; exact B|intros _].
    intros s1. reflexivity.
  - reflexivity.
Qed.

Lemma data_step ev s :
  _data (exec (step' ev) s)
  = match ev with
    | CallSetData v => JS.or v (JS.Obj [])
    | _ => _data s
    end.
Proof.
  pose proof beside_data as B.
  destruct ev as [|v| | |r|msg| | | |sd| ]; cbn [step].
  - apply keeps_bind; [apply keeps_render; exact B|intros; apply keeps_ret].
  - reflexivity.
  - reflexivity.
  - apply keeps_onPreview; exact B.
  - apply data_onUpload.
  - reflexivity.
  - apply keeps_bind; [apply keeps_gets|intros [|k]; [apply keeps_ret|]].
    apply keeps_bind; [intros s1; reflexivity|intros _].
    apply keeps_removeLoader_callback; exact B.
  - apply keeps_renderSettings; exact B.
  - reflexivity.
  - reflexivity.
  - reflexivity.
Qed.

End Frames.

Section Life.

Variable api : API.
Variables Icon FileIcon CustomFileIcon : string.

Abbreviation onUpload' := (onUpload api FileIcon CustomFileIcon).
Abbreviation step' := (step api Icon FileIcon CustomFileIcon).

(** *** Along the life of an instance *)

Abbreviation run' := (run api Icon FileIcon CustomFileIcon).

Lemma run_cons ev es s : run' (ev :: es) s = run' es (exec (step' ev) s).
Proof. reflexivity. Qed.

Lemma run_app es1 es2 s : run' (es1 ++ es2) s = run' es2 (run' es1 s).
Proof. unfold run. apply fold_left_app. Qed.

Lemma pluginHasData_uploaded f s :
  _displayData s = uploaded f -> pluginHasData s = true.
Proof.
  intros E. unfold pluginHasData. rewrite E. cbn.
  apply orb_true_r.
Qed.

Lemma pluginHasData_step ev s :
  pluginHasData (exec (step' ev) s) = successful_upload ev || pluginHasData s.
Proof.
  pose proof (displayData_step api Icon FileIcon CustomFileIcon ev s) as D.
  destruct ev as [|v| | |r|msg| | | |sd| ]; cbn [successful_upload orb];
    try (unfold pluginHasData; rewrite D; reflexivity).
  destruct (successful r) eqn:Hs.
  - destruct (successful_inv r Hs) as (Ht & f & Hf). rewrite Ht, Hf in D.
    apply (pluginHasData_uploaded f). exact D.
  - rewrite (unsuccessful_inv r Hs) in D. unfold pluginHasData. rewrite D. reflexivity.
Qed.

Lemma pluginHasData_run es s :
  pluginHasData (run' es s) = existsb successful_upload es || pluginHasData s.
Proof.
  revert s. induction es as [|ev es IH]; intros s; [reflexivity|].
  rewrite run_cons, IH, pluginHasData_step. cbn [existsb].
  destruct (successful_upload ev), (existsb successful_upload es); reflexivity.
Qed.


Lemma rendered_render s :
  unrendered s ∨ rendered s -> rendered (exec (step' CallRender) s).
Proof.
  intros [(Hw & Hb & Hh)|R]; [|apply rendered_step; exact R].
  destruct s as [[h n] [w0 b0 t] dd dat cfg nt dc tm us tp]. cbn in Hw, Hb. subst w0 b0.
  destruct (render_run api Icon FileIcon CustomFileIcon h n None None t dd dat cfg nt dc tm us tp)
    as (h' & n' & t' & E & Hn & [e' He'] & _).
  cbn [step]. unfold exec. erewrite step_run by exact E. cbn.
  rewrite Hh. exists (S n), (S (S n)), e'. cbn. repeat split; assumption.
Qed.

Lemma before_upload_step ev s :
  is_upload ev = false ->
  unrendered s ∨ rendered s ->
  unrendered (exec (step' ev) s) ∨ rendered (exec (step' ev) s).
Proof.
  intros Hev [U|R]; [|right; apply rendered_step; exact R].
  destruct ev as [|v| | |r|msg| | | |sd| ]; try discriminate.
  - right. apply rendered_render. left. exact U.
  - left. destruct U as (Hw & Hb & Hh). repeat split; assumption.
  - left. destruct U as (Hw & Hb & Hh). repeat split; assumption.
  - left. destruct U as (Hw & Hb & Hh).
    destruct s as [d [w0 b0 t] dd dat cfg nt dc tm us tp]. cbn in Hw, Hb. subst w0 b0.
    repeat split; assumption.
  - left. destruct U as (Hw & Hb & Hh). repeat split; assumption.
  - left. destruct U as (Hw & Hb & Hh).
    destruct s as [d [w0 b0 t] dd dat cfg nt dc tm us tp]. cbn in Hw, Hb. subst w0 b0.
    destruct tm; repeat split; assumption.
  - left. destruct U as (Hw & Hb & Hh).
    destruct s as [[h n] nd dd dat cfg nt dc tm us tp]. cbn [step].
    destruct (exec_renderSettings api h n nd dd dat cfg nt dc tm us tp)
      as (h' & n' & tp' & E & _).
    rewrite E. repeat split; assumption.
  - left. exact U.
  - left. exact U.
  - left. exact U.
Qed.

Lemma before_upload_run es s :
  forallb (λ ev, negb (is_upload ev)) es = true ->
  unrendered s ∨ rendered s ->
  unrendered (run' es s) ∨ rendered (run' es s).
Proof.
  revert s. induction es as [|ev es IH]; intros s Hes Hs; [exact Hs|].
  cbn [forallb] in Hes. apply andb_true_iff in Hes as [Hev Hes].
  rewrite run_cons. apply IH; [exact Hes|].
  apply before_upload_step; [|exact Hs].
  destruct (is_upload ev); [discriminate|reflexivity].
Qed.

Lemma rendered_run es s : rendered s -> rendered (run' es s).
Proof.
  revert s. induction es as [|ev es IH]; intros s R; [exact R|].
  rewrite run_cons. apply IH, rendered_step, R.
Qed.

Lemma unrendered_constructor d data c : unrendered (constructor d data c).
Proof. repeat split. Qed.

End Life.

Section Anywhere.

Variable api : API.
Variables Icon FileIcon CustomFileIcon : string.

Abbreviation onUpload' := (onUpload api FileIcon CustomFileIcon).
Abbreviation step' := (step api Icon FileIcon CustomFileIcon).

(** *** Anywhere in the life of an instance *)

Abbreviation run' := (run api Icon FileIcon CustomFileIcon).

(** The two null dereferences of the success branch. *)
Lemma onUpload_without_button r f s :
  button (nodes s) = None ->
  JS.truthy (success r) = true -> file r = Some f ->
  onUpload' r s = (Throw TypeError, with_displayData (uploaded f) s).
Proof.
  intros Hb Ht Hf. unfold onUpload. rewrite Ht, Hf.
  erewrite step_run by apply derive_extension_run.
  erewrite step_modify by reflexivity.
  unfold nodes_button. rewrite bind_bind. erewrite step_gets by reflexivity.
  cbn [with_displayData nodes]. rewrite Hb. reflexivity.
Qed.

Lemma onUpload_without_wrapper r f b s :
  wrapper (nodes s) = None -> button (nodes s) = Some b ->
  JS.truthy (success r) = true -> file r = Some f ->
  onUpload' r s
  = (Throw TypeError, with_doc (remove b) (with_displayData (uploaded f) s)).
Proof.
  intros Hw Hb Ht Hf. unfold onUpload. rewrite Ht, Hf.
  erewrite step_run by apply derive_extension_run.
  erewrite step_modify by reflexivity.
  unfold nodes_button. rewrite bind_bind. erewrite step_gets by reflexivity.
  cbn [with_displayData nodes]. rewrite Hb. rewrite step_deref.
  erewrite step_dom by reflexivity.
  unfold showFileData, nodes_wrapper. rewrite !bind_bind.
  erewrite step_gets by reflexivity.
  cbn [with_doc with_displayData nodes]. rewrite Hw. reflexivity.
Qed.

Lemma rendered_well_formed s : rendered s -> well_formed s.
Proof.
  intros (w & b & e & Hw & Hb & He & Hlt) w' Hw'.
  rewrite Hw in Hw'. injection Hw' as <-. split; [exact Hlt|eauto].
Qed.

Lemma well_formed_rendered s b :
  well_formed s -> is_Some (wrapper (nodes s)) -> button (nodes s) = Some b ->
  rendered s.
Proof.
  intros W [w Hw] Hb. destruct (W w Hw) as [Hlt [e He]].
  exists w, b, e. auto.
Qed.

Lemma well_formed_same s s' :
  nodes s' = nodes s -> doc s' = doc s -> well_formed s -> well_formed s'.
Proof. intros Hn Hd W w. rewrite Hn, Hd. apply W. Qed.

Lemma well_formed_no_wrapper s : wrapper (nodes s) = None -> well_formed s.
Proof. intros H w Hw. congruence. Qed.

Lemma well_formed_step ev s : well_formed s -> well_formed (exec (step' ev) s).
Proof.
  intros W.
  destruct (wrapper (nodes s)) as [w|] eqn:Hw;
    destruct (button (nodes s)) as [b|] eqn:Hb.
  - apply rendered_well_formed, rendered_step.
    apply (well_formed_rendered s b); [exact W|rewrite Hw; eauto|exact Hb].
  - destruct (W w Hw) as [Hlt [e He]].
    destruct s as [[h n] [w0 b0 t] dd dat cfg nt dc tm us tp].
    cbn in Hw, Hb, He, Hlt. subst w0 b0.
    destruct ev as [|v| | |r|msg| | | |sd| ]; cbn [step].
    + destruct (render_run api Icon FileIcon CustomFileIcon h n (Some w) None t dd dat cfg nt dc tm us tp)
        as (h' & n' & t' & E & Hn & He' & _).
      unfold exec. erewrite step_run by exact E. cbn.
      intros w' Hw'. injection Hw' as <-. split; assumption.
    + eapply well_formed_same; [| |exact W]; reflexivity.
    + eapply well_formed_same; [| |exact W]; reflexivity.
    + unfold exec, onPreview, nodes_wrapper. mrun. cbn.
      intros w' Hw'. injection Hw' as <-. cbn. split; [exact Hlt|].
      lookup_tac. eauto.
    + destruct (successful r) eqn:Hs.
      * destruct (successful_inv r Hs) as (Ht & f & Hf).
        unfold exec. erewrite (λ s0 H0, onUpload_without_button r f s0 H0 Ht Hf) by reflexivity.
        eapply well_formed_same; [| |exact W]; reflexivity.
      * unfold exec. rewrite (onUpload_failure api FileIcon CustomFileIcon r _ Hs).
        eapply well_formed_same; [| |exact W]; reflexivity.
    + eapply well_formed_same; [| |exact W]; reflexivity.
    + unfold exec, removeLoader_callback, nodes_wrapper.
      destruct tm as [|tm]; mrun; cbn.
      * exact W.
      * intros w' Hw'. injection Hw' as <-. cbn. split; [exact Hlt|].
        lookup_tac. eauto.
    + destruct (exec_renderSettings api h n (Build_Nodes (Some w) None t) dd dat cfg nt dc tm us tp)
        as (h' & n' & tp' & E & Hn & Hold).
      rewrite E. intros w' Hw'. injection Hw' as <-. cbn.
      split; [lia|]. rewrite Hold by lia. eauto.
    + exact W.
    + exact W.
    + exact W.
  - destruct s as [[h n] [w0 b0 t] dd dat cfg nt dc tm us tp].
    cbn in Hw, Hb. subst w0 b0.
    destruct ev as [|v| | |r|msg| | | |sd| ]; cbn [step];
      try (apply well_formed_no_wrapper; reflexivity).
    + destruct (render_run api Icon FileIcon CustomFileIcon h n None (Some b) t dd dat cfg nt dc tm us tp)
        as (h' & n' & t' & E & Hn & He' & _).
      unfold exec. erewrite step_run by exact E. cbn.
      intros w' Hw'. injection Hw' as <-. split; assumption.
    + destruct (successful r) eqn:Hs.
      * destruct (successful_inv r Hs) as (Ht & f & Hf).
        unfold exec. erewrite (λ s0 H0 H1, onUpload_without_wrapper r f b s0 H0 H1 Ht Hf) by reflexivity.
        apply well_formed_no_wrapper. reflexivity.
      * unfold exec. rewrite (onUpload_failure api FileIcon CustomFileIcon r _ Hs).
        apply well_formed_no_wrapper. reflexivity.
    + destruct tm; apply well_formed_no_wrapper; reflexivity.
    + match goal with
      | |- well_formed (exec _ (Tool (Document ?h ?n) ?nd _ _ _ _ _ _ _ _)) =>
          destruct (exec_renderSettings api h n nd dd dat cfg nt dc tm us tp)
            as (h' & n' & tp' & E & _)
      end.
      rewrite E. apply well_formed_no_wrapper. reflexivity.
  - destruct s as [[h n] [w0 b0 t] dd dat cfg nt dc tm us tp].
    cbn in Hw, Hb. subst w0 b0.
    destruct ev as [|v| | |r|msg| | | |sd| ]; cbn [step];
      try (apply well_formed_no_wrapper; reflexivity).
    + destruct (render_run api Icon FileIcon CustomFileIcon h n None None t dd dat cfg nt dc tm us tp)
        as (h' & n' & t' & E & Hn & He' & _).
      unfold exec. erewrite step_run by exact E. cbn.
      intros w' Hw'. injection Hw' as <-. split; assumption.
    + destruct (successful r) eqn:Hs.
      * destruct (successful_inv r Hs) as (Ht & f & Hf).
        unfold exec. erewrite (λ s0 H0, onUpload_without_button r f s0 H0 Ht Hf) by reflexivity.
        apply well_formed_no_wrapper. reflexivity.
      * unfold exec. rewrite (onUpload_failure api FileIcon CustomFileIcon r _ Hs).
        apply well_formed_no_wrapper. reflexivity.
    + destruct tm; apply well_formed_no_wrapper; reflexivity.
    + match goal with
      | |- well_formed (exec _ (Tool (Document ?h ?n) ?nd _ _ _ _ _ _ _ _)) =>
          destruct (exec_renderSettings api h n nd dd dat cfg nt dc tm us tp)
            as (h' & n' & tp' & E & _)
      end.
      rewrite E. apply well_formed_no_wrapper. reflexivity.
Qed.

Lemma well_formed_run es s : well_formed s -> well_formed (run' es s).
Proof.
  revert s. induction es as [|ev es IH]; intros s W; [exact W|].
  apply IH, well_formed_step, W.
Qed.

Lemma well_formed_constructor d v c : well_formed (constructor d v c).
Proof. apply well_formed_no_wrapper. reflexivity. Qed.

(** The same upload again, wherever the instance stands. *)
Lemma onUpload_again_anywhere r k s depth :
  well_formed s -> successful r = true ->
  view depth (Nat.iter (S (S k)) (exec (onUpload' r)) s)
  = view depth (exec (onUpload' r) s).
Proof.
  intros W Hs. destruct (successful_inv r Hs) as (Ht & f & Hf).
  destruct (button (nodes s)) as [b|] eqn:Hb;
    [destruct (wrapper (nodes s)) as [w|] eqn:Hw|].
  - apply onUpload_again; [|exact Hs].
    apply (well_formed_rendered s b); [exact W|rewrite Hw; eauto|exact Hb].
  - assert (N : ∀ j, wrapper (nodes (Nat.iter j (exec (onUpload' r)) s)) = None
                     ∧ button (nodes (Nat.iter j (exec (onUpload' r)) s)) = Some b).
    { induction j as [|j [IH1 IH2]]; [auto|].
      change (Nat.iter (S j) (exec (onUpload' r)) s)
        with (exec (onUpload' r) (Nat.iter j (exec (onUpload' r)) s)).
      set (s0 := Nat.iter j (exec (onUpload' r)) s) in *.
      unfold exec. rewrite (onUpload_without_wrapper r f b s0 IH1 IH2 Ht Hf).
      cbn. auto. }
    unfold view. rewrite (proj1 (N (S (S k)))).
    change (exec (onUpload' r) s) with (Nat.iter 1 (exec (onUpload' r)) s).
    rewrite (proj1 (N 1)). reflexivity.
  - assert (E : ∀ s0, button (nodes s0) = None ->
                  exec (onUpload' r) s0 = with_displayData (uploaded f) s0).
    { intros s0 H0. unfold exec. rewrite (onUpload_without_button r f s0 H0 Ht Hf).
      reflexivity. }
    assert (N : ∀ j, Nat.iter (S j) (exec (onUpload' r)) s
                     = with_displayData (uploaded f) s).
    { induction j as [|j IH]; [apply E, Hb|].
      change (Nat.iter (S (S j)) (exec (onUpload' r)) s)
        with (exec (onUpload' r) (Nat.iter (S j) (exec (onUpload' r)) s)).
      rewrite IH, E; [reflexivity|exact Hb]. }
    rewrite N. change (exec (onUpload' r) s) with (Nat.iter 1 (exec (onUpload' r)) s).
    rewrite N. reflexivity.
Qed.

End Anywhere.

Section Sizes.

Variable api : API.
Variables Icon FileIcon CustomFileIcon : string.

(** *** The size element of the card *)

Lemma exact_number_bound v n :
  JS.exact_number v = Some n -> (Z.abs n < 2 ^ 53)%Z.
Proof.
  unfold JS.exact_number.
  destruct (match v with
            | JS.SizeNum n0 => Some n0
            | JS.SizeStr EmptyString => None
            | JS.SizeStr s => JS.digits_value 0 s
            end) as [m|]; [|discriminate].
  destruct (Z.abs m <? 2 ^ 53)%Z eqn:E; [|discriminate].
  intros [= <-]. apply Z.ltb_lt. exact E.
Qed.

Lemma text_toFixed1 num k :
  (0 <= k)%Z ->
  text (JS.toFixed1 num k)
  = [Text ((if (num <? 0)%Z then "-" else "")
           +:+ JS.dec (JS.toFixed1_n num k / 10) +:+ "."
           +:+ JS.dec (JS.toFixed1_n num k mod 10))].
Proof.
  intros Hk. rewrite (toFixed1_digits num k Hk). unfold text.
  destruct (String.eqb_spec
              ((if (num <? 0)%Z then "-" else "")
               +:+ JS.dec (JS.toFixed1_n num k / 10) +:+ "."
               +:+ JS.dec (JS.toFixed1_n num k mod 10)) "") as [E|_]; [|reflexivity].
  apply (f_equal String.length) in E. rewrite !length_append in E. cbn in E. lia.
Qed.

Lemma size_element_exact parent v n :
  JS.exact_number v = Some n ->
  let mib := Math_log10_ge n 6 in
  let k := (if mib then 20 else 10)%Z in
  size_element api parent v
  = Element "div" [css_size (CSS api)] None
            [("data-size", if mib then "MiB" else "KiB")] None
            [Text ((if (n <? 0)%Z then "-" else "")
                   +:+ JS.dec (JS.toFixed1_n n k / 10) +:+ "."
                   +:+ JS.dec (JS.toFixed1_n n k mod 10))]
            (Some parent) [].
Proof.
  intros H mib k. unfold size_element, sizePrefix, formattedSize, log10_ge_6,
    quotient_toFixed1. rewrite H. fold mib.
  assert (Hk : (0 <= k)%Z) by (subst k; destruct mib; lia).
  assert (T : (if mib then JS.toFixed1 n 20 else JS.toFixed1 n 10) = JS.toFixed1 n k)
    by (subst k; destruct mib; reflexivity).
  rewrite T, (text_toFixed1 n k Hk). destruct mib; reflexivity.
Qed.

(** [showFileData] on any instance that has its wrapper. *)
Lemma showFileData_card h n w e b t dd dat cfg nt dc tm us tp :
  h !! w = Some e -> w < n ->
  ∃ h1 e1,
    same_look e e1
    ∧ showFileData api FileIcon CustomFileIcon
        (Tool (Document h n) (Build_Nodes (Some w) b t) dd dat cfg nt dc tm us tp)
      = (Ok tt,
         Tool (Document (card_heap api FileIcon CustomFileIcon w e1 n dd h1)
                        (card_next n dd))
              (Build_Nodes (Some w) b (card_title n dd t)) dd dat cfg nt dc tm us tp).
Proof.
  intros Hw Hlt.
  destruct (replace_children_lookup w (markup "") (Document h n) e Hw)
    as (e1 & Hw1 & L1 & C1).
  exists (heap (set_innerHTML w "" (Document h n))), e1.
  split; [exact L1|]. apply showFileData_run; assumption.
Qed.

(** Where the file info and the size element sit in the store of a card. *)
Lemma card_heap_size w e n dd (h : gmap nat element) v :
  w < n ->
  size (dd_file dd) = Some v -> JS.truthy_size (Some v) = true ->
  let info := S n in
  let fileSize := if JS.truthy_str (dd_title dd) then S (S info) else S info in
  card_heap api FileIcon CustomFileIcon w e n dd h !! fileSize
  = Some (size_element api info v)
  ∧ card_heap api FileIcon CustomFileIcon w e n dd h !! info
    = Some (info_element api w
              ((if JS.truthy_str (dd_title dd) then [Elem (S info)] else [])
               ++ [Elem fileSize]))
  ∧ ∃ e', card_heap api FileIcon CustomFileIcon w e n dd h !! w = Some e'
          ∧ childNodes e' = [Elem n; Elem info].
Proof.
  intros Hlt Hv Ht info fileSize. subst info fileSize.
  unfold card_heap. rewrite Hv, Ht. cbn [default].
  destruct (JS.truthy_str (dd_title dd));
    (split; [apply lookup_insert_eq|]);
    (split; [repeat rewrite lookup_insert_ne by lia; apply lookup_insert_eq|]);
    repeat rewrite lookup_insert_ne by lia; rewrite lookup_insert_eq;
    eexists; split; reflexivity.
Qed.

Lemma showFileData_size s w e v :
  wrapper (nodes s) = Some w -> heap (doc s) !! w = Some e -> w < next (doc s) ->
  size (dd_file (_displayData s)) = Some v -> JS.truthy_size (Some v) = true ->
  let s' := exec (showFileData api FileIcon CustomFileIcon) s in
  let info := S (next (doc s)) in
  let fileSize :=
    if JS.truthy_str (dd_title (_displayData s)) then S (S info) else S info in
  outcome (showFileData api FileIcon CustomFileIcon) s = Ok tt
  ∧ heap (doc s') !! fileSize = Some (size_element api info v)
  ∧ heap (doc s') !! info
    = Some (info_element api w
              ((if JS.truthy_str (dd_title (_displayData s)) then [Elem (S info)] else [])
               ++ [Elem fileSize]))
  ∧ ∃ e', heap (doc s') !! w = Some e'
          ∧ childNodes e' = [Elem (next (doc s)); Elem info].
Proof.
  intros Hw He Hlt Hv Ht s' info fileSize. subst s' info fileSize.
  destruct s as [[h n] [w0 b0 t] dd dat cfg nt dc tm us tp].
  cbn in Hw, He, Hlt, Hv. subst w0.
  destruct (showFileData_card h n w e b0 t dd dat cfg nt dc tm us tp He Hlt)
    as (h1 & e1 & _ & E).
  unfold outcome, exec. rewrite E. cbn [fst snd doc heap next _displayData].
  split; [reflexivity|]. apply card_heap_size; assumption.
Qed.

End Sizes.

End ToolFacts.

(** * The claims *)

Import JS DOM Tool JSFacts DOMFacts ToolFacts.

(** ** C1: what a successful upload leaves in the block *)

(** C1, as stated, fails.  The sample instance is constructed without data
    and rendered; after the upload of the sample file its block data is still
    the empty object of the constructor: it carries neither the title nor
    the file. *)
Lemma C1_block_data_not_updated :
  ¬ reflects
      (data (exec (onUpload editor_styles standard_svg custom_svg sample_response)
                  sample_tool))
      sample_file.
Proof.
  rewrite (data_onUpload editor_styles standard_svg custom_svg).
  intros (H & _). vm_compute in H. discriminate.
Qed.

(** C1, amended.  For every response of shape {success: truthy, file},
    after onUpload(response) the display state holds the name, the size and
    the derived extension of the file and the title of the response, whereas
    the block data, as the data getter and save() return it, is the one from
    before the call. *)
Theorem C1_upload_replaces_display_state
    (api : API) (FileIcon CustomFileIcon : string)
    (s : tool) (r : UploadResponse) (f : FileData) :
  JS.truthy (success r) = true ->
  file r = Some f ->
  let s' := exec (onUpload api FileIcon CustomFileIcon r) s in
  _displayData s' = uploaded f
  ∧ name (dd_file (_displayData s')) = fd_name f
  ∧ size (dd_file (_displayData s')) = fd_size f
  ∧ dd_title (_displayData s') = fd_title f
  ∧ data s' = data s
  ∧ save s' = save s.
Proof.
  intros Ht Hf s'. subst s'.
  rewrite displayData_onUpload, Ht, Hf.
  unfold save, data. rewrite data_onUpload.
  repeat split.
Qed.

Lemma C1_upload_replaces_display_state_witness :
  let s' := exec (onUpload editor_styles standard_svg custom_svg sample_response)
                 sample_tool in
  _displayData s' = uploaded sample_file
  ∧ name (dd_file (_displayData s')) = Some "a.pdf"
  ∧ size (dd_file (_displayData s')) = Some (SizeNum 2048)
  ∧ dd_title (_displayData s') = Some "A"
  ∧ data s' = data sample_tool
  ∧ save s' = save sample_tool.
Proof.
  apply (C1_upload_replaces_display_state
           editor_styles standard_svg custom_svg sample_tool sample_response
           sample_file); reflexivity.
Defined.

(** ** C2: the extension derived from the file name *)

(** The extension of a name that has a dot: what follows the last dot, in
    lower case. *)
Lemma derive_extension_dotted (pre suf : string) (s : tool) :
  occurs "." suf = false ->
  outcome (derive_extension (Some (pre +:+ String "." suf))) s
  = Ok (toLowerCase suf).
Proof.
  intros H. unfold outcome. rewrite derive_extension_run. cbn [fst].
  assert (E : truthy_str (Some (pre +:+ String "." suf)) = true).
  { destruct pre; reflexivity. }
  rewrite E. change (default "" (Some (pre +:+ String "." suf))) with (pre +:+ String "." suf).
  rewrite (pop_split_app "." pre suf H). reflexivity.
Qed.

(** The extension of a name without a dot: the whole name, in lower case. *)
Lemma derive_extension_dotless (name : string) (s : tool) :
  occurs "." name = false ->
  outcome (derive_extension (Some name)) s = Ok (toLowerCase name).
Proof.
  intros H. unfold outcome. rewrite derive_extension_run. cbn [fst].
  destruct name as [|c rest]; [reflexivity|].
  cbn [truthy_str String.eqb negb].
  change (default "" (Some (String c rest))) with (String c rest).
  rewrite (split_without "." _ H). reflexivity.
Qed.

(** C2: the code at the name "readme".  The name has no dot, and the
    extension a successful upload derives from it is "readme", not the empty
    string. *)
Theorem C2_dotless_name_is_its_own_extension
    (api : API) (FileIcon CustomFileIcon : string) (s : tool)
    (url : option string) (size : option size_value) (title : option string) :
  occurs "." "readme" = false
  ∧ extension
      (dd_file
         (_displayData
            (exec (onUpload api FileIcon CustomFileIcon
                     {| success := Num 1;
                        file := Some {| fd_url := url; fd_name := Some "readme";
                                        fd_size := size; fd_title := title |} |})
                  s)))
    = Some "readme".
Proof.
  split; [reflexivity|]. rewrite displayData_onUpload. reflexivity.
Qed.

(** ** C3: a failed upload *)

Lemma remove_tokens_not_elem l t u :
  (t ∉ fold_left remove_token [t; u] l) ∧ (u ∉ fold_left remove_token [t; u] l).
Proof.
  cbn [fold_left]. split.
  - intros H. apply remove_token_elem in H as [_ H].
    exact (remove_token_not_elem _ _ H).
  - apply remove_token_not_elem.
Qed.

Lemma wrapper_classes_after_timeout (api : API) (s : tool) :
  (wrapperLoading (CSS api) ∉ wrapper_classes (exec (removeLoader_callback api) s))
  ∧ (loader (CSS api) ∉ wrapper_classes (exec (removeLoader_callback api) s)).
Proof.
  destruct s as [[h n] [[w|] b t] dd dat cfg nt dc tm us tp].
  - unfold wrapper_classes, exec, removeLoader_callback, nodes_wrapper.
    mrun. cbn.
    rewrite lookup_alter_eq. destruct (h !! w) as [e|]; cbn.
    + apply remove_tokens_not_elem.
    + split; apply not_elem_of_nil.
  - cbn. split; apply not_elem_of_nil.
Qed.

(** C3.  For every response whose success is falsy or whose file is absent,
    onUpload(response) returns normally, shows one notification with the
    configured error message and the style 'error', leaves the display state,
    the block data, the document and the node references as they were (the
    previous view is kept), and schedules the removal of the loader: once
    that timer fires, the wrapper carries neither loading class. *)
Theorem C3_failed_upload
    (api : API) (Icon FileIcon CustomFileIcon : string)
    (s : tool) (r : UploadResponse) :
  JS.truthy (success r) = false ∨ file r = None ->
  let s' := exec (onUpload api FileIcon CustomFileIcon r) s in
  let s'' := exec (step api Icon FileIcon CustomFileIcon FireTimeout) s' in
  outcome (onUpload api FileIcon CustomFileIcon r) s = Ok tt
  ∧ notifier s'
    = notifier s ++ [{| message := errorMessage (this_config s); style := "error" |}]
  ∧ _displayData s' = _displayData s
  ∧ data s' = data s
  ∧ doc s' = doc s
  ∧ nodes s' = nodes s
  ∧ timers s' = S (timers s)
  ∧ timers s'' = timers s
  ∧ (wrapperLoading (CSS api) ∉ wrapper_classes s'')
  ∧ (loader (CSS api) ∉ wrapper_classes s'')
  ∧ _displayData s'' = _displayData s
  ∧ data s'' = data s.
Proof.
  intros H.
  assert (Hs : successful r = false).
  { unfold successful. destruct H as [H|H]; rewrite H; [reflexivity|].
    apply andb_false_r. }
  pose proof (onUpload_failure api FileIcon CustomFileIcon r s Hs) as E.
  set (s1 := with_timers S
               (with_notifier
                  (λ l, l ++ [{| message := errorMessage (this_config s);
                                 style := "error" |}]) s)) in E.
  cbv zeta. unfold outcome, exec. rewrite E. cbn [fst snd].
  do 7 (split; [reflexivity|]).
  change (snd (step api Icon FileIcon CustomFileIcon FireTimeout s1))
    with (exec (removeLoader_callback api) (with_timers (λ _, timers s) s1)).
  pose proof (wrapper_classes_after_timeout api (with_timers (λ _, timers s) s1))
    as [W1 W2].
  split; [|split; [exact W1|split; [exact W2|]]].
  - rewrite (keeps_removeLoader_callback api timers); [reflexivity|].
    repeat split; reflexivity.
  - unfold data.
    rewrite (keeps_removeLoader_callback api _displayData beside_displayData).
    rewrite (keeps_removeLoader_callback api _data beside_data).
    repeat split; reflexivity.
Qed.

Lemma C3_failed_upload_witness :
  let s := exec (onPreview editor_styles) sample_tool in
  let s' := exec (onUpload editor_styles standard_svg custom_svg failed_response) s in
  let s'' := exec (step editor_styles toolbox_svg standard_svg custom_svg FireTimeout) s' in
  wrapper_classes s = ["cdx-file-selector"; "cdx-file-selector--loading"; "cdx-loader"]
  ∧ notifier s' = [{| message := "File upload failed"; style := "error" |}]
  ∧ wrapper_classes s'' = ["cdx-file-selector"]
  ∧ ("cdx-file-selector--loading" ∉ wrapper_classes s'').
Proof.
  pose proof (C3_failed_upload editor_styles toolbox_svg standard_svg custom_svg
                (exec (onPreview editor_styles) sample_tool) failed_response
                (or_introl eq_refl)) as H.
  cbv zeta in H. destruct H as (_ & N & _ & _ & _ & _ & _ & _ & W & _).
  split; [vm_compute; reflexivity|].
  split; [exact N|].
  split; [vm_compute; reflexivity|exact W].
Defined.

(** ** C4: the size on the card *)

(** C4.  The size element showFileData() puts on the card, for a size that
    is an integer n a double holds exactly (below 2^53 in magnitude), given
    as a number other than zero or spelled as a non-empty string of decimal
    digits.  showFileData() returns; the wrapper holds the icon and the file
    info, and the last child of the file info is the size element.  Its
    data-size attribute is "MiB" when log10(n) >= 6, that is from 10^6 on,
    and "KiB" otherwise, and its text is n / 2^20 (respectively n / 2^10)
    rounded to one decimal place: a sign, the integer part, a point and one
    digit, the tenths being the nearest to ten times the quotient (the
    larger on a tie). *)
Theorem C4_size_is_rounded_to_one_decimal
    (api : API) (FileIcon CustomFileIcon : string)
    (s : tool) (w : node) (e : element) (v : size_value) (n : Z) :
  wrapper (nodes s) = Some w ->
  heap (doc s) !! w = Some e ->
  w < next (doc s) ->
  size (dd_file (_displayData s)) = Some v ->
  truthy_size (Some v) = true ->
  exact_number v = Some n ->
  let s' := exec (showFileData api FileIcon CustomFileIcon) s in
  let mib := Math_log10_ge n 6 in
  let k := (if mib then 20 else 10)%Z in
  let info := S (next (doc s)) in
  let fileSize :=
    if truthy_str (dd_title (_displayData s)) then S (S info) else S info in
  outcome (showFileData api FileIcon CustomFileIcon) s = Ok tt
  ∧ (mib = true <-> (10 ^ 6 <= n)%Z)
  ∧ (∃ tenths : Z,
       (0 <= tenths)%Z
       ∧ (- 2 ^ k <= 2 * (10 * Z.abs n - tenths * 2 ^ k) < 2 ^ k)%Z
       ∧ heap (doc s') !! fileSize
         = Some (Element "div" [css_size (CSS api)] None
                   [("data-size", if mib then "MiB" else "KiB")] None
                   [Text ((if (n <? 0)%Z then "-" else "")
                          +:+ dec (tenths / 10) +:+ "." +:+ dec (tenths mod 10))]
                   (Some info) []))
  ∧ (∃ before,
       heap (doc s') !! info
       = Some (Element "div" [fileInfo (CSS api)] None [] None
                 (before ++ [Elem fileSize]) (Some w) []))
  ∧ (∃ e', heap (doc s') !! w = Some e'
           ∧ childNodes e' = [Elem (next (doc s)); Elem info]).
Proof.
  intros Hw He Hlt Hv Ht Hn s' mib k info fileSize.
  destruct (showFileData_size api FileIcon CustomFileIcon s w e v Hw He Hlt Hv Ht)
    as (O & Hs & Hi & Hc).
  fold s' info fileSize in Hs, Hi, Hc.
  assert (Hk : (0 <= k)%Z) by (subst k; destruct mib; lia).
  split; [exact O|]. split; [subst mib; unfold Math_log10_ge; apply Z.leb_le|].
  split; [|split; [eexists; exact Hi|exact Hc]].
  exists (toFixed1_n n k).
  split; [apply toFixed1_n_nonneg; exact Hk|].
  split; [apply toFixed1_n_nearest; exact Hk|].
  rewrite Hs. f_equal. apply (size_element_exact api info v n Hn).
Qed.

Lemma C4_size_is_rounded_to_one_decimal_witness :
  let s := with_displayData (uploaded sample_file) sample_tool in
  let s' := exec (showFileData editor_styles standard_svg custom_svg) s in
  let mib := Math_log10_ge 2048 6 in
  let k := (if mib then 20 else 10)%Z in
  let info := S (next (doc s)) in
  let fileSize :=
    if truthy_str (dd_title (_displayData s)) then S (S info) else S info in
  outcome (showFileData editor_styles standard_svg custom_svg) s = Ok tt
  ∧ (mib = true <-> (10 ^ 6 <= 2048)%Z)
  ∧ (∃ tenths : Z,
       (0 <= tenths)%Z
       ∧ (- 2 ^ k <= 2 * (10 * Z.abs 2048 - tenths * 2 ^ k) < 2 ^ k)%Z
       ∧ heap (doc s') !! fileSize
         = Some (Element "div" [css_size (CSS editor_styles)] None
                   [("data-size", if mib then "MiB" else "KiB")] None
                   [Text ((if (2048 <? 0)%Z then "-" else "")
                          +:+ dec (tenths / 10) +:+ "." +:+ dec (tenths mod 10))]
                   (Some info) []))
  ∧ (∃ before,
       heap (doc s') !! info
       = Some (Element "div" [fileInfo (CSS editor_styles)] None [] None
                 (before ++ [Elem fileSize]) (Some 1) []))
  ∧ (∃ e', heap (doc s') !! 1 = Some e'
           ∧ childNodes e' = [Elem (next (doc s)); Elem info]).
Proof.
  apply (C4_size_is_rounded_to_one_decimal
           editor_styles standard_svg custom_svg
           (with_displayData (uploaded sample_file) sample_tool) 1
           (Element "div" ["cdx-file-selector"] None [] None [Elem 2] (Some 0) [])
           (SizeNum 2048) 2048);
    try reflexivity.
  vm_compute. lia.
Defined.

(** The examples of the specification, and a size given as a string: 2048
    shows "2.0" tagged KiB, 1048576 shows "1.0" tagged MiB, and the string
    "0", which is truthy, shows "0.0" tagged KiB. *)
Example size_element_2048 (parent : node) :
  size_element editor_styles parent (SizeNum 2048)
  = Element "div" ["cdx-file-selector__size"] None [("data-size", "KiB")] None
            [Text "2.0"] (Some parent) [].
Proof. reflexivity. Qed.

Example size_element_1048576 (parent : node) :
  size_element editor_styles parent (SizeNum 1048576)
  = Element "div" ["cdx-file-selector__size"] None [("data-size", "MiB")] None
            [Text "1.0"] (Some parent) [].
Proof. reflexivity. Qed.

Example size_element_string_0 (parent : node) :
  truthy_size (Some (SizeStr "0")) = true
  ∧ size_element editor_styles parent (SizeStr "0")
    = Element "div" ["cdx-file-selector__size"] None [("data-size", "KiB")] None
              [Text "0.0"] (Some parent) [].
Proof. split; reflexivity. Qed.

(** ** C5: when the display state is non-empty, and what render builds *)

(** C5.  Along every life of an instance, whatever document, data and
    configuration it is constructed with and whatever calls it then receives,
    the display state is non-empty exactly when one of the calls was an
    onUpload whose response reports success (success truthy, a file
    present: the display state is assigned before any node is touched); it
    is empty at construction; and
    render(), which always returns, leaves the wrapper as the file card when
    the display state is non-empty and as the upload button otherwise, the one
    never being the other. *)
Theorem C5_display_state_and_view
    (api : API) (Icon FileIcon CustomFileIcon : string)
    (d : document) (v : value) (c : ToolConfig) (es : list event) :
  let s := run api Icon FileIcon CustomFileIcon es (constructor d v c) in
  let s' := exec (render api Icon FileIcon CustomFileIcon) s in
  pluginHasData s = existsb successful_upload es
  ∧ pluginHasData (constructor d v c) = false
  ∧ (∃ holder, outcome (render api Icon FileIcon CustomFileIcon) s = Ok holder)
  ∧ (∀ depth,
       view depth s'
       = Some (cut depth
                 (if pluginHasData s
                  then file_card api FileIcon CustomFileIcon (fresh_wrapper api)
                         (_displayData s)
                  else upload_button api Icon (fresh_wrapper api)
                         (buttonText (this_config s)))))
  ∧ (∀ dd label,
       cut 1 (file_card api FileIcon CustomFileIcon (fresh_wrapper api) dd)
       ≠ cut 1 (upload_button api Icon (fresh_wrapper api) label)).
Proof.
  intros s s'. split; [|split; [reflexivity|]].
  - subst s. rewrite pluginHasData_run. apply orb_false_r.
  - subst s'. destruct s as [[h n] [w0 b0 t] dd dat cfg nt dc tm us tp].
    destruct (render_run api Icon FileIcon CustomFileIcon h n w0 b0 t dd dat cfg nt dc tm us tp)
      as (h' & n' & t' & E & _ & _ & V).
    unfold outcome, exec. rewrite E. cbn [fst snd].
    split; [eauto|]. split.
    + intros depth. unfold view. cbn [nodes wrapper doc heap]. rewrite V. reflexivity.
    + intros dd' label. cbn. intros Hc. injection Hc as Hc.
      vm_compute in Hc. discriminate.
Qed.

(** ** C6: pluginHasData *)

(** C6.  pluginHasData() is true exactly when the title of the display state
    is not the empty string or one of the fields of its file object is
    defined; on a freshly constructed block it is false, whatever data the
    block was constructed with. *)
Theorem C6_pluginHasData
    (s : tool) (d : document) (v : value) (c : ToolConfig) :
  (pluginHasData s = true
   <-> dd_title (_displayData s) ≠ Some ""
       ∨ is_Some (extension (dd_file (_displayData s)))
       ∨ is_Some (name (dd_file (_displayData s)))
       ∨ is_Some (size (dd_file (_displayData s))))
  ∧ pluginHasData (constructor d v c) = false.
Proof.
  split; [|reflexivity].
  unfold pluginHasData, Object_values.
  destruct (_displayData s) as [[ext nm sz] ttl]. cbn.
  split.
  - intros H. destruct ttl as [[|a t]|]; cbn in H.
    + right. destruct ext; [left; eauto|]. destruct nm; [right; left; eauto|].
      destruct sz; [right; right; eauto|]. discriminate.
    + left. discriminate.
    + left. discriminate.
  - intros [H|[H|[H|H]]].
    + destruct ttl as [[|a t]|]; [contradiction|reflexivity|reflexivity].
    + destruct H as [x ->]. cbn. apply orb_true_r.
    + destruct H as [x ->]. cbn. destruct ext; cbn; apply orb_true_r.
    + destruct H as [[n|x] ->]; cbn; destruct ext, nm; cbn; apply orb_true_r.
Qed.

(** ** C7: the icon of the card *)

(** Every colour of the table is a non-empty string. *)
Lemma EXTENSIONS_colours (ext c : string) : EXTENSIONS !! ext = Some c -> c ≠ "".
Proof.
  revert ext c. change (map_Forall (λ (_ : string) (c : string), c ≠ "") EXTENSIONS).
  refine (bool_decide_unpack _ _). vm_compute. exact I.
Qed.

(** An extension that is neither in the table nor the name of a member every
    object inherits: the generic icon, with no colour, no 'longer' class and
    no data-extension attribute. *)
Lemma icon_of_unknown_extension
    (api : API) (FileIcon CustomFileIcon : string) (w : nat) (dd : DisplayData) :
  EXTENSIONS_get (str_or (extension (dd_file dd)) "") = Missing ->
  icon_element api FileIcon CustomFileIcon w dd
  = Element "div" [fileIcon (CSS api)] None [] None (markup FileIcon) (Some w) [].
Proof. intros H. unfold icon_element. rewrite H. reflexivity. Qed.

(** An extension of the table: the custom icon, tinted with the colour of the
    table, with the 'longer' class exactly when it has more than three
    characters. *)
Lemma icon_of_known_extension
    (api : API) (FileIcon CustomFileIcon : string) (w : nat) (dd : DisplayData)
    (c : string) :
  let ext := str_or (extension (dd_file dd)) "" in
  EXTENSIONS !! ext = Some c ->
  icon_element api FileIcon CustomFileIcon w dd
  = Element "div"
      (if (3 <? String.length ext)%nat
       then [fileIcon (CSS api); "longer"] else [fileIcon (CSS api)])
      (Some c) [("data-extension", ext)] None (markup CustomFileIcon) (Some w) [].
Proof.
  intros ext H. unfold icon_element, EXTENSIONS_get. fold ext. rewrite H.
  pose proof (EXTENSIONS_colours ext c H) as Hc.
  cbn [property_truthy]. destruct (String.eqb_spec c ""); [contradiction|].
  reflexivity.
Qed.

(** C7: the code at the extension "constructor" (a file "x.constructor").
    The extension is no key of the colour table, yet the icon
    appendFileIcon() appends is the custom variant, with the 'longer' class
    and a data-extension attribute, and without colour: the lookup in the
    table finds the member every object inherits under that name. *)
Theorem C7_inherited_name_is_taken_for_a_colour
    (api : API) (FileIcon CustomFileIcon : string)
    (h : gmap nat element) (n w : nat) (e : element) (b t : option nat)
    (nm : option string) (sz : option size_value) (ttl : option string)
    (dat : value) (cfg : config) (nt : list notification) (dc tm us : nat) (tp : list (nat * string)) :
  h !! w = Some e ->
  w < n ->
  let dd := {| dd_file := {| extension := Some "constructor"; name := nm; size := sz |};
               dd_title := ttl |} in
  let s := Tool (Document h n) (Build_Nodes (Some w) b t) dd dat cfg nt dc tm us tp in
  EXTENSIONS !! "constructor" = None
  ∧ outcome (appendFileIcon api FileIcon CustomFileIcon) s = Ok tt
  ∧ heap (doc (exec (appendFileIcon api FileIcon CustomFileIcon) s)) !! n
    = Some (Element "div" [fileIcon (CSS api); "longer"] None
                    [("data-extension", "constructor")] None
                    (markup CustomFileIcon) (Some w) []).
Proof.
  intros Hw Hlt dd s. split; [vm_compute; reflexivity|].
  unfold outcome, exec. subst s.
  rewrite (appendFileIcon_run api FileIcon CustomFileIcon h n w e b t dd dat cfg nt dc tm us tp Hw Hlt).
  cbn [fst snd doc heap]. split; [reflexivity|].
  rewrite lookup_insert_eq. reflexivity.
Qed.

Lemma C7_inherited_name_is_taken_for_a_colour_witness :
  let s := exec (onUpload editor_styles standard_svg custom_svg
                   {| success := Num 1;
                      file := Some {| fd_url := None; fd_name := Some "x.constructor";
                                      fd_size := None; fd_title := None |} |})
                sample_tool in
  extension (dd_file (_displayData s)) = Some "constructor"
  ∧ EXTENSIONS !! "constructor" = None
  ∧ heap (doc (exec (appendFileIcon editor_styles standard_svg custom_svg) s)) !! 5
    = Some (Element "div" ["cdx-file-selector__file-icon"; "longer"] None
                    [("data-extension", "constructor")] None
                    [Markup custom_svg] (Some 1) []).
Proof.
  split; [vm_compute; reflexivity|].
  assert (E : exec (onUpload editor_styles standard_svg custom_svg
                   {| success := Num 1;
                      file := Some {| fd_url := None; fd_name := Some "x.constructor";
                                      fd_size := None; fd_title := None |} |})
                sample_tool
              = Tool (Document
                        (heap (doc (exec (onUpload editor_styles standard_svg custom_svg
                   {| success := Num 1;
                      file := Some {| fd_url := None; fd_name := Some "x.constructor";
                                      fd_size := None; fd_title := None |} |})
                sample_tool))) 5)
                     (Build_Nodes (Some 1) (Some 2) None)
                     {| dd_file := {| extension := Some "constructor";
                                      name := Some "x.constructor"; size := None |};
                        dd_title := None |}
                     (Obj []) (this_config sample_tool) [] 0 1 0 [])
    by (vm_compute; reflexivity).
  cbv zeta. rewrite E.
  destruct (C7_inherited_name_is_taken_for_a_colour
              editor_styles standard_svg custom_svg
              (heap (doc (exec (onUpload editor_styles standard_svg custom_svg
                   {| success := Num 1;
                      file := Some {| fd_url := None; fd_name := Some "x.constructor";
                                      fd_size := None; fd_title := None |} |})
                sample_tool)))
              5 1
              (Element "div" ["cdx-file-selector"; "cdx-file-selector--with-file"]
                       None [] None [Elem 3; Elem 4] (Some 0)
                       [("click", EnableFileUpload)])
              (Some 2) None (Some "x.constructor") None None
              (Obj []) (this_config sample_tool) [] 0 1 0 [])
    as (H1 & _ & H3); [vm_compute; reflexivity|lia|].
  split; [exact H1|exact H3].
Defined.

(** ** C8: the same upload again *)

(** C8.  Wherever an instance stands in its life, whatever it was
    constructed with and whatever calls it has received, calling onUpload
    again and again with one and the same successful response changes
    nothing after the first call: after the second and every further call
    the wrapper, seen to any depth (its classes, its listeners, the icon, the
    title and the size below it), is what it was after the first call.  On an
    instance that has been rendered (see C10) every one of these calls
    returns. *)
Theorem C8_repeated_upload_is_idempotent
    (api : API) (Icon FileIcon CustomFileIcon : string)
    (d : document) (v : value) (c : ToolConfig) (es : list event)
    (r : UploadResponse) (k depth : nat) :
  successful r = true ->
  let s := run api Icon FileIcon CustomFileIcon es (constructor d v c) in
  let again := exec (onUpload api FileIcon CustomFileIcon r) in
  view depth (Nat.iter (S (S k)) again s) = view depth (again s)
  ∧ (rendered s ->
     outcome (onUpload api FileIcon CustomFileIcon r) (Nat.iter k again s) = Ok tt).
Proof.
  intros Hs s again. split.
  - apply onUpload_again_anywhere; [|exact Hs].
    apply well_formed_run, well_formed_constructor.
  - intros R. apply rendered_onUpload. apply rendered_iter. exact R.
Qed.

Lemma C8_repeated_upload_is_idempotent_witness :
  successful sample_response = true
  ∧ (let s := run editor_styles toolbox_svg standard_svg custom_svg
                  [CallRender; CallRenderSettings; CallOnPreview]
                  (constructor empty_document Undefined no_config) in
     let again :=
       exec (onUpload editor_styles standard_svg custom_svg sample_response) in
     rendered s
     ∧ view 4 (Nat.iter 3 again s) = view 4 (again s)
     ∧ outcome (onUpload editor_styles standard_svg custom_svg sample_response)
               (Nat.iter 1 again s) = Ok tt).
Proof.
  split; [reflexivity|].
  pose proof (C8_repeated_upload_is_idempotent
                editor_styles toolbox_svg standard_svg custom_svg
                empty_document Undefined no_config
                [CallRender; CallRenderSettings; CallOnPreview]
                sample_response 1 4 eq_refl) as H.
  cbv zeta in H |- *. destruct H as [H1 H2].
  assert (R : rendered (run editor_styles toolbox_svg standard_svg custom_svg
                          [CallRender; CallRenderSettings; CallOnPreview]
                          (constructor empty_document Undefined no_config))).
  { rewrite run_cons. apply rendered_run, rendered_render. left.
    apply unrendered_constructor. }
  split; [exact R|]. split; [exact H1|exact (H2 R)].
Defined.

(** What the card of the sample upload looks like. *)
Example sample_card :
  view 4 (exec (onUpload editor_styles standard_svg custom_svg sample_response)
               sample_tool)
  = Some (TElem "div" ["cdx-file-selector"; "cdx-file-selector--with-file"]
            None [] None [("click", EnableFileUpload)]
            [TElem "div" ["cdx-file-selector__file-icon"] (Some "#d47373")
               [("data-extension", "pdf")] None [] [TMarkup custom_svg];
             TElem "div" ["cdx-file-selector__file-info"] None [] None []
               [TElem "div" ["cdx-file-selector__title"] None [] (Some "false") []
                  [TText "A"];
                TElem "div" ["cdx-file-selector__size"] None
                  [("data-size", "KiB")] None [] [TText "2.0"]]]).
Proof. vm_compute. reflexivity. Qed.

(** ** C9: the data setter *)

(** C9.  For every value v, assigning the data setter returns normally,
    stores v itself when v is truthy and an empty object otherwise, in
    particular when v is null or undefined, so that the getter never gives
    null or undefined afterwards; and it calls block.dispatchChange() once,
    whatever the value.  The constructor stores its data the same way, without
    notifying. *)
Theorem C9_data_setter
    (v : value) (s : tool) (d : document) (c : ToolConfig) :
  let s' := exec (set_data v) s in
  outcome (set_data v) s = Ok tt
  ∧ data s' = (if truthy v then v else Obj [])
  ∧ data (exec (set_data Null) s) = Obj []
  ∧ data (exec (set_data Undefined) s) = Obj []
  ∧ data s' ≠ Null
  ∧ data s' ≠ Undefined
  ∧ dispatchChange s' = S (dispatchChange s)
  ∧ data (constructor d v c) = (if truthy v then v else Obj [])
  ∧ dispatchChange (constructor d v c) = 0.
Proof.
  intros s'. subst s'. unfold data.
  repeat split; try reflexivity.
  - cbn. unfold JS.or. destruct v as [| |[|]|n|str|fs]; cbn; try discriminate.
    + destruct (n =? 0)%Z; discriminate.
    + destruct (String.eqb str ""); discriminate.
  - cbn. unfold JS.or. destruct v as [| |[|]|n|str|fs]; cbn; try discriminate.
    + destruct (n =? 0)%Z; discriminate.
    + destruct (String.eqb str ""); discriminate.
Qed.

(** ** C10: no null node in the success branch *)

(** C10.  Along every life of an instance in which render() is called before
    any onUpload, the wrapper and the button exist from that render() on, so
    that every later onUpload returns normally: neither nodes.wrapper in
    showFileData nor nodes.button at the removal step is null. *)
Theorem C10_no_null_node_after_render
    (api : API) (Icon FileIcon CustomFileIcon : string)
    (d : document) (v : value) (c : ToolConfig)
    (before after : list event) (r : UploadResponse) :
  forallb (λ ev, negb (is_upload ev)) before = true ->
  let s := run api Icon FileIcon CustomFileIcon (before ++ CallRender :: after)
               (constructor d v c) in
  is_Some (wrapper (nodes s))
  ∧ is_Some (button (nodes s))
  ∧ rendered s
  ∧ outcome (onUpload api FileIcon CustomFileIcon r) s = Ok tt.
Proof.
  intros Hb s.
  assert (R : rendered s).
  { subst s. rewrite run_app, run_cons. apply rendered_run, rendered_render.
    apply before_upload_run; [exact Hb|]. left. apply unrendered_constructor. }
  destruct R as (w & b & e & Hw & Hbt & He & Hlt).
  split; [rewrite Hw; eauto|]. split; [rewrite Hbt; eauto|].
  split; [exists w, b, e; auto|].
  apply rendered_onUpload. exists w, b, e. auto.
Qed.

Lemma C10_no_null_node_after_render_witness :
  forallb (λ ev, negb (is_upload ev))
          [CallSetData (Str "draft"); CallEnableFileUpload] = true
  ∧ (let s := run editor_styles toolbox_svg standard_svg custom_svg
                  ([CallSetData (Str "draft"); CallEnableFileUpload]
                   ++ CallRender :: [CallOnPreview; CallOnUpload sample_response])
                  (constructor empty_document Undefined no_config) in
     is_Some (wrapper (nodes s))
     ∧ is_Some (button (nodes s))
     ∧ rendered s
     ∧ outcome (onUpload editor_styles standard_svg custom_svg sample_response) s
       = Ok tt).
Proof.
  split; [reflexivity|].
  exact (C10_no_null_node_after_render
           editor_styles toolbox_svg standard_svg custom_svg
           empty_document Undefined no_config
           [CallSetData (Str "draft"); CallEnableFileUpload]
           [CallOnPreview; CallOnUpload sample_response]
           sample_response eq_refl).
Defined.

(** Without that render() the button is null and the success branch throws:
    the precondition of C10 cannot be dropped. *)
Example onUpload_before_render :
  outcome (onUpload editor_styles standard_svg custom_svg sample_response)
          (constructor empty_document Undefined no_config)
  = Throw TypeError.
Proof. reflexivity. Qed.

(** ** Facts about whole lives of an instance *)

Module HostFacts.

Import Host.

(** *** Pieces of a name *)

Section Strings.

Lemma lower_ascii_idem c : lower_ascii (lower_ascii c) = lower_ascii c.
Proof. destruct c as [[] [] [] [] [] [] [] []]; reflexivity. Qed.

Lemma lower_ascii_dot c : Ascii.eqb (lower_ascii c) "." = Ascii.eqb c ".".
Proof. destruct c as [[] [] [] [] [] [] [] []]; reflexivity. Qed.

Lemma toLowerCase_idem s : toLowerCase (toLowerCase s) = toLowerCase s.
Proof.
  induction s as [|c rest IH]; [reflexivity|].
  cbn [toLowerCase]. rewrite lower_ascii_idem, IH. reflexivity.
Qed.

Lemma toLowerCase_dot s : occurs "." (toLowerCase s) = occurs "." s.
Proof.
  induction s as [|c rest IH]; [reflexivity|].
  cbn [toLowerCase occurs]. rewrite lower_ascii_dot, IH. reflexivity.
Qed.

Lemma toLowerCase_length s : String.length (toLowerCase s) = String.length s.
Proof. induction s as [|c rest IH]; cbn; congruence. Qed.

Lemma toLowerCase_empty s : toLowerCase s = "" <-> s = "".
Proof. destruct s; cbn; split; intros H; congruence. Qed.

(** No piece of a split holds the separator, and the pieces fit in the
    string. *)
Lemma split_pieces sep s :
  Forall (λ p, occurs sep p = false ∧ String.length p <= String.length s)%nat
         (split sep s).
Proof.
  induction s as [|c rest IH]; cbn [split].
  - constructor; [split; [reflexivity|cbn; lia]|constructor].
  - destruct (Ascii.eqb c sep) eqn:E.
    + constructor; [split; [reflexivity|cbn; lia]|].
      eapply Forall_impl; [exact IH|]. cbn. intros p [H1 H2]. split; [exact H1|lia].
    + destruct (split sep rest) as [|piece pieces].
      * constructor; [split; [cbn; rewrite E; reflexivity|cbn; lia]|constructor].
      * inversion IH as [|? ? [H1 H2] Hrest]; subst.
        constructor; [split; [cbn; rewrite E; exact H1|cbn; lia]|].
        eapply Forall_impl; [exact Hrest|]. cbn. intros p [H3 H4]. split; [exact H3|lia].
Qed.

Lemma pop_piece sep s :
  ∃ piece, pop (split sep s) = Some piece
           ∧ occurs sep piece = false
           ∧ (String.length piece <= String.length s)%nat.
Proof.
  destruct (pop_split sep s) as [piece H]. exists piece. split; [exact H|].
  pose proof (split_pieces sep s) as F. rewrite Forall_forall in F.
  apply F. unfold pop in H. apply last_Some_elem_of in H. exact H.
Qed.

(** The last piece is empty exactly for the empty string and for a string
    that ends with the separator. *)
Lemma pop_split_empty sep s :
  pop (split sep s) = Some "" <-> s = "" ∨ ∃ pre, s = pre +:+ String sep "".
Proof.
  split.
  - unfold pop. induction s as [|c rest IH]; [auto|]. cbn [split].
    pose proof (split_nonempty sep rest) as Hne.
    destruct (Ascii.eqb_spec c sep) as [->|Hc].
    + destruct (split sep rest) as [|piece pieces] eqn:E; [contradiction|].
      rewrite last_cons_cons. intros H. destruct (IH H) as [->|[pre ->]].
      * right. exists "". reflexivity.
      * right. exists (String sep pre). reflexivity.
    + destruct (split sep rest) as [|piece pieces] eqn:E; [contradiction|].
      destruct pieces as [|p2 ps]; [cbn; discriminate|].
      rewrite last_cons_cons. intros H.
      assert (H' : last (piece :: p2 :: ps) = Some "") by (rewrite last_cons_cons; exact H).
      destruct (IH H') as [->|[pre ->]]; [discriminate|].
      right. exists (String c pre). reflexivity.
  - intros [->|[pre ->]]; [reflexivity|]. apply pop_split_app. reflexivity.
Qed.

End Strings.

Section Aside.

Variable api : API.
Variables Icon FileIcon CustomFileIcon : string.

Abbreviation onUpload' := (onUpload api FileIcon CustomFileIcon).
Abbreviation step' := (step api Icon FileIcon CustomFileIcon).
Abbreviation run' := (run api Icon FileIcon CustomFileIcon).

Context {X : Type} (proj : tool -> X) (Hproj : beside_upload proj).

(** *** Fields the drawing leaves alone *)

Lemma aside_onUpload r s :
  proj (exec (onUpload' r) s)
  = if successful r then proj s
    else proj (exec (uploadingFailed (errorMessage (this_config s))) s).
Proof.
  destruct Hproj as (B & Hd & Ht).
  destruct (successful r) eqn:Hs.
  - destruct (successful_inv r Hs) as (Hy & f & Hf).
    unfold onUpload. rewrite Hy, Hf. revert s.
    apply keeps_bind;
      [intros s; unfold exec; rewrite derive_extension_run; reflexivity|intros ext].
    apply keeps_bind; [intros s; apply Hd|intros _].
    apply keeps_bind; [apply keeps_nodes_button; exact B|intros b].
    apply keeps_bind; [apply keeps_dom; exact B|intros _].
    apply keeps_bind; [apply keeps_showFileData; exact B|intros _].
    intros s. apply Ht.
  - unfold exec. rewrite (onUpload_failure api FileIcon CustomFileIcon r s Hs).
    reflexivity.
Qed.

Lemma aside_step ev s :
  proj (exec (step' ev) s)
  = match ev with
    | CallSetData v => proj (exec (set_data v) s)
    | CallEnableFileUpload => proj (exec enableFileUpload s)
    | CallOnUpload r =>
        if successful r then proj s
        else proj (exec (uploadingFailed (errorMessage (this_config s))) s)
    | CallUploadingFailed msg => proj (exec (uploadingFailed msg) s)
    | _ => proj s
    end.
Proof.
  pose proof Hproj as (B & Hd & Ht).
  destruct ev as [|v| | |r|msg| | | |sd| ]; cbn [step].
  - apply keeps_bind; [apply keeps_render; exact B|intros; apply keeps_ret].
  - reflexivity.
  - reflexivity.
  - apply keeps_onPreview; exact B.
  - apply aside_onUpload.
  - reflexivity.
  - revert s. apply keeps_bind; [apply keeps_gets|intros [|k]; [apply keeps_ret|]].
    apply keeps_bind; [intros s1; apply Ht|intros _].
    apply keeps_removeLoader_callback; exact B.
  - apply keeps_renderSettings; exact B.
  - reflexivity.
  - reflexivity.
  - reflexivity.
Qed.

End Aside.

Section Logs.

Variable api : API.
Variables Icon FileIcon CustomFileIcon : string.

Abbreviation onUpload' := (onUpload api FileIcon CustomFileIcon).
Abbreviation step' := (step api Icon FileIcon CustomFileIcon).
Abbreviation run' := (run api Icon FileIcon CustomFileIcon).

Lemma aside_config : beside_upload this_config.
Proof. repeat split; reflexivity. Qed.

Lemma aside_notifier : beside_upload notifier.
Proof. repeat split; reflexivity. Qed.

Lemma aside_dispatchChange : beside_upload dispatchChange.
Proof. repeat split; reflexivity. Qed.

Lemma aside_uploadSelectedFile : beside_upload uploadSelectedFile.
Proof. repeat split; reflexivity. Qed.

Lemma config_step ev s : this_config (exec (step' ev) s) = this_config s.
Proof.
  rewrite (aside_step api Icon FileIcon CustomFileIcon this_config aside_config).
  destruct ev as [|v| | |r|msg| | | |sd| ]; try reflexivity.
  destruct (successful r); reflexivity.
Qed.

Lemma config_run es s : this_config (run' es s) = this_config s.
Proof.
  revert s. induction es as [|ev es IH]; intros s; [reflexivity|].
  rewrite run_cons, IH. apply config_step.
Qed.

Lemma notifier_step ev s :
  notifier (exec (step' ev) s) = notifier s ++ notes (this_config s) ev.
Proof.
  rewrite (aside_step api Icon FileIcon CustomFileIcon notifier aside_notifier).
  destruct ev as [|v| | |r|msg| | | |sd| ]; cbn [notes];
    try (symmetry; apply app_nil_r); try reflexivity.
  destruct (successful r); [symmetry; apply app_nil_r|reflexivity].
Qed.

Lemma notifier_run es s :
  notifier (run' es s) = notifier s ++ flat_map (notes (this_config s)) es.
Proof.
  revert s. induction es as [|ev es IH]; intros s.
  - symmetry. apply app_nil_r.
  - rewrite run_cons, IH, notifier_step, config_step. cbn [flat_map].
    symmetry. apply app_assoc.
Qed.

Lemma dispatchChange_step ev s :
  dispatchChange (exec (step' ev) s)
  = (if is_set_data ev then 1 else 0) + dispatchChange s.
Proof.
  rewrite (aside_step api Icon FileIcon CustomFileIcon dispatchChange aside_dispatchChange).
  destruct ev as [|v| | |r|msg| | | |sd| ]; try reflexivity.
  destruct (successful r); reflexivity.
Qed.

Lemma dispatchChange_run es s :
  dispatchChange (run' es s)
  = length (List.filter is_set_data es) + dispatchChange s.
Proof.
  revert s. induction es as [|ev es IH]; intros s; [reflexivity|].
  rewrite run_cons, IH, dispatchChange_step. cbn [List.filter].
  destruct (is_set_data ev); cbn [length]; lia.
Qed.

Lemma data_run es s : _data (run' es s) = assigned es (_data s).
Proof.
  revert s. induction es as [|ev es IH]; intros s; [reflexivity|].
  rewrite run_cons, IH, data_step. destruct ev; reflexivity.
Qed.

Lemma uploadSelectedFile_step ev s :
  uploadSelectedFile (exec (step' ev) s)
  = match ev with
    | CallEnableFileUpload => S (uploadSelectedFile s)
    | _ => uploadSelectedFile s
    end.
Proof.
  rewrite (aside_step api Icon FileIcon CustomFileIcon uploadSelectedFile
             aside_uploadSelectedFile).
  destruct ev as [|v| | |r|msg| | | |sd| ]; try reflexivity.
  destruct (successful r); reflexivity.
Qed.

Lemma uploadSelectedFile_run es s :
  uploadSelectedFile (run' es s)
  = length (List.filter is_enableFileUpload es) + uploadSelectedFile s.
Proof.
  revert s. induction es as [|ev es IH]; intros s; [reflexivity|].
  rewrite run_cons, IH, uploadSelectedFile_step. cbn [List.filter].
  destruct ev; cbn [is_enableFileUpload length]; lia.
Qed.

End Logs.

Section Cards.

Variable api : API.
Variables Icon FileIcon CustomFileIcon : string.

Abbreviation onUpload' := (onUpload api FileIcon CustomFileIcon).
Abbreviation step' := (step api Icon FileIcon CustomFileIcon).
Abbreviation run' := (run api Icon FileIcon CustomFileIcon).
Abbreviation file_card' := (file_card api FileIcon CustomFileIcon).

(** *** render() works on new nodes only *)

Lemma render_fresh h n w0 b t dd dat cfg nt dc tm us tp :
  let s := Tool (Document h n) (Build_Nodes w0 b t) dd dat cfg nt dc tm us tp in
  ∃ h' n' t',
    render api Icon FileIcon CustomFileIcon s
    = (Ok n,
       Tool (Document h' n')
            (Build_Nodes (Some (S n))
                         (if pluginHasData s then b else Some (S (S n))) t')
            dd dat cfg nt dc tm us tp)
    ∧ h' !! n
      = Some (Element "div"
                (if negb (String.eqb (baseClass (CSS api)) "")
                 then [baseClass (CSS api)] else [])
                None [] None [Elem (S n)] None [])
    ∧ (∃ e, h' !! S n = Some e ∧ parentNode e = Some n)
    ∧ ∀ m, m < n -> h' !! m = h !! m.
Proof.
  intros s.
  destruct (pluginHasData s) eqn:Hh; subst s;
    unfold pluginHasData in Hh; cbn [_displayData] in Hh.
  - destruct (negb (String.eqb (baseClass (CSS api)) "")) eqn:Hb;
      destruct (JS.truthy_str (dd_title dd)) eqn:Ht;
      destruct (JS.truthy_size (size (dd_file dd))) eqn:Hz;
      (eexists _, _, _; split;
       [ unfold render, make, assign_all;
         mrun; unfold pluginHasData; cbn [_displayData]; rewrite Hh;
         (erewrite step_run
            by (apply showFileData_run;
                [doc_tac; lookup_tac; reflexivity|reflexivity|lia]));
         unfold card_heap, card_next, card_title; rewrite ?Ht, ?Hz;
         doc_tac; unfold markup; elem_tac; rewrite ?insert_insert_eq;
         cbn [Nat.add]; unfold nodes_wrapper; mrun; reflexivity
       | split; [lookup_tac; reflexivity|];
         split; [eexists; split; [lookup_tac; reflexivity|reflexivity]|];
         intros m Hm; repeat rewrite lookup_insert_ne by lia; reflexivity ]).
  - destruct (negb (String.eqb (baseClass (CSS api)) "")) eqn:Hb;
      (eexists _, _, _; split;
       [ unfold render, make, assign_all;
         mrun; unfold pluginHasData; cbn [_displayData]; rewrite Hh;
         (erewrite step_run
            by (apply prepareUploadButton_run; [lookup_tac; reflexivity|lia]));
         elem_tac; rewrite ?insert_insert_eq;
         unfold nodes_wrapper; mrun; reflexivity
       | split; [lookup_tac; reflexivity|];
         split; [eexists; split; [lookup_tac; reflexivity|reflexivity]|];
         intros m Hm; repeat rewrite lookup_insert_ne by lia; reflexivity ]).
Qed.

(** *** The settings menu *)

Lemma forEach_tune_buttons tunes :
  ∀ entry h n ws e nd dd dat cfg nt dc tm us tp,
    h !! ws = Some e -> ws < n ->
    ∃ h',
      forEach_tune api ws entry tunes (Tool (Document h n) nd dd dat cfg nt dc tm us tp)
      = (Ok tt,
         Tool (Document h' (n + length tunes)) nd dd dat cfg nt dc tm us
              (tp ++ zip (seq n (length tunes))
                         (map (λ tune, i18n_t api (tune_title tune)) tunes)))
      ∧ h' !! ws
        = Some (with_childNodes (λ cs, cs ++ map Elem (seq n (length tunes))) e)
      ∧ (∀ i tune, tunes !! i = Some tune ->
           h' !! (n + i) = Some (settings_button ws (entry + i) tune))
      ∧ ∀ m, m < n -> m ≠ ws -> h' !! m = h !! m.
Proof.
  induction tunes as [|tune rest IH];
    intros entry h n ws e nd dd dat cfg nt dc tm us tp Hw Hlt.
  - exists h. cbn [length seq map zip zip_with forEach_tune].
    rewrite Nat.add_0_r, app_nil_r. repeat split; [|intros i tune H; discriminate].
    rewrite Hw. destruct e. unfold with_childNodes. cbn. rewrite app_nil_r. reflexivity.
  - cbn [forEach_tune].
    erewrite step_run by (apply tune_button_run; eassumption).
    edestruct (IH (S entry)
                 (<[n := settings_button ws entry tune]>
                    (<[ws := with_childNodes (λ cs, cs ++ [Elem n]) e]> h))
                 (S n) ws) as (h' & E & Hws & Hb & Hold);
      [rewrite lookup_insert_ne by lia; apply lookup_insert_eq|lia|].
    exists h'. split; [|split; [|split]].
    + unfold settings_button in E. rewrite E. cbn [length seq map zip zip_with].
      rewrite <- app_assoc. cbn [app].
      replace (S n + length rest) with (n + S (length rest)) by lia. reflexivity.
    + rewrite Hws. destruct e. unfold with_childNodes. cbn.
      rewrite <- app_assoc. reflexivity.
    + intros [|i] t H.
      * cbn in H. injection H as <-. rewrite Nat.add_0_r.
        rewrite Hold by lia. rewrite lookup_insert_eq, Nat.add_0_r. reflexivity.
      * cbn in H. replace (n + S i) with (S n + i) by lia.
        replace (entry + S i) with (S entry + i) by lia. apply Hb. exact H.
    + intros m Hm Hne. rewrite Hold by lia.
      rewrite lookup_insert_ne by lia. rewrite lookup_insert_ne by congruence.
      reflexivity.
Qed.

Lemma renderSettings_menu h n nd dd dat cfg nt dc tm us tp :
  let k := length (settings cfg) in
  ∃ h',
    renderSettings api (Tool (Document h n) nd dd dat cfg nt dc tm us tp)
    = (Ok n,
       Tool (Document h' (S n + k)) nd dd dat cfg nt dc tm us
            (tp ++ zip (seq (S n) k)
                       (map (λ tune, i18n_t api (tune_title tune)) (settings cfg))))
    ∧ h' !! n
      = Some (Element "div" ["file-selector-settings"] None [] None
                      (map Elem (seq (S n) k)) None [])
    ∧ (∀ i tune, settings cfg !! i = Some tune ->
         h' !! (S n + i) = Some (settings_button n i tune))
    ∧ ∀ m, m < n -> h' !! m = h !! m.
Proof.
  intros k.
  edestruct (forEach_tune_buttons (settings cfg) 0
               (<[n := Element "div" ["file-selector-settings"] None [] None [] None []]> h)
               (S n) n) as (h' & E & Hws & Hb & Hold);
    [apply lookup_insert_eq|lia|].
  exists h'. split; [|split; [|split]].
  - unfold renderSettings. mrun. erewrite step_run by exact E. reflexivity.
  - rewrite Hws. reflexivity.
  - intros i tune H. apply (Hb i tune H).
  - intros m Hm. rewrite Hold by lia. apply lookup_insert_ne. lia.
Qed.

(** *** What a successful upload draws *)

Lemma onUpload_card r f s w b e :
  wrapper (nodes s) = Some w -> button (nodes s) = Some b ->
  heap (doc s) !! w = Some e -> w < next (doc s) ->
  JS.truthy (success r) = true -> file r = Some f ->
  let s' := exec (onUpload' r) s in
  outcome (onUpload' r) s = Ok tt
  ∧ wrapper (nodes s') = Some w ∧ button (nodes s') = Some b
  ∧ w < next (doc s')
  ∧ (∃ e', heap (doc s') !! w = Some e'
           ∧ file_card' e' (uploaded f) = file_card' e (uploaded f)
           ∧ ∀ dd, file_card' e' dd = file_card' e dd)
  ∧ heap (doc s') !! next (doc s)
    = Some (icon_element api FileIcon CustomFileIcon w (uploaded f))
  ∧ ∀ depth, view depth s' = Some (cut depth (file_card' e (uploaded f))).
Proof.
  intros Hw Hb He Hlt Ht Hf s'. subst s'.
  destruct s as [[h n] [w0 b0 t] dd dat cfg nt dc tm us tp]. cbn in Hw, Hb, He, Hlt.
  subst w0 b0.
  destruct (onUpload_run api FileIcon CustomFileIcon h n w b e t dd dat cfg nt dc tm us tp
              r f He Hlt Ht Hf) as (h1 & e1 & L & E).
  unfold outcome, exec. rewrite E. cbn [fst snd nodes wrapper button doc heap next].
  pose proof (card_next_le n (uploaded f)) as Hn.
  destruct (card_heap_wrapper api FileIcon CustomFileIcon w e1 n (uploaded f) h1 Hlt)
    as (e' & He' & Q1 & Q2 & Q3 & Q4 & Q5 & Q6).
  assert (A : ∀ dd0, file_card' e' dd0 = file_card' e dd0).
  { intros dd0. rewrite <- (file_card_look api FileIcon CustomFileIcon e e1 dd0 L).
    apply file_card_again; assumption. }
  split; [reflexivity|]. split; [reflexivity|]. split; [reflexivity|].
  split; [lia|]. split; [exists e'; auto|]. split.
  - unfold card_heap.
    destruct (JS.truthy_str _), (JS.truthy_size _);
      repeat rewrite lookup_insert_ne by lia; apply lookup_insert_eq.
  - intros depth. unfold view. cbn [nodes wrapper doc heap].
    rewrite card_view by exact Hlt.
    rewrite (file_card_look api FileIcon CustomFileIcon e e1 _ L). reflexivity.
Qed.

(** A different response before a successful one does not show. *)
Lemma onUpload_over r1 r2 s depth :
  rendered s -> successful r2 = true ->
  view depth (exec (onUpload' r2) (exec (onUpload' r1) s))
  = view depth (exec (onUpload' r2) s).
Proof.
  intros (w & b & e & Hw & Hb & He & Hlt) Hs2.
  destruct (successful_inv r2 Hs2) as (Ht2 & f2 & Hf2).
  destruct (onUpload_card r2 f2 s w b e Hw Hb He Hlt Ht2 Hf2)
    as (_ & _ & _ & _ & _ & _ & V).
  rewrite V.
  destruct (successful r1) eqn:Hs1.
  - destruct (successful_inv r1 Hs1) as (Ht1 & f1 & Hf1).
    destruct (onUpload_card r1 f1 s w b e Hw Hb He Hlt Ht1 Hf1)
      as (_ & Hw1 & Hb1 & Hlt1 & (e1 & He1 & _ & A) & _ & _).
    destruct (onUpload_card r2 f2 _ w b e1 Hw1 Hb1 He1 Hlt1 Ht2 Hf2)
      as (_ & _ & _ & _ & _ & _ & V2).
    rewrite V2, A. reflexivity.
  - unfold exec at 2. rewrite (onUpload_failure api FileIcon CustomFileIcon r1 s Hs1).
    cbn [snd].
    match goal with
    | |- view depth (exec _ ?s1) = _ =>
        destruct (onUpload_card r2 f2 s1 w b e Hw Hb He Hlt Ht2 Hf2)
          as (_ & _ & _ & _ & _ & _ & V2)
    end.
    rewrite V2. reflexivity.
Qed.

(** A key of the table reads as its colour, and a colour is truthy. *)
Lemma EXTENSIONS_own k c :
  EXTENSIONS !! k = Some c ->
  EXTENSIONS_get k = Own c ∧ property_truthy (EXTENSIONS_get k) = true.
Proof.
  intros H. unfold EXTENSIONS_get. rewrite H. split; [reflexivity|].
  cbn [property_truthy].
  assert (N : map_Forall (λ (_ : string) (x : string), x ≠ "") EXTENSIONS).
  { refine (bool_decide_unpack _ _). vm_compute. exact I. }
  specialize (N k c H). cbn in N.
  destruct (String.eqb_spec c ""); [contradiction|reflexivity].
Qed.

End Cards.

(** *** The tool stays among its own nodes *)

Section Frame.

Variable base : node.

(** *** The DOM operations on nodes of the tool *)

Lemma steady_refl d : steady base d d.
Proof. intros m _. reflexivity. Qed.

Lemma steady_trans d1 d2 d3 :
  steady base d1 d2 -> steady base d2 d3 -> steady base d1 d3.
Proof. intros H1 H2 m Hm. rewrite H2, H1 by exact Hm. reflexivity. Qed.

Lemma inside_id : inside base (λ d, d).
Proof. intros d C. split; [exact C|apply steady_refl]. Qed.

Lemma inside_compose f g : inside base f -> inside base g -> inside base (λ d, g (f d)).
Proof.
  intros Hf Hg d C. destruct (Hf d C) as [C1 S1]. destruct (Hg _ C1) as [C2 S2].
  split; [exact C2|]. eapply steady_trans; eassumption.
Qed.

Lemma closed_update n g d :
  base <= n -> closed base d ->
  (∀ e, heap d !! n = Some e ->
        (∀ p, parentNode (g e) = Some p -> base <= p)
        ∧ (∀ c, Elem c ∈ childNodes (g e) -> base <= c)) ->
  closed base (update n g d) ∧ steady base d (update n g d).
Proof.
  intros Hn [Hb C] Hg. split; [split; [exact Hb|]|].
  - intros m e Hm. cbn [update heap].
    destruct (decide (m = n)) as [->|Hne].
    + rewrite lookup_alter_eq. destruct (heap d !! n) as [e0|] eqn:E; [|discriminate].
      cbn. intros [= <-]. apply Hg. reflexivity.
    + rewrite lookup_alter_ne by congruence. apply C. exact Hm.
  - intros m Hm. cbn [update heap]. apply lookup_alter_ne. lia.
Qed.

(** An update that leaves parent and children alone. *)
Lemma inside_look n g :
  base <= n ->
  (∀ e, parentNode (g e) = parentNode e ∧ childNodes (g e) = childNodes e) ->
  inside base (update n g).
Proof.
  intros Hn Hg d C. apply closed_update; [exact Hn|exact C|].
  intros e He. destruct (Hg e) as [-> ->]. destruct C as [_ C].
  apply (C n e Hn He).
Qed.

Lemma inside_classList_add n tokens : base <= n -> inside base (classList_add n tokens).
Proof. intros Hn. apply inside_look; [exact Hn|]. intros e; split; reflexivity. Qed.

Lemma inside_classList_remove n tokens : base <= n -> inside base (classList_remove n tokens).
Proof. intros Hn. apply inside_look; [exact Hn|]. intros e; split; reflexivity. Qed.

Lemma inside_setAttribute n k v : base <= n -> inside base (setAttribute n k v).
Proof. intros Hn. apply inside_look; [exact Hn|]. intros e; split; reflexivity. Qed.

Lemma inside_addEventListener n k f : base <= n -> inside base (addEventListener n k f).
Proof. intros Hn. apply inside_look; [exact Hn|]. intros e; split; reflexivity. Qed.

Lemma inside_style n c : base <= n -> inside base (update n (with_style_color c)).
Proof. intros Hn. apply inside_look; [exact Hn|]. intros e; split; reflexivity. Qed.

Lemma inside_editable n c : base <= n -> inside base (update n (with_contentEditable c)).
Proof. intros Hn. apply inside_look; [exact Hn|]. intros e; split; reflexivity. Qed.

Lemma inside_orphan c : (∀ m, c = Elem m -> base <= m) -> inside base (orphan c).
Proof.
  intros Hc. destruct c as [html|t|m]; cbn [orphan]; try apply inside_id.
  intros d C. apply closed_update; [apply Hc; reflexivity|exact C|].
  intros e He. cbn. split; [discriminate|]. destruct C as [_ C].
  apply (C m e (Hc m eq_refl) He).
Qed.

Lemma inside_orphans cs :
  (∀ m, Elem m ∈ cs -> base <= m) -> inside base (λ d, foldr orphan d cs).
Proof.
  induction cs as [|c cs IH]; intros Hcs; [apply inside_id|].
  cbn [foldr]. apply (inside_compose (λ d, foldr orphan d cs) (orphan c)).
  - apply IH. intros m Hm. apply Hcs. right. exact Hm.
  - apply inside_orphan. intros m ->. apply Hcs. left.
Qed.

Lemma inside_replace_children n cs :
  base <= n -> (∀ m, Elem m ∈ cs -> base <= m) -> inside base (replace_children n cs).
Proof.
  intros Hn Hcs d C. unfold replace_children.
  destruct (heap d !! n) as [e|] eqn:E; [|split; [exact C|apply steady_refl]].
  assert (Hold : ∀ m, Elem m ∈ childNodes e -> base <= m).
  { destruct C as [_ C]. apply (C n e Hn E). }
  destruct (inside_orphans (childNodes e) Hold d C) as [C1 S1].
  destruct (closed_update n (with_childNodes (λ _, cs)) _ Hn C1) as [C2 S2].
  - intros e1 He1. cbn. split; [|exact Hcs].
    destruct C1 as [_ C1]. apply (C1 n e1 Hn He1).
  - split; [exact C2|]. eapply steady_trans; eassumption.
Qed.

Lemma inside_set_innerHTML n html : base <= n -> inside base (set_innerHTML n html).
Proof.
  intros Hn. apply inside_replace_children; [exact Hn|].
  intros m Hm. unfold markup in Hm. destruct (String.eqb html "").
  - inversion Hm.
  - apply list_elem_of_singleton in Hm. discriminate.
Qed.

Lemma inside_set_textContent n t : base <= n -> inside base (set_textContent n t).
Proof.
  intros Hn. apply inside_replace_children; [exact Hn|].
  intros m Hm. unfold text in Hm. destruct (String.eqb t "").
  - inversion Hm.
  - apply list_elem_of_singleton in Hm. discriminate.
Qed.

Lemma inside_remove n : base <= n -> inside base (remove n).
Proof.
  intros Hn d C. unfold remove.
  destruct (heap d !! n) as [e|] eqn:E; [|split; [exact C|apply steady_refl]].
  destruct (parentNode e) as [p|] eqn:P; [|split; [exact C|apply steady_refl]].
  assert (Hp : base <= p).
  { destruct C as [_ C]. destruct (C n e Hn E) as [H1 _]. exact (H1 p P). }
  destruct (closed_update p (with_childNodes (filter (λ c, c ≠ Elem n))) d Hp C)
    as [C1 S1].
  { intros e1 He1. cbn. destruct C as [_ C]. destruct (C p e1 Hp He1) as [H1 H2].
    split; [exact H1|]. intros c Hc. apply H2.
    apply list_elem_of_filter in Hc. apply Hc. }
  destruct (closed_update n (with_parentNode None) _ Hn C1) as [C2 S2].
  { intros e1 He1. cbn. split; [discriminate|].
    destruct C1 as [_ C1]. apply (C1 n e1 Hn He1). }
  split; [exact C2|]. eapply steady_trans; eassumption.
Qed.

Lemma inside_appendChild p c : base <= p -> base <= c -> inside base (appendChild p c).
Proof.
  intros Hp Hc d C. unfold appendChild.
  destruct (inside_remove c Hc d C) as [C1 S1].
  destruct (closed_update p (with_childNodes (λ cs, cs ++ [Elem c])) _ Hp C1)
    as [C2 S2].
  { intros e1 He1. cbn. destruct C1 as [_ C1]. destruct (C1 p e1 Hp He1) as [H1 H2].
    split; [exact H1|]. intros x Hx. apply elem_of_app in Hx as [Hx|Hx].
    - apply H2. exact Hx.
    - apply list_elem_of_singleton in Hx. injection Hx as ->. exact Hc. }
  destruct (closed_update c (with_parentNode (Some p)) _ Hc C2) as [C3 S3].
  { intros e1 He1. cbn. split; [intros x [= <-]; exact Hp|].
    destruct C2 as [_ C2]. apply (C2 c e1 Hc He1). }
  split; [exact C3|].
  eapply steady_trans; [exact S1|]. eapply steady_trans; eassumption.
Qed.

(** *** Computations on nodes of the tool *)

Lemma safe_ret {A} (a : A) (Q : A -> Prop) : Q a -> safe base (ret a) Q.
Proof.
  intros H s O. split; [exact O|]. split; [apply steady_refl|].
  intros a' [= <-]. exact H.
Qed.

Lemma safe_throw {A} e (Q : A -> Prop) : safe base (throw e) Q.
Proof.
  intros s O. split; [exact O|]. split; [apply steady_refl|]. intros a; discriminate.
Qed.

Lemma safe_bind {A B} (m : M A) (k : A -> M B) (Q : A -> Prop) (R : B -> Prop) :
  safe base m Q -> (∀ a, Q a -> safe base (k a) R) -> safe base (bind m k) R.
Proof.
  intros Hm Hk s O. destruct (Hm s O) as (O1 & S1 & Q1).
  unfold exec, outcome, bind in *. destruct (m s) as [[a|e] s1]; cbn [fst snd] in *.
  - destruct (Hk a (Q1 a eq_refl) s1 O1) as (O2 & S2 & Q2).
    split; [exact O2|]. split; [|exact Q2]. eapply steady_trans; eassumption.
  - split; [exact O1|]. split; [exact S1|]. intros b; discriminate.
Qed.

Lemma safe_gets {A} (f : tool -> A) (Q : A -> Prop) :
  (∀ s, Q (f s)) -> safe base (gets f) Q.
Proof.
  intros H s O. split; [exact O|]. split; [apply steady_refl|].
  intros a [= <-]. apply H.
Qed.

Lemma safe_deref {A} (o : option A) (Q : A -> Prop) :
  (∀ a, o = Some a -> Q a) -> safe base (deref o) Q.
Proof. intros H. destruct o; [apply safe_ret; auto|apply safe_throw]. Qed.

Lemma safe_nodes_wrapper (Q : node -> Prop) :
  (∀ w, base <= w -> Q w) -> safe base nodes_wrapper Q.
Proof.
  intros H s O. split; [unfold exec, nodes_wrapper, bind, gets, deref;
                        destruct (wrapper (nodes s)); exact O|].
  split; [unfold exec, nodes_wrapper, bind, gets, deref;
          destruct (wrapper (nodes s)); apply steady_refl|].
  intros a. unfold outcome, nodes_wrapper, bind, gets, deref.
  destruct (wrapper (nodes s)) as [w|] eqn:E; [|discriminate].
  intros [= <-]. apply H. destruct O as (_ & Hw & _). apply Hw. exact E.
Qed.

Lemma safe_nodes_button (Q : node -> Prop) :
  (∀ w, base <= w -> Q w) -> safe base nodes_button Q.
Proof.
  intros H s O. split; [unfold exec, nodes_button, bind, gets, deref;
                        destruct (button (nodes s)); exact O|].
  split; [unfold exec, nodes_button, bind, gets, deref;
          destruct (button (nodes s)); apply steady_refl|].
  intros a. unfold outcome, nodes_button, bind, gets, deref.
  destruct (button (nodes s)) as [w|] eqn:E; [|discriminate].
  intros [= <-]. apply H. destruct O as (_ & _ & Hw & _). apply Hw. exact E.
Qed.

Lemma safe_nodes_title (Q : node -> Prop) :
  (∀ w, base <= w -> Q w) -> safe base nodes_title Q.
Proof.
  intros H s O. split; [unfold exec, nodes_title, bind, gets, deref;
                        destruct (title (nodes s)); exact O|].
  split; [unfold exec, nodes_title, bind, gets, deref;
          destruct (title (nodes s)); apply steady_refl|].
  intros a. unfold outcome, nodes_title, bind, gets, deref.
  destruct (title (nodes s)) as [w|] eqn:E; [|discriminate].
  intros [= <-]. apply H. destruct O as (_ & _ & _ & Hw). apply Hw. exact E.
Qed.

Lemma safe_modify (f : tool -> tool) (Q : unit -> Prop) :
  (∀ s, owns base s -> owns base (f s) ∧ doc (f s) = doc s) -> Q tt ->
  safe base (modify f) Q.
Proof.
  intros H HQ s O. destruct (H s O) as [O1 E]. split; [exact O1|].
  split; [unfold exec, modify; cbn [snd]; rewrite E; apply steady_refl|].
  intros []. intros _. exact HQ.
Qed.

Lemma safe_dom (f : document -> document) (Q : unit -> Prop) :
  inside base f -> Q tt -> safe base (dom f) Q.
Proof.
  intros H HQ s (C & Hw & Hb & Ht). destruct (H (doc s) C) as [C1 S1].
  split; [split; [exact C1|split; [exact Hw|split; [exact Hb|exact Ht]]]|].
  split; [exact S1|]. intros []. intros _. exact HQ.
Qed.

Lemma safe_createElement tag (Q : node -> Prop) :
  (∀ n, base <= n -> Q n) -> safe base (Tool.createElement tag) Q.
Proof.
  intros H s ([Hn C] & Hw & Hb & Ht).
  unfold exec, outcome, Tool.createElement, DOM.createElement, with_doc.
  cbn [fst snd doc nodes heap next].
  split; [|split].
  - split; [|split; [exact Hw|split; [exact Hb|exact Ht]]].
    split; [cbn [doc next]; lia|]. cbn [doc heap]. intros m e Hm He.
    destruct (decide (m = next (doc s))) as [->|Hne].
    + rewrite lookup_insert_eq in He. injection He as <-. cbn.
      split; [discriminate|]. intros c Hc. inversion Hc.
    + rewrite lookup_insert_ne in He by congruence. apply (C m e Hm He).
  - intros m Hm. cbn [doc heap]. apply lookup_insert_ne. lia.
  - intros a [= <-]. apply H. exact Hn.
Qed.

(** *** The methods of the tool *)

Variable api : API.
Variables Icon FileIcon CustomFileIcon : string.

Lemma owns_with_nodes f s :
  owns base s ->
  (∀ x, wrapper (f (nodes s)) = Some x -> base <= x) ->
  (∀ x, button (f (nodes s)) = Some x -> base <= x) ->
  (∀ x, title (f (nodes s)) = Some x -> base <= x) ->
  owns base (with_nodes f s) ∧ doc (with_nodes f s) = doc s.
Proof.
  intros (C & _) Hw Hb Ht. split; [|reflexivity].
  split; [exact C|]. split; [exact Hw|]. split; [exact Hb|exact Ht].
Qed.

Lemma owns_beside f s :
  nodes (f s) = nodes s -> doc (f s) = doc s ->
  owns base s -> owns base (f s) ∧ doc (f s) = doc s.
Proof.
  intros Hn Hd O. split; [|exact Hd]. unfold owns. rewrite Hn, Hd. exact O.
Qed.

Ltac okay :=
  first [ eassumption | exact I | lia
        | (intros; first [eassumption | exact I | lia]) ].

Ltac refs :=
  let x := fresh "x" in
  let Hx := fresh "Hx" in
  intros x Hx;
  first [ injection Hx as <-; first [eassumption | lia]
        | discriminate
        | match goal with
          | O : owns _ _ |- _ =>
              let Hw := fresh in
              let Hb := fresh in
              let Ht := fresh in
              destruct O as (_ & Hw & Hb & Ht);
              first [apply Hw; exact Hx | apply Hb; exact Hx | apply Ht; exact Hx]
          end ].

Ltac safe_step :=
  lazymatch goal with
  | |- safe _ (bind (ret _) _) _ =>
      eapply safe_bind with (Q := λ _, True);
        [apply safe_ret; exact I|intros ? _]
  | |- safe _ (bind (gets _) _) _ =>
      eapply safe_bind with (Q := λ _, True);
        [apply safe_gets; intros; exact I|intros ? _]
  | |- safe _ (@bind unit _ _ _) _ =>
      eapply safe_bind with (Q := λ _, True); [|intros _ _]
  | |- safe _ (@bind nat _ _ _) _ =>
      eapply safe_bind with (Q := λ n, base <= n); [|intros ? ?]
  | |- safe _ (bind _ _) _ => eapply safe_bind; [|intros ? ?]
  | |- safe _ (ret _) _ => apply safe_ret; okay
  | |- safe _ (throw _) _ => apply safe_throw
  | |- safe _ (gets _) _ => apply safe_gets; okay
  | |- safe _ (deref _) _ => apply safe_deref; okay
  | |- safe _ nodes_wrapper _ => apply safe_nodes_wrapper; okay
  | |- safe _ nodes_button _ => apply safe_nodes_button; okay
  | |- safe _ nodes_title _ => apply safe_nodes_title; okay
  | |- safe _ (Tool.createElement _) _ => apply safe_createElement; okay
  | |- safe _ (dom (classList_add _ _)) _ =>
      apply safe_dom; [apply inside_classList_add; okay|okay]
  | |- safe _ (dom (classList_remove _ _)) _ =>
      apply safe_dom; [apply inside_classList_remove; okay|okay]
  | |- safe _ (dom (setAttribute _ _ _)) _ =>
      apply safe_dom; [apply inside_setAttribute; okay|okay]
  | |- safe _ (dom (addEventListener _ _ _)) _ =>
      apply safe_dom; [apply inside_addEventListener; okay|okay]
  | |- safe _ (dom (set_innerHTML _ _)) _ =>
      apply safe_dom; [apply inside_set_innerHTML; okay|okay]
  | |- safe _ (dom (set_textContent _ _)) _ =>
      apply safe_dom; [apply inside_set_textContent; okay|okay]
  | |- safe _ (dom (remove _)) _ =>
      apply safe_dom; [apply inside_remove; okay|okay]
  | |- safe _ (dom (appendChild _ _)) _ =>
      apply safe_dom; [apply inside_appendChild; okay|okay]
  | |- safe _ (dom (update _ (with_style_color _))) _ =>
      apply safe_dom; [apply inside_style; okay|okay]
  | |- safe _ (dom (update _ (with_contentEditable _))) _ =>
      apply safe_dom; [apply inside_editable; okay|okay]
  | |- safe _ (modify (with_nodes _)) _ =>
      apply safe_modify;
        [intros ? ?; apply owns_with_nodes;
           [eassumption|cbn [wrapper button title]; refs..]|okay]
  | |- safe _ (modify _) _ =>
      apply safe_modify; [intros ? ?; apply owns_beside; [reflexivity|reflexivity|eassumption]|okay]
  | |- safe _ (if ?b then _ else _) _ => destruct b
  | |- safe _ (match ?x with _ => _ end) _ => destruct x
  end.

Lemma safe_make tag cn attributes (Q : node -> Prop) :
  (∀ n, base <= n -> Q n) -> safe base (make tag cn attributes) Q.
Proof.
  intros HQ. unfold make.
  eapply safe_bind; [apply safe_createElement; intros n Hn; exact Hn|intros el Hel].
  eapply safe_bind with (Q := λ _, True).
  - destruct cn as [c|cs]; [destruct (negb (String.eqb c ""))|]; safe_step.
  - intros _ _. eapply safe_bind with (Q := λ _, True); [|intros _ _; apply safe_ret; auto].
    induction attributes as [|a rest IH]; cbn [assign_all]; [apply safe_ret; exact I|].
    eapply safe_bind with (Q := λ _, True); [|intros _ _; exact IH].
    destruct a; unfold assign; safe_step.
Qed.

Ltac safe_run :=
  repeat first [ safe_step | apply safe_make; okay ].

Lemma safe_appendFileIcon (Q : unit -> Prop) :
  Q tt -> safe base (appendFileIcon api FileIcon CustomFileIcon) Q.
Proof. intros HQ. unfold appendFileIcon. safe_run. Qed.

Lemma safe_showFileData (Q : unit -> Prop) :
  Q tt -> safe base (showFileData api FileIcon CustomFileIcon) Q.
Proof.
  intros HQ. unfold showFileData.
  repeat first [ safe_step | apply safe_make; okay | apply safe_appendFileIcon; okay ].
Qed.

Lemma safe_prepareUploadButton (Q : unit -> Prop) :
  Q tt -> safe base (prepareUploadButton api Icon) Q.
Proof. intros HQ. unfold prepareUploadButton. safe_run. Qed.

Lemma safe_render (Q : node -> Prop) :
  (∀ n, base <= n -> Q n) -> safe base (render api Icon FileIcon CustomFileIcon) Q.
Proof.
  intros HQ. unfold render.
  repeat first [ safe_step | apply safe_make; okay
               | apply safe_showFileData; okay
               | apply safe_prepareUploadButton; okay ].
  apply safe_ret, HQ. assumption.
Qed.

Lemma safe_onPreview (Q : unit -> Prop) : Q tt -> safe base (onPreview api) Q.
Proof. intros HQ. unfold onPreview. safe_run. Qed.

Lemma safe_removeLoader_callback (Q : unit -> Prop) :
  Q tt -> safe base (removeLoader_callback api) Q.
Proof. intros HQ. unfold removeLoader_callback. safe_run. Qed.

Lemma safe_uploadingFailed msg (Q : unit -> Prop) :
  Q tt -> safe base (uploadingFailed msg) Q.
Proof. intros HQ. unfold uploadingFailed, removeLoader. safe_run. Qed.

Lemma safe_derive_extension name :
  safe base (derive_extension name) (λ _, True).
Proof.
  intros s O. unfold exec, outcome. rewrite derive_extension_run. cbn [fst snd].
  split; [exact O|]. split; [apply steady_refl|]. auto.
Qed.

Lemma safe_onUpload r (Q : unit -> Prop) :
  Q tt -> safe base (onUpload api FileIcon CustomFileIcon r) Q.
Proof.
  intros HQ. unfold onUpload, removeLoader.
  destruct (if truthy (success r) then file r else None) as [f|].
  - eapply safe_bind; [apply safe_derive_extension|intros ext _].
    repeat first [ safe_step | apply safe_showFileData; okay ].
  - repeat first [ safe_step | apply safe_uploadingFailed; okay ].
Qed.

Lemma safe_tune_button ws entry tune (Q : unit -> Prop) :
  base <= ws -> Q tt -> safe base (tune_button api ws entry tune) Q.
Proof. intros Hws HQ. unfold tune_button. safe_run. Qed.

Lemma safe_forEach_tune ws tunes (Q : unit -> Prop) :
  base <= ws -> Q tt -> ∀ entry, safe base (forEach_tune api ws entry tunes) Q.
Proof.
  intros Hws HQ. induction tunes as [|tune rest IH]; intros entry; cbn [forEach_tune].
  - apply safe_ret. exact HQ.
  - eapply safe_bind with (Q := λ _, True); [apply safe_tune_button; auto|].
    intros _ _. apply IH.
Qed.

Lemma safe_renderSettings (Q : node -> Prop) :
  (∀ n, base <= n -> Q n) -> safe base (renderSettings api) Q.
Proof.
  intros HQ. unfold renderSettings.
  repeat first [ safe_step | apply safe_forEach_tune; okay ].
  apply safe_ret, HQ. assumption.
Qed.

Lemma safe_step_event ev :
  safe base (step api Icon FileIcon CustomFileIcon ev) (λ _, True).
Proof.
  destruct ev as [|v| | |r|msg| | | |sd| ]; cbn [step];
    unfold set_data, enableFileUpload, rendered_hook;
    repeat first [ safe_step
                 | apply safe_render; okay
                 | apply safe_onPreview; okay
                 | apply safe_onUpload; okay
                 | apply safe_uploadingFailed; okay
                 | apply safe_removeLoader_callback; okay
                 | apply safe_renderSettings; okay ].
Qed.

Lemma owns_run es s :
  owns base s ->
  owns base (run api Icon FileIcon CustomFileIcon es s)
  ∧ steady base (doc s) (doc (run api Icon FileIcon CustomFileIcon es s)).
Proof.
  revert s. induction es as [|ev es IH]; intros s O.
  - split; [exact O|apply steady_refl].
  - rewrite run_cons. destruct (safe_step_event ev s O) as (O1 & S1 & _).
    destruct (IH _ O1) as [O2 S2]. split; [exact O2|].
    eapply steady_trans; eassumption.
Qed.

End Frame.

Lemma owns_constructor d v c : tidy d -> owns (next d) (constructor d v c).
Proof.
  intros T. split; [split; [cbn; lia|]|repeat split; intros x; discriminate].
  intros m e Hm He. cbn in He. assert (m < next d) by (apply T; eauto). lia.
Qed.

Section Refs.

Variable api : API.
Variables Icon FileIcon CustomFileIcon : string.

Abbreviation onUpload' := (onUpload api FileIcon CustomFileIcon).
Abbreviation step' := (step api Icon FileIcon CustomFileIcon).
Abbreviation run' := (run api Icon FileIcon CustomFileIcon).

(** *** Who sets the wrapper and the button *)

Ltac keeps_refs :=
  repeat first
    [ apply keeps_bind; [|intros]
    | apply keeps_ret
    | apply keeps_gets
    | apply keeps_deref
    | apply keeps_throw
    | match goal with
      | |- keeps _ (if ?b then _ else _) => destruct b
      | |- keeps _ (match ?x with _ => _ end) => destruct x
      end
    | (intros ?; reflexivity) ].

Lemma refs_showFileData : keeps refs (showFileData api FileIcon CustomFileIcon).
Proof.
  unfold showFileData, appendFileIcon, make, nodes_wrapper, nodes_title.
  cbn [assign_all]. unfold assign. keeps_refs.
Qed.

Lemma refs_onUpload r : keeps refs (onUpload' r).
Proof.
  unfold onUpload.
  destruct (if truthy (success r) then file r else None) as [f|].
  - apply keeps_bind;
      [intros s; unfold exec; rewrite derive_extension_run; reflexivity|intros ext].
    apply keeps_bind; [intros s; reflexivity|intros _].
    apply keeps_bind; [unfold nodes_button; keeps_refs|intros b].
    apply keeps_bind; [intros s; reflexivity|intros _].
    apply keeps_bind; [apply refs_showFileData|intros _].
    intros s. reflexivity.
  - intros s. reflexivity.
Qed.

Lemma refs_step ev s :
  refs (exec (step' ev) s)
  = match ev with
    | CallRender =>
        (Some (S (next (doc s))),
         if pluginHasData s then button (nodes s) else Some (S (S (next (doc s)))))
    | _ => refs s
    end.
Proof.
  destruct ev as [|v| | |r|msg| | | |sd| ]; cbn [step]; try reflexivity.
  - destruct s as [[h n] [w0 b0 t] dd dat cfg nt dc tm us tp].
    destruct (render_run api Icon FileIcon CustomFileIcon h n w0 b0 t dd dat cfg nt dc tm us tp)
      as (h' & n' & t' & E & _).
    unfold exec. erewrite step_run by exact E. reflexivity.
  - revert s. unfold onPreview, nodes_wrapper. keeps_refs.
  - apply refs_onUpload.
  - revert s. unfold removeLoader_callback, nodes_wrapper. keeps_refs.
  - destruct s as [[h n] nd dd dat cfg nt dc tm us tp].
    destruct (renderSettings_menu api h n nd dd dat cfg nt dc tm us tp)
      as (h' & E & _).
    unfold exec. erewrite step_run by exact E. reflexivity.
Qed.

(** Without a render() there is neither wrapper nor button. *)
Lemma refs_run_unrendered es s :
  forallb (λ ev, negb (is_render ev)) es = true ->
  refs (run' es s) = refs s.
Proof.
  revert s. induction es as [|ev es IH]; intros s H; [reflexivity|].
  cbn [forallb] in H. apply andb_true_iff in H as [Hev Hes].
  rewrite run_cons, (IH _ Hes), refs_step. destruct ev; try reflexivity.
  discriminate.
Qed.

(** Once the display state is non-empty, no call creates a button. *)
Lemma button_step_full ev s :
  pluginHasData s = true ->
  button (nodes (exec (step' ev) s)) = button (nodes s).
Proof.
  intros H. pose proof (refs_step ev s) as R. unfold refs in R.
  destruct ev; try rewrite H in R; apply (f_equal snd) in R; exact R.
Qed.

Lemma button_run_full es s :
  pluginHasData s = true ->
  button (nodes (run' es s)) = button (nodes s).
Proof.
  revert s. induction es as [|ev es IH]; intros s H; [reflexivity|].
  rewrite run_cons, IH, button_step_full; [reflexivity|exact H|].
  rewrite pluginHasData_step, H. apply orb_true_r.
Qed.

End Refs.

Section Loader.

Variable api : API.

(** *** The loading classes go on and come off *)

Lemma remove_token_absent (l : list string) (t : string) :
  t ∉ l -> remove_token l t = l.
Proof.
  unfold remove_token. induction l as [|x l IH]; intros Ht; [reflexivity|].
  rewrite filter_cons. destruct (decide (x ≠ t)) as [_|E].
  - f_equal. apply IH. intros H. apply Ht. right. exact H.
  - exfalso. apply Ht. apply dec_stable in E. subst. left.
Qed.

Lemma remove_token_app (l1 l2 : list string) (t : string) :
  remove_token (l1 ++ l2) t = remove_token l1 t ++ remove_token l2 t.
Proof. apply filter_app. Qed.

Lemma remove_token_same (t : string) : remove_token [t] t = [].
Proof.
  unfold remove_token. rewrite filter_cons, filter_nil.
  destruct (decide (t ≠ t)); [contradiction|reflexivity].
Qed.

Lemma remove_token_other (x t : string) : x ≠ t -> remove_token [x] t = [x].
Proof.
  intros H. unfold remove_token. rewrite filter_cons, filter_nil.
  destruct (decide (x ≠ t)); [reflexivity|contradiction].
Qed.

Lemma add_remove_tokens (l : list string) (a b : string) :
  a ∉ l -> b ∉ l ->
  fold_left remove_token [a; b] (fold_left add_token [a; b] l) = l.
Proof.
  intros Ha Hb. cbn [fold_left]. unfold add_token at 2.
  rewrite bool_decide_eq_false_2 by exact Ha.
  unfold add_token. destruct (bool_decide (b ∈ l ++ [a])) eqn:E.
  - apply bool_decide_eq_true in E. apply elem_of_app in E as [E|E]; [contradiction|].
    apply list_elem_of_singleton in E. subst b.
    rewrite remove_token_app, remove_token_same, app_nil_r.
    rewrite (remove_token_absent l a Ha). apply remove_token_absent, Ha.
  - apply bool_decide_eq_false in E.
    assert (Hne : b ≠ a).
    { intros ->. apply E. apply elem_of_app. right. left. }
    rewrite (remove_token_app (l ++ [a]) [b] a), (remove_token_app l [a] a).
    rewrite remove_token_same, app_nil_r.
    rewrite (remove_token_other b a Hne), (remove_token_absent l a Ha).
    rewrite remove_token_app, remove_token_same, app_nil_r.
    apply remove_token_absent, Hb.
Qed.

Lemma add_token_present (l : list string) (t : string) :
  t ∈ l -> add_token l t = l.
Proof. intros H. unfold add_token. rewrite bool_decide_eq_true_2 by exact H. reflexivity. Qed.

Lemma add_token_keeps (l : list string) (t x : string) :
  x ∈ l -> x ∈ add_token l t.
Proof.
  intros H. unfold add_token. case_bool_decide; [exact H|].
  apply elem_of_app. left. exact H.
Qed.

Lemma add_tokens_idem (l : list string) (a b : string) :
  fold_left add_token [a; b] (fold_left add_token [a; b] l)
  = fold_left add_token [a; b] l.
Proof.
  cbn [fold_left].
  rewrite (add_token_present (add_token (add_token l a) b) a)
    by apply add_token_keeps, add_token_elem.
  apply add_token_idem.
Qed.

Lemma onPreview_run h n w b t e dd dat cfg nt dc tm us tp :
  h !! w = Some e ->
  onPreview api (Tool (Document h n) (Build_Nodes (Some w) b t) dd dat cfg nt dc tm us tp)
  = (Ok tt,
     Tool (Document
             (<[w := with_classList
                       (λ l, fold_left add_token
                               [wrapperLoading (CSS api); loader (CSS api)] l) e]> h)
             n)
          (Build_Nodes (Some w) b t) dd dat cfg nt dc tm us tp).
Proof.
  intros Hw. destruct e as [tag cl col ats ed cs p ls].
  unfold onPreview, nodes_wrapper. mrun. reflexivity.
Qed.

Lemma removeLoader_callback_run h n w b t e dd dat cfg nt dc tm us tp :
  h !! w = Some e ->
  removeLoader_callback api
    (Tool (Document h n) (Build_Nodes (Some w) b t) dd dat cfg nt dc tm us tp)
  = (Ok tt,
     Tool (Document
             (<[w := with_classList
                       (λ l, fold_left remove_token
                               [wrapperLoading (CSS api); loader (CSS api)] l) e]> h)
             n)
          (Build_Nodes (Some w) b t) dd dat cfg nt dc tm us tp).
Proof.
  intros Hw. destruct e as [tag cl col ats ed cs p ls].
  unfold removeLoader_callback, nodes_wrapper. mrun. reflexivity.
Qed.

End Loader.

Section Plain.

Variable api : API.
Variables Icon FileIcon CustomFileIcon : string.

Abbreviation onUpload' := (onUpload api FileIcon CustomFileIcon).
Abbreviation step' := (step api Icon FileIcon CustomFileIcon).
Abbreviation run' := (run api Icon FileIcon CustomFileIcon).

(** *** The wrapper stays a plain div *)

Lemma look_of_snapshot (h : gmap nat element) w e tag cls col ats ed ls kids :
  h !! w = Some e ->
  snapshot 1 h w = cut 1 (TElem tag cls col ats ed ls kids) ->
  tagName e = tag ∧ classList e = cls ∧ style_color e = col ∧ attributes e = ats
  ∧ contentEditable e = ed ∧ listeners e = ls.
Proof.
  intros He. rewrite snapshot_S, He. cbn [cut]. intros H.
  injection H as H1 H2 H3 H4 H5 H6 _. auto 10.
Qed.

Lemma plain_same s s' :
  nodes s' = nodes s -> doc s' = doc s -> plain_wrapper s -> plain_wrapper s'.
Proof. intros Hn Hd P. unfold plain_wrapper. rewrite Hn, Hd. exact P. Qed.

Lemma plain_no_wrapper s : wrapper (nodes s) = None -> plain_wrapper s.
Proof. intros H w e Hw. congruence. Qed.

Lemma plain_click ls :
  ls = [] ∨ ls = [("click", EnableFileUpload)] ->
  add_listener "click" EnableFileUpload ls = [("click", EnableFileUpload)].
Proof. intros [->| ->]; reflexivity. Qed.

Lemma plain_render s : plain_wrapper (exec (render api Icon FileIcon CustomFileIcon) s).
Proof.
  destruct s as [[h n] [w0 b0 t] dd dat cfg nt dc tm us tp].
  destruct (render_run api Icon FileIcon CustomFileIcon h n w0 b0 t dd dat cfg nt dc tm us tp)
    as (h' & n' & t' & E & _ & _ & V).
  cbv zeta in E. unfold exec. rewrite E. cbn [snd].
  intros w e Hw He. cbn in Hw, He. injection Hw as <-.
  specialize (V 1). revert V.
  match goal with |- context [if ?b then _ else _] => destruct b end;
    unfold file_card, upload_button, fresh_wrapper;
    cbn [tagName classList style_color attributes contentEditable listeners];
    intros V; destruct (look_of_snapshot h' (S n) e _ _ _ _ _ _ _ He V)
      as (H1 & _ & H3 & H4 & H5 & H6);
    repeat split; auto.
Qed.

Lemma plain_onUpload r s :
  well_formed s -> plain_wrapper s -> plain_wrapper (exec (onUpload' r) s).
Proof.
  intros W P. destruct (successful r) eqn:Hs.
  - destruct (successful_inv r Hs) as (Ht & f & Hf).
    destruct (wrapper (nodes s)) as [w|] eqn:Hw;
      [destruct (button (nodes s)) as [b|] eqn:Hb|].
    + destruct (W w Hw) as [Hlt [e He]].
      destruct (onUpload_card api FileIcon CustomFileIcon r f s w b e Hw Hb He Hlt Ht Hf)
        as (_ & Hw1 & _ & _ & (e' & He' & _) & _ & V).
      intros w1 e1 Hw2 He2. rewrite Hw1 in Hw2. injection Hw2 as <-.
      rewrite He' in He2. injection He2 as <-.
      specialize (V 1). unfold view in V. rewrite Hw1 in V.
      pose proof (inj Some _ _ V) as V1. unfold file_card in V1.
      destruct (look_of_snapshot _ w e' _ _ _ _ _ _ _ He' V1)
        as (H1 & _ & H3 & H4 & H5 & H6).
      destruct (P w e Hw He) as (Q1 & Q3 & Q4 & Q5 & Q6).
      repeat split; try congruence.
      right. rewrite H6. apply plain_click, Q6.
    + unfold exec. rewrite (onUpload_without_button api FileIcon CustomFileIcon r f s Hb Ht Hf).
      eapply plain_same; [| |exact P]; reflexivity.
    + apply plain_no_wrapper.
      pose proof (refs_onUpload api FileIcon CustomFileIcon r s) as R.
      apply (f_equal fst) in R. cbn in R. rewrite R. exact Hw.
  - unfold exec. rewrite (onUpload_failure api FileIcon CustomFileIcon r s Hs).
    eapply plain_same; [| |exact P]; reflexivity.
Qed.

Lemma plain_classes s w e f :
  wrapper (nodes s) = Some w -> heap (doc s) !! w = Some e ->
  plain_wrapper s ->
  plain_wrapper (with_doc (λ d, Document (<[w := with_classList f e]> (heap d)) (next d)) s).
Proof.
  intros Hw He P w1 e1 Hw1 He1. cbn in Hw1, He1. rewrite Hw in Hw1. injection Hw1 as <-.
  rewrite lookup_insert_eq in He1. injection He1 as <-.
  destruct (P w e Hw He) as (Q1 & Q3 & Q4 & Q5 & Q6). destruct e. repeat split; assumption.
Qed.

Lemma plain_step ev s :
  well_formed s -> plain_wrapper s -> plain_wrapper (exec (step' ev) s).
Proof.
  intros W P.
  destruct ev as [|v| | |r|msg| | | |sd| ]; cbn [step];
    try (eapply plain_same; [| |exact P]; reflexivity).
  - destruct s as [[h n] [w0 b0 t] dd dat cfg nt dc tm us tp].
    destruct (render_run api Icon FileIcon CustomFileIcon h n w0 b0 t dd dat cfg nt dc tm us tp)
      as (h' & n' & t' & E & _).
    pose proof (plain_render (Tool (Document h n) (Build_Nodes w0 b0 t) dd dat cfg nt dc tm us tp)) as R.
    unfold exec in *. cbv zeta in E. rewrite E in R. erewrite step_run by exact E. exact R.
  - destruct (wrapper (nodes s)) as [w|] eqn:Hw.
    + destruct (W w Hw) as [Hlt [e He]].
      destruct s as [[h n] [w0 b0 t] dd dat cfg nt dc tm us tp]. cbn in Hw, He. subst w0.
      unfold exec. rewrite (onPreview_run api h n w b0 t e dd dat cfg nt dc tm us tp He).
      exact (plain_classes (Tool (Document h n) (Build_Nodes (Some w) b0 t) dd dat cfg nt dc tm us tp)
               w e _ eq_refl He P).
    + apply plain_no_wrapper.
      pose proof (refs_step api Icon FileIcon CustomFileIcon CallOnPreview s) as R.
      apply (f_equal fst) in R. cbn in R. rewrite R. exact Hw.
  - apply plain_onUpload; assumption.
  - destruct (wrapper (nodes s)) as [w|] eqn:Hw.
    + destruct (W w Hw) as [Hlt [e He]].
      destruct s as [[h n] [w0 b0 t] dd dat cfg nt dc tm us tp]. cbn in Hw, He. subst w0.
      destruct tm as [|tm]; [exact P|].
      unfold exec. erewrite step_gets by reflexivity. cbn [timers].
      erewrite step_modify by reflexivity.
      unfold with_timers. cbn [doc nodes _displayData _data this_config notifier
        dispatchChange timers uploadSelectedFile tooltip].
      rewrite (removeLoader_callback_run api h n w b0 t e dd dat cfg nt dc tm us tp He).
      exact (plain_classes (Tool (Document h n) (Build_Nodes (Some w) b0 t) dd dat cfg nt dc tm us tp)
               w e _ eq_refl He P).
    + apply plain_no_wrapper.
      pose proof (refs_step api Icon FileIcon CustomFileIcon FireTimeout s) as R.
      apply (f_equal fst) in R. cbn in R. rewrite R. exact Hw.
  - destruct s as [[h n] nd dd dat cfg nt dc tm us tp].
    destruct (exec_renderSettings api h n nd dd dat cfg nt dc tm us tp)
      as (h' & n' & tp' & E & Hn & Hold).
    rewrite E. intros w e Hw He. cbn in Hw, He.
    destruct (W w Hw) as [Hlt _]. cbn in Hlt. rewrite Hold in He by exact Hlt.
    exact (P w e Hw He).
Qed.

Lemma plain_run es s :
  well_formed s -> plain_wrapper s -> plain_wrapper (run' es s).
Proof.
  revert s. induction es as [|ev es IH]; intros s W P; [exact P|].
  rewrite run_cons. apply IH; [apply well_formed_step, W|apply plain_step; assumption].
Qed.

End Plain.

Section Order.

Variable api : API.
Variables Icon FileIcon CustomFileIcon : string.

Abbreviation onUpload' := (onUpload api FileIcon CustomFileIcon).
Abbreviation render' := (render api Icon FileIcon CustomFileIcon).
Abbreviation step' := (step api Icon FileIcon CustomFileIcon).
Abbreviation file_card' := (file_card api FileIcon CustomFileIcon).

(** *** The timer of an upload *)

Lemma timers_onUpload r s :
  rendered s -> timers (exec (onUpload' r) s) = S (timers s).
Proof.
  intros (w & b & e & Hw & Hb & He & Hlt).
  destruct (successful r) eqn:Hs.
  - destruct (successful_inv r Hs) as (Ht & f & Hf).
    destruct s as [[h n] [w0 b0 t] dd dat cfg nt dc tm us tp].
    cbn in Hw, Hb, He, Hlt. subst w0 b0.
    destruct (onUpload_run api FileIcon CustomFileIcon h n w b e t dd dat cfg nt dc tm us tp
                r f He Hlt Ht Hf) as (h1 & e1 & _ & E).
    unfold exec. rewrite E. reflexivity.
  - unfold exec. rewrite (onUpload_failure api FileIcon CustomFileIcon r s Hs).
    reflexivity.
Qed.

Lemma timeout_rendered s k :
  rendered s -> timers s = S k ->
  let s' := exec (step' FireTimeout) s in
  outcome (step' FireTimeout) s = Ok tt
  ∧ timers s' = k
  ∧ (wrapperLoading (CSS api) ∉ wrapper_classes s')
  ∧ (loader (CSS api) ∉ wrapper_classes s')
  ∧ _displayData s' = _displayData s
  ∧ rendered s'.
Proof.
  intros (w & b & e & Hw & Hb & He & Hlt) Hk s'. subst s'.
  destruct s as [[h n] [w0 b0 t] dd dat cfg nt dc tm us tp].
  cbn in Hw, Hb, He, Hlt, Hk. subst w0 b0 tm.
  unfold outcome, exec. cbn [step].
  erewrite step_gets by reflexivity. cbn [timers].
  erewrite step_modify by reflexivity.
  unfold with_timers. cbn [doc nodes _displayData _data this_config notifier
    dispatchChange timers uploadSelectedFile tooltip].
  rewrite (removeLoader_callback_run api h n w (Some b) t e dd dat cfg nt dc k us tp He).
  cbn [fst snd timers _displayData].
  split; [reflexivity|]. split; [reflexivity|].
  unfold wrapper_classes. cbn [nodes wrapper doc heap]. rewrite lookup_insert_eq.
  destruct e as [tag cl col ats ed cs p ls]. cbn [with_classList classList fold_left].
  split; [intros H; apply remove_token_elem in H as [_ H];
          exact (remove_token_not_elem _ _ H)|].
  split; [apply remove_token_not_elem|]. split; [reflexivity|].
  eexists w, b, _. cbn. repeat split; [apply lookup_insert_eq|exact Hlt].
Qed.

(** *** The card, whichever came first *)

Lemma render_then_onUpload r f s depth :
  unrendered s ∨ rendered s ->
  JS.truthy (success r) = true -> file r = Some f ->
  view depth (exec (onUpload' r) (exec render' s))
  = Some (cut depth (file_card' (fresh_wrapper api) (uploaded f))).
Proof.
  intros Hs Ht Hf.
  pose proof (rendered_render api Icon FileIcon CustomFileIcon s Hs) as R.
  change (exec (step' CallRender) s) with (exec (bind render' (λ _, ret tt)) s) in R.
  assert (E0 : exec (bind render' (λ _, ret tt)) s = exec render' s).
  { unfold exec, bind. destruct (render' s) as [[a|x] s1]; reflexivity. }
  rewrite E0 in R. clear E0.
  destruct s as [[h n] [w0 b0 t] dd dat cfg nt dc tm us tp].
  destruct (render_run api Icon FileIcon CustomFileIcon h n w0 b0 t dd dat cfg nt dc tm us tp)
    as (h' & n' & t' & E & Hn & [e He] & V).
  cbv zeta in E. unfold exec in R |- * at 2. rewrite E in R |- *. cbn [snd] in R |- *.
  destruct R as (w & b & e1 & Hw & Hb & He1 & Hlt).
  cbn in Hw, He1, Hlt. injection Hw as <-. rewrite He in He1. injection He1 as <-.
  match goal with
  | |- view depth (exec _ ?s1) = _ =>
      destruct (onUpload_card api FileIcon CustomFileIcon r f s1 (S n) b e
                  eq_refl Hb He Hlt Ht Hf) as (_ & _ & _ & _ & _ & _ & V1)
  end.
  rewrite V1. f_equal. f_equal.
  specialize (V 1). revert V.
  match goal with |- context [if ?c then _ else _] => destruct c end; intros V.
  - unfold file_card in V.
    destruct (look_of_snapshot h' (S n) e _ _ _ _ _ _ _ He V)
      as (H1 & H2 & H3 & H4 & H5 & H6).
    apply file_card_again; assumption.
  - unfold upload_button in V.
    destruct (look_of_snapshot h' (S n) e _ _ _ _ _ _ _ He V)
      as (H1 & H2 & H3 & H4 & H5 & H6).
    apply file_card_look. repeat split; assumption.
Qed.

Lemma onUpload_then_render r f s depth :
  JS.truthy (success r) = true -> file r = Some f ->
  view depth (exec render' (exec (onUpload' r) s))
  = Some (cut depth (file_card' (fresh_wrapper api) (uploaded f))).
Proof.
  intros Ht Hf.
  pose proof (displayData_onUpload api FileIcon CustomFileIcon r s) as D.
  rewrite Ht, Hf in D.
  destruct (exec (onUpload' r) s) as [[h n] [w0 b0 t] dd dat cfg nt dc tm us tp].
  cbn in D. subst dd.
  destruct (render_run api Icon FileIcon CustomFileIcon h n w0 b0 t (uploaded f)
              dat cfg nt dc tm us tp) as (h' & n' & t' & E & _ & _ & V).
  cbv zeta in E. unfold exec. rewrite E. unfold view. cbn [snd nodes wrapper doc heap].
  rewrite V.
  rewrite (pluginHasData_uploaded f) by reflexivity. reflexivity.
Qed.

End Order.

(** *** ASCII names and exact sizes *)

(** Lower-casing and splitting keep a string of ASCII characters one. *)
Lemma lower_ascii_only c :
  (nat_of_ascii c <? 128)%nat = true -> (nat_of_ascii (lower_ascii c) <? 128)%nat = true.
Proof.
  revert c.
  assert (A : ∀ n, n < 128 ->
              (n <? 128)%nat = true ->
              (nat_of_ascii (lower_ascii (ascii_of_nat n)) <? 128)%nat = true).
  { intros n Hn _. do 128 (destruct n as [|n]; [reflexivity|]). lia. }
  intros c H. apply Nat.ltb_lt in H.
  rewrite <- (ascii_nat_embedding c).
  apply A; [exact H|apply Nat.ltb_lt; exact H].
Qed.

Lemma toLowerCase_ascii_only s :
  ascii_only s = true -> ascii_only (toLowerCase s) = true.
Proof.
  induction s as [|c rest IH]; cbn [ascii_only toLowerCase]; [reflexivity|].
  intros H. apply andb_true_iff in H as [H1 H2].
  apply andb_true_iff. split; [apply lower_ascii_only; exact H1|apply IH; exact H2].
Qed.

Lemma split_ascii_only sep s :
  ascii_only s = true -> Forall (λ p, ascii_only p = true) (split sep s).
Proof.
  induction s as [|c rest IH]; cbn [split ascii_only].
  - intros _. constructor; [reflexivity|constructor].
  - intros H. apply andb_true_iff in H as [H1 H2]. specialize (IH H2).
    destruct (Ascii.eqb c sep).
    + constructor; [reflexivity|exact IH].
    + destruct (split sep rest) as [|piece pieces].
      * constructor; [cbn [ascii_only]; rewrite H1; reflexivity|constructor].
      * inversion IH as [|? ? Hp Hrest]; subst.
        constructor; [cbn [ascii_only]; rewrite H1; exact Hp|exact Hrest].
Qed.

(** A size of the exact fragment other than zero is truthy. *)
Lemma exact_number_truthy v n :
  exact_number v = Some n -> n ≠ 0%Z -> truthy_size (Some v) = true.
Proof.
  unfold exact_number, truthy_size. destruct v as [m|[|c rest]].
  - destruct (Z.abs m <? 2 ^ 53)%Z; [|discriminate]. intros [= ->] Hn.
    apply negb_true_iff, Z.eqb_neq. exact Hn.
  - discriminate.
  - reflexivity.
Qed.

End HostFacts.

Import Host HostFacts.

(** * Further properties of the tool *)

(** ** The configuration *)

(** X1.  The configuration is read once, by the constructor: whatever calls
    the instance receives afterwards, [this.config] is the one the
    constructor built, and in it the accepted types, the label of the button
    and the error message are never empty: an empty string in the options
    is replaced by the default like a missing option. *)
Theorem X1_config_is_read_once
    (api : API) (Icon FileIcon CustomFileIcon : string)
    (d : document) (v : value) (c : ToolConfig) (es : list event) :
  let s := run api Icon FileIcon CustomFileIcon es (constructor d v c) in
  this_config s = this_config (constructor d v c)
  ∧ types (this_config s) ≠ ""
  ∧ buttonText (this_config s) ≠ ""
  ∧ errorMessage (this_config s) ≠ ""
  ∧ settings (this_config s) = default [] (cfg_settings c).
Proof.
  intros s. subst s. rewrite config_run. cbn.
  assert (N : ∀ o dflt, dflt ≠ "" -> str_or o dflt ≠ "").
  { intros [t|] dflt Hd; cbn; [|exact Hd].
    destruct (String.eqb_spec t ""); [exact Hd|assumption]. }
  repeat split; try apply N; discriminate.
Qed.

(** ** The block data and the host's change notifications *)

(** X2.  Along every life of an instance the block data moves with the data
    setter only: it is what the last assignment stored (the constructor's
    data while there was none), it is never null, undefined or another falsy
    value, save() returns it, and block.dispatchChange() has been called
    once per assignment and by nothing else; no upload, successful or not,
    notifies the host of a change. *)
Theorem X2_data_moves_with_the_setter_only
    (api : API) (Icon FileIcon CustomFileIcon : string)
    (d : document) (v : value) (c : ToolConfig) (es : list event) :
  let s := run api Icon FileIcon CustomFileIcon es (constructor d v c) in
  data s = assigned es (JS.or v (Obj []))
  ∧ save s = data s
  ∧ truthy (data s) = true
  ∧ dispatchChange s = length (List.filter is_set_data es).
Proof.
  intros s. subst s. unfold save, data.
  rewrite data_run, dispatchChange_run. cbn [constructor _data dispatchChange].
  repeat split; [|lia].
  assert (T : ∀ x, truthy (JS.or x (Obj [])) = true).
  { intros x. unfold JS.or. destruct (truthy x) eqn:E; [exact E|reflexivity]. }
  generalize (T v). generalize (JS.or v (Obj [])).
  induction es as [|ev es IH]; intros v0 H0; [exact H0|].
  cbn [assigned fold_left]. apply IH. destruct ev; auto.
Qed.

(** ** The notifications *)

(** X3.  The host's notifier is called for failures and for nothing else:
    along every life of an instance the notifications shown are, in the
    order of the calls, the configured error message for every onUpload
    whose response does not report success and the given message for every
    uploadingFailed, each with the style "error". *)
Theorem X3_one_notification_per_failure
    (api : API) (Icon FileIcon CustomFileIcon : string)
    (d : document) (v : value) (c : ToolConfig) (es : list event) :
  let s0 := constructor d v c in
  let s := run api Icon FileIcon CustomFileIcon es s0 in
  notifier s = flat_map (notes (this_config s0)) es
  ∧ Forall (λ n, style n = "error") (notifier s).
Proof.
  intros s0 s. subst s. rewrite notifier_run. cbn [constructor notifier app]. fold s0.
  split; [reflexivity|].
  apply Forall_flat_map, Forall_forall. intros ev _.
  destruct ev as [|x| | |r|msg| | | |sd| ]; cbn [notes]; try constructor;
    try reflexivity; try constructor.
  destruct (successful r); repeat constructor.
Qed.

(** ** The card of an upload *)

(** X4.  On a rendered instance a successful onUpload returns and redraws
    the wrapper from scratch: whatever the wrapper held before (the button,
    the card of an earlier file), it now holds the icon and the file info of
    the new file and nothing else; it keeps its own look, gains the
    with-file class and the click listener that reopens the uploader, each
    once however often it is added; and one removal of the loader is
    scheduled. *)
Theorem X4_upload_draws_the_card
    (api : API) (FileIcon CustomFileIcon : string)
    (s : tool) (r : UploadResponse) (f : FileData)
    (w b : node) (e : element) (depth : nat) :
  wrapper (nodes s) = Some w ->
  button (nodes s) = Some b ->
  heap (doc s) !! w = Some e ->
  w < next (doc s) ->
  truthy (success r) = true ->
  file r = Some f ->
  let s' := exec (onUpload api FileIcon CustomFileIcon r) s in
  outcome (onUpload api FileIcon CustomFileIcon r) s = Ok tt
  ∧ view depth s'
    = Some (cut depth (file_card api FileIcon CustomFileIcon e (uploaded f)))
  ∧ timers s' = S (timers s).
Proof.
  intros Hw Hb He Hlt Ht Hf s'.
  destruct (onUpload_card api FileIcon CustomFileIcon r f s w b e Hw Hb He Hlt Ht Hf)
    as (O & _ & _ & _ & _ & _ & V).
  split; [exact O|]. split; [apply V|].
  subst s'. destruct s as [[h n] [w0 b0 t] dd dat cfg nt dc tm us tp].
  cbn in Hw, Hb, He, Hlt. subst w0 b0.
  destruct (onUpload_run api FileIcon CustomFileIcon h n w b e t dd dat cfg nt dc tm us tp
              r f He Hlt Ht Hf) as (h1 & e1 & _ & E).
  unfold exec. rewrite E. reflexivity.
Qed.

Lemma X4_upload_draws_the_card_witness :
  let s' := exec (onUpload editor_styles standard_svg custom_svg sample_response)
                 sample_tool in
  outcome (onUpload editor_styles standard_svg custom_svg sample_response)
          sample_tool = Ok tt
  ∧ view 3 s'
    = Some (cut 3 (file_card editor_styles standard_svg custom_svg
                     (Element "div" ["cdx-file-selector"] None [] None [Elem 2]
                              (Some 0) [])
                     (uploaded sample_file)))
  ∧ timers s' = S (timers sample_tool).
Proof.
  apply (X4_upload_draws_the_card
           editor_styles standard_svg custom_svg sample_tool sample_response
           sample_file 1 2
           (Element "div" ["cdx-file-selector"] None [] None [Elem 2] (Some 0) []) 3);
    try reflexivity.
  vm_compute. lia.
Defined.

(** X5.  On a rendered instance the card shows the last successful upload
    and nothing of what came before: whatever response an earlier onUpload
    had (another file, the same file, a failure), the wrapper after a
    successful onUpload is, to any depth, what it would be had the earlier
    call not happened. *)
Theorem X5_last_upload_wins
    (api : API) (FileIcon CustomFileIcon : string)
    (s : tool) (r1 r2 : UploadResponse) (depth : nat) :
  rendered s ->
  successful r2 = true ->
  let first := exec (onUpload api FileIcon CustomFileIcon r1) in
  let second := exec (onUpload api FileIcon CustomFileIcon r2) in
  view depth (second (first s)) = view depth (second s).
Proof. intros R Hs first second. apply onUpload_over; assumption. Qed.

Lemma X5_last_upload_wins_witness :
  let first := exec (onUpload editor_styles standard_svg custom_svg failed_response) in
  let second := exec (onUpload editor_styles standard_svg custom_svg sample_response) in
  view 3 (second (first sample_tool)) = view 3 (second sample_tool).
Proof.
  apply (X5_last_upload_wins editor_styles standard_svg custom_svg sample_tool
           failed_response sample_response 3); [|reflexivity].
  exists 1, 2,
    (Element "div" ["cdx-file-selector"] None [] None [Elem 2] (Some 0) []).
  repeat split; vm_compute; reflexivity || lia.
Defined.

(** X6.  The icon follows the suffix of the file name whatever its case: on
    a rendered instance, a successful upload of a file whose name ends in a
    dot and a suffix that, put in lower case, is a key of the colour table
    gives the card the custom icon tinted with the colour of the table, with
    the lower-cased suffix as its data-extension attribute and with the
    'longer' class exactly when the suffix has more than three characters
    ("Report.PDF" gets the icon of "pdf"). *)
Theorem X6_icon_ignores_the_case_of_the_suffix
    (api : API) (FileIcon CustomFileIcon : string)
    (s : tool) (r : UploadResponse) (f : FileData)
    (w b : node) (e : element) (pre suf c : string) :
  wrapper (nodes s) = Some w ->
  button (nodes s) = Some b ->
  heap (doc s) !! w = Some e ->
  w < next (doc s) ->
  truthy (success r) = true ->
  file r = Some f ->
  fd_name f = Some (pre +:+ String "." suf) ->
  occurs "." suf = false ->
  EXTENSIONS !! toLowerCase suf = Some c ->
  let s' := exec (onUpload api FileIcon CustomFileIcon r) s in
  let ext := toLowerCase suf in
  extension (dd_file (_displayData s')) = Some ext
  ∧ heap (doc s') !! next (doc s)
    = Some (Element "div"
              (if (3 <? String.length ext)%nat
               then [fileIcon (CSS api); "longer"] else [fileIcon (CSS api)])
              (Some c) [("data-extension", ext)] None (markup CustomFileIcon)
              (Some w) []).
Proof.
  intros Hw Hb He Hlt Ht Hf Hn Hsuf Hc s' ext.
  destruct (onUpload_card api FileIcon CustomFileIcon r f s w b e Hw Hb He Hlt Ht Hf)
    as (_ & _ & _ & _ & _ & I & _).
  assert (E : extension (dd_file (uploaded f)) = Some ext).
  { unfold uploaded. cbn [dd_file extension]. rewrite Hn.
    assert (T : truthy_str (Some (pre +:+ String "." suf)) = true)
      by (destruct pre; reflexivity).
    rewrite T.
    change (default "" (Some (pre +:+ String "." suf))) with (pre +:+ String "." suf).
    rewrite (pop_split_app "." pre suf Hsuf). reflexivity. }
  split.
  - subst s'. rewrite displayData_onUpload, Ht, Hf. exact E.
  - subst s'. rewrite I. unfold icon_element. rewrite E.
    assert (X : str_or (Some ext) "" = ext).
    { cbn. destruct (String.eqb_spec ext "") as [->|]; reflexivity. }
    rewrite X. destruct (EXTENSIONS_own ext c Hc) as [G P]. rewrite P, G.
    reflexivity.
Qed.

Lemma X6_icon_ignores_the_case_of_the_suffix_witness :
  let r := {| success := Num 1;
              file := Some {| fd_url := None; fd_name := Some "Report.PDF";
                              fd_size := None; fd_title := None |} |} in
  let s' := exec (onUpload editor_styles standard_svg custom_svg r) sample_tool in
  extension (dd_file (_displayData s')) = Some "pdf"
  ∧ heap (doc s') !! 3
    = Some (Element "div" ["cdx-file-selector__file-icon"]
              (Some "#d47373") [("data-extension", "pdf")] None [Markup custom_svg]
              (Some 1) []).
Proof.
  apply (X6_icon_ignores_the_case_of_the_suffix
           editor_styles standard_svg custom_svg sample_tool
           {| success := Num 1;
              file := Some {| fd_url := None; fd_name := Some "Report.PDF";
                              fd_size := None; fd_title := None |} |}
           {| fd_url := None; fd_name := Some "Report.PDF";
              fd_size := None; fd_title := None |}
           1 2
           (Element "div" ["cdx-file-selector"] None [] None [Elem 2] (Some 0) [])
           "Report" "PDF" "#d47373");
    try reflexivity.
  vm_compute. lia.
Defined.

(** ** The extension of a name *)

(** X7.  For a name of ASCII characters (or a missing one) deriving the
    extension never throws and changes nothing; whatever the name (missing,
    empty, with or without dots), the extension is made of ASCII characters,
    holds no dot, is left as it is by lower-casing, and is empty exactly
    when the name is missing or empty or ends with a dot. *)
Theorem X7_extension_shape (name : option string) (s : tool) :
  ascii_only (default "" name) = true ->
  ∃ ext,
    derive_extension name s = (Ok ext, s)
    ∧ ascii_only ext = true
    ∧ occurs "." ext = false
    ∧ toLowerCase ext = ext
    ∧ (ext = "" <-> str_or name "" = "" ∨ ∃ pre, name = Some (pre +:+ ".")).
Proof.
  intros Ha.
  rewrite derive_extension_run. eexists. split; [reflexivity|].
  destruct name as [[|c rest]|]; cbn [truthy_str String.eqb negb].
  - repeat split; auto; cbn; lia.
  - change (default "" (Some (String c rest))) with (String c rest) in *.
    destruct (pop_piece "." (String c rest)) as (piece & Hp & Hd & Hl).
    rewrite Hp. change (default "" (Some piece)) with piece.
    rewrite toLowerCase_dot, toLowerCase_idem.
    split.
    { apply toLowerCase_ascii_only.
      pose proof (split_ascii_only "." (String c rest) Ha) as F.
      rewrite Forall_forall in F. apply F.
      unfold pop in Hp. apply last_Some_elem_of in Hp. exact Hp. }
    split; [exact Hd|]. split; [reflexivity|].
    rewrite toLowerCase_empty. split.
    + intros Hpe. rewrite Hpe in Hp.
      apply pop_split_empty in Hp as [H|[pre H]]; [discriminate|].
      right. exists pre. rewrite H. reflexivity.
    + intros [H|[pre H]]; [discriminate|]. injection H as H.
      assert (E : pop (split "." (String c rest)) = Some "")
        by (apply pop_split_empty; eauto).
      congruence.
  - repeat split; auto; intros _; left; reflexivity.
Qed.

Lemma X7_extension_shape_witness :
  ∃ ext,
    derive_extension (Some "archive.tar.GZ") sample_tool = (Ok ext, sample_tool)
    ∧ ascii_only ext = true
    ∧ occurs "." ext = false
    ∧ toLowerCase ext = ext
    ∧ (ext = "" <-> str_or (Some "archive.tar.GZ") "" = ""
                    ∨ ∃ pre, Some "archive.tar.GZ" = Some (pre +:+ ".")).
Proof.
  apply (X7_extension_shape (Some "archive.tar.GZ") sample_tool). reflexivity.
Defined.

(** ** The size on the card, at its ends *)

(** X8.  The number in the size element of the card, for a positive count of
    bytes n that a double holds exactly (below 2^53; a number, or a string
    of decimal digits).  showFileData() creates the size element as the last
    child of the file info; its text is the integer part of the tenths, a
    point and one digit, where the tenths are at least 10 (the text is at
    least 1.0) when the unit is MiB and at most 9766 (at most 976.6) when it
    is KiB, and they are 0 (the text is 0.0) exactly for the files of up to
    51 bytes. *)
Theorem X8_size_display_bounds
    (api : API) (FileIcon CustomFileIcon : string)
    (s : tool) (w : node) (e : element) (v : size_value) (n : Z) :
  wrapper (nodes s) = Some w ->
  heap (doc s) !! w = Some e ->
  w < next (doc s) ->
  size (dd_file (_displayData s)) = Some v ->
  exact_number v = Some n ->
  (0 < n)%Z ->
  let s' := exec (showFileData api FileIcon CustomFileIcon) s in
  let mib := Math_log10_ge n 6 in
  let info := S (next (doc s)) in
  let fileSize :=
    if truthy_str (dd_title (_displayData s)) then S (S info) else S info in
  ∃ tenths : Z,
    heap (doc s') !! fileSize
    = Some (Element "div" [css_size (CSS api)] None
              [("data-size", if mib then "MiB" else "KiB")] None
              [Text (dec (tenths / 10) +:+ "." +:+ dec (tenths mod 10))]
              (Some info) [])
    ∧ (if mib then (10 <= tenths)%Z else (0 <= tenths <= 9766)%Z)
    ∧ (tenths = 0%Z <-> (n <= 51)%Z).
Proof.
  intros Hw He Hlt Hv Hn Hpos s' mib info fileSize.
  assert (Ht : truthy_size (Some v) = true)
    by (apply (exact_number_truthy v n Hn); lia).
  destruct (showFileData_size api FileIcon CustomFileIcon s w e v Hw He Hlt Hv Ht)
    as (_ & Hs & _).
  fold s' info fileSize in Hs.
  exists (toFixed1_n n (if mib then 20 else 10)).
  split.
  { rewrite Hs. f_equal. rewrite (size_element_exact api info v n Hn). fold mib.
    assert (S0 : (n <? 0)%Z = false) by (apply Z.ltb_ge; lia).
    rewrite S0. reflexivity. }
  subst mib. unfold Math_log10_ge.
  destruct (10 ^ 6 <=? n)%Z eqn:E.
  - apply Z.leb_le in E.
    unfold toFixed1_n. rewrite Z.abs_eq by lia.
    change (2 * 2 ^ 20)%Z with 2097152%Z. change (2 ^ 20)%Z with 1048576%Z.
    change (10 ^ 6)%Z with 1000000%Z in E.
    assert (10 <= (2 * 10 * n + 1048576) / 2097152)%Z
      by (apply Z.div_le_lower_bound; lia).
    split; [assumption|]. split; intros H'; lia.
  - apply Z.leb_gt in E.
    unfold toFixed1_n. rewrite Z.abs_eq by lia.
    change (2 * 2 ^ 10)%Z with 2048%Z. change (2 ^ 10)%Z with 1024%Z.
    change (10 ^ 6)%Z with 1000000%Z in E.
    split.
    + assert ((2 * 10 * n + 1024) / 2048 < 9767)%Z
        by (apply Z.div_lt_upper_bound; lia).
      assert (0 <= (2 * 10 * n + 1024) / 2048)%Z by (apply Z.div_pos; lia).
      lia.
    + split; intros H'.
      * destruct (Z_le_gt_dec n 51) as [L|G]; [exact L|].
        assert (1 <= (2 * 10 * n + 1024) / 2048)%Z
          by (apply Z.div_le_lower_bound; lia).
        lia.
      * apply Z.div_small. lia.
Qed.

Lemma X8_size_display_bounds_witness :
  let s := with_displayData
             (uploaded {| fd_url := None; fd_name := Some "note.txt";
                          fd_size := Some (SizeStr "51"); fd_title := None |})
             sample_tool in
  let s' := exec (showFileData editor_styles standard_svg custom_svg) s in
  ∃ tenths : Z,
    heap (doc s') !! 5
    = Some (Element "div" ["cdx-file-selector__size"] None
              [("data-size", "KiB")] None
              [Text (dec (tenths / 10) +:+ "." +:+ dec (tenths mod 10))]
              (Some 4) [])
    ∧ (0 <= tenths <= 9766)%Z
    ∧ (tenths = 0%Z <-> (51 <= 51)%Z).
Proof.
  apply (X8_size_display_bounds
           editor_styles standard_svg custom_svg
           (with_displayData
              (uploaded {| fd_url := None; fd_name := Some "note.txt";
                           fd_size := Some (SizeStr "51"); fd_title := None |})
              sample_tool) 1
           (Element "div" ["cdx-file-selector"] None [] None [Elem 2] (Some 0) [])
           (SizeStr "51") 51);
    try reflexivity.
  vm_compute. lia.
Defined.

(** ** render() and renderSettings() *)

(** X9.  render() never throws and never reuses a node.  From any state it
    returns a new holder, carrying the block class of the host, whose only
    child is a new wrapper, which becomes nodes.wrapper; every node that
    existed before (an earlier holder with its wrapper, the nodes of the
    host) is left exactly as it was; and rendering once more draws the same
    view again. *)
Theorem X9_render_builds_anew
    (api : API) (Icon FileIcon CustomFileIcon : string) (s : tool) (depth : nat) :
  let n := next (doc s) in
  let s' := exec (render api Icon FileIcon CustomFileIcon) s in
  outcome (render api Icon FileIcon CustomFileIcon) s = Ok n
  ∧ wrapper (nodes s') = Some (S n)
  ∧ heap (doc s') !! n
    = Some (Element "div"
              (if String.eqb (styles_block api) "" then [] else [styles_block api])
              None [] None [Elem (S n)] None [])
  ∧ (∃ e, heap (doc s') !! S n = Some e ∧ parentNode e = Some n)
  ∧ (∀ m, m < n -> heap (doc s') !! m = heap (doc s) !! m)
  ∧ view depth (exec (render api Icon FileIcon CustomFileIcon) s') = view depth s'.
Proof.
  intros n s'. subst n s'.
  destruct s as [[h n] [w0 b0 t] dd dat cfg nt dc tm us tp].
  destruct (render_fresh api Icon FileIcon CustomFileIcon h n w0 b0 t dd dat cfg nt dc tm us tp)
    as (h' & n' & t' & E & Hh & Hw & Hold).
  destruct (render_run api Icon FileIcon CustomFileIcon h n w0 b0 t dd dat cfg nt dc tm us tp)
    as (h1 & n1 & t1 & E1 & _ & _ & V1).
  cbv zeta in E, E1. rewrite E in E1. injection E1 as <- <- <-.
  unfold outcome, exec. rewrite E. cbn [fst snd nodes wrapper doc heap next].
  split; [reflexivity|]. split; [reflexivity|].
  split; [rewrite Hh; cbn [CSS baseClass]; destruct (String.eqb _ ""); reflexivity|].
  split; [exact Hw|]. split; [exact Hold|].
  match goal with
  | |- view depth (snd (render _ _ _ _ (Tool (Document _ _) (Build_Nodes ?w ?b ?t) _ _ _ _ _ _ _ _))) = _ =>
      destruct (render_run api Icon FileIcon CustomFileIcon h' n' w b t dd dat cfg nt dc tm us tp)
        as (h2 & n2 & t2 & E2 & _ & _ & V2)
  end.
  cbv zeta in E2. rewrite E2. unfold view. cbn [snd nodes wrapper doc heap].
  rewrite V1, V2. reflexivity.
Qed.

(** X10.  renderSettings() never throws and hands the configuration through
    as it is: it returns a new element of class file-selector-settings that
    holds one new button per entry of config.settings, in their order, each
    with the icon of its entry as markup and a click listener exactly when
    the entry has an onClick; it registers one tooltip per button with the
    translated title; and it touches nothing else, neither the nodes that
    existed before nor any other field of the instance. *)
Theorem X10_renderSettings_maps_the_settings
    (api : API) (s : tool) :
  let n := next (doc s) in
  let tunes := settings (this_config s) in
  let k := length tunes in
  let s' := exec (renderSettings api) s in
  outcome (renderSettings api) s = Ok n
  ∧ next (doc s') = S n + k
  ∧ heap (doc s') !! n
    = Some (Element "div" ["file-selector-settings"] None [] None
                    (map Elem (seq (S n) k)) None [])
  ∧ (∀ i tune, tunes !! i = Some tune ->
       heap (doc s') !! (S n + i) = Some (settings_button n i tune))
  ∧ tooltip s'
    = tooltip s ++ zip (seq (S n) k) (map (λ tune, i18n_t api (tune_title tune)) tunes)
  ∧ (∀ m, m < n -> heap (doc s') !! m = heap (doc s) !! m)
  ∧ s' = with_tooltip (λ _, tooltip s') (with_doc (λ _, doc s') s).
Proof.
  intros n tunes k s'. subst n tunes k s'.
  destruct s as [[h n] nd dd dat cfg nt dc tm us tp].
  destruct (renderSettings_menu api h n nd dd dat cfg nt dc tm us tp)
    as (h' & E & Hh & Hb & Hold).
  cbv zeta in E. unfold outcome, exec. rewrite E.
  cbn [fst snd doc heap next this_config tooltip].
  repeat split; assumption.
Qed.

(** ** The nodes of the host *)

Lemma tidy_host_document : tidy host_document.
Proof.
  intros m [e He]. destruct m as [|m]; [cbn; lia|].
  unfold host_document in He. cbn [heap] in He.
  rewrite lookup_singleton_ne in He by lia. discriminate.
Qed.

(** X11.  The tool never touches a node it did not create.  In a document
    whose counter lies beyond its nodes (every document built with
    createElement is one), along every life of an instance, whatever the
    calls and whether they return or throw, each node that existed when the
    instance was constructed is exactly what it was then, and the nodes the
    instance refers to (wrapper, button, title) are nodes created since. *)
Theorem X11_host_nodes_are_never_touched
    (api : API) (Icon FileIcon CustomFileIcon : string)
    (d : document) (v : value) (c : ToolConfig) (es : list event) :
  tidy d ->
  let s := run api Icon FileIcon CustomFileIcon es (constructor d v c) in
  (∀ m, m < next d -> heap (doc s) !! m = heap d !! m)
  ∧ next d <= next (doc s)
  ∧ (∀ x, wrapper (nodes s) = Some x ∨ button (nodes s) = Some x
          ∨ title (nodes s) = Some x -> next d <= x).
Proof.
  intros T s.
  destruct (owns_run (next d) api Icon FileIcon CustomFileIcon es (constructor d v c)
              (owns_constructor d v c T)) as [O S].
  fold s in O, S. split; [exact S|].
  destruct O as ([Hn _] & Hw & Hb & Ht). split; [exact Hn|].
  intros x [H|[H|H]]; auto.
Qed.

Lemma X11_host_nodes_are_never_touched_witness :
  tidy host_document
  ∧ (let s := run editor_styles toolbox_svg standard_svg custom_svg
                  [CallRender; CallOnPreview; CallOnUpload sample_response;
                   CallRenderSettings; CallRender]
                  (constructor host_document Undefined no_config) in
     (∀ m, m < next host_document -> heap (doc s) !! m = heap host_document !! m)
     ∧ next host_document <= next (doc s)
     ∧ (∀ x, wrapper (nodes s) = Some x ∨ button (nodes s) = Some x
             ∨ title (nodes s) = Some x -> next host_document <= x)).
Proof.
  split; [exact tidy_host_document|].
  exact (X11_host_nodes_are_never_touched
           editor_styles toolbox_svg standard_svg custom_svg
           host_document Undefined no_config
           [CallRender; CallOnPreview; CallOnUpload sample_response;
            CallRenderSettings; CallRender]
           tidy_host_document).
Defined.

(** ** Before the first render() *)

(** X12.  As long as render() has not been called there is neither wrapper
    nor button, whatever else has been called, and nothing to see; the
    callbacks of the uploader that reach for the wrapper throw a TypeError:
    onPreview does, onUpload does for every response that reports success,
    and so does, half a second later, the removal of the loader that
    uploadingFailed (which itself returns) has scheduled. *)
Theorem X12_no_view_before_render
    (api : API) (Icon FileIcon CustomFileIcon : string)
    (d : document) (v : value) (c : ToolConfig) (es : list event)
    (r : UploadResponse) (msg : string) (depth : nat) :
  forallb (λ ev, negb (is_render ev)) es = true ->
  let s := run api Icon FileIcon CustomFileIcon es (constructor d v c) in
  wrapper (nodes s) = None
  ∧ button (nodes s) = None
  ∧ view depth s = None
  ∧ outcome (onPreview api) s = Throw TypeError
  ∧ outcome (onUpload api FileIcon CustomFileIcon r) s
    = (if successful r then Throw TypeError else Ok tt)
  ∧ outcome (uploadingFailed msg) s = Ok tt
  ∧ outcome (step api Icon FileIcon CustomFileIcon FireTimeout)
            (exec (uploadingFailed msg) s)
    = Throw TypeError.
Proof.
  intros H s.
  pose proof (refs_run_unrendered api Icon FileIcon CustomFileIcon es
                (constructor d v c) H) as R.
  fold s in R. unfold refs in R. cbn [constructor nodes wrapper button] in R.
  injection R as Hw Hb.
  split; [exact Hw|]. split; [exact Hb|].
  split; [unfold view; rewrite Hw; reflexivity|].
  split; [unfold outcome, onPreview, nodes_wrapper, bind, gets, deref;
          cbn [fst]; rewrite Hw; reflexivity|].
  split.
  - destruct (successful r) eqn:Hs.
    + destruct (successful_inv r Hs) as (Ht & f & Hf). unfold outcome.
      rewrite (onUpload_without_button api FileIcon CustomFileIcon r f s Hb Ht Hf).
      reflexivity.
    + unfold outcome. rewrite (onUpload_failure api FileIcon CustomFileIcon r s Hs).
      reflexivity.
  - split; [reflexivity|].
    unfold outcome, exec, step, uploadingFailed, removeLoader, removeLoader_callback,
      nodes_wrapper, bind, gets, modify, deref, with_timers, with_notifier.
    cbn [fst snd timers nodes]. rewrite Hw. reflexivity.
Qed.

Lemma X12_no_view_before_render_witness :
  forallb (λ ev, negb (is_render ev))
          [CallSetData (Str "draft"); CallRenderSettings; CallEnableFileUpload] = true
  ∧ (let s := run editor_styles toolbox_svg standard_svg custom_svg
                  [CallSetData (Str "draft"); CallRenderSettings; CallEnableFileUpload]
                  (constructor empty_document Undefined no_config) in
     wrapper (nodes s) = None
     ∧ button (nodes s) = None
     ∧ view 3 s = None
     ∧ outcome (onPreview editor_styles) s = Throw TypeError
     ∧ outcome (onUpload editor_styles standard_svg custom_svg sample_response) s
       = (if successful sample_response then Throw TypeError else Ok tt)
     ∧ outcome (uploadingFailed "offline") s = Ok tt
     ∧ outcome (step editor_styles toolbox_svg standard_svg custom_svg FireTimeout)
               (exec (uploadingFailed "offline") s)
       = Throw TypeError).
Proof.
  split; [reflexivity|].
  exact (X12_no_view_before_render
           editor_styles toolbox_svg standard_svg custom_svg
           empty_document Undefined no_config
           [CallSetData (Str "draft"); CallRenderSettings; CallEnableFileUpload]
           sample_response "offline" 3 eq_refl).
Defined.

(** X13.  A successful response that arrives before the first render()
    leaves the instance without a button for good: whatever is called
    afterwards, render() included, the button stays missing, and every
    onUpload with a successful response throws a TypeError where it removes
    the button, drawing nothing, while an unsuccessful one still returns. *)
Theorem X13_upload_before_render_blocks_later_ones
    (api : API) (Icon FileIcon CustomFileIcon : string)
    (d : document) (v : value) (c : ToolConfig)
    (before after : list event) (r r' : UploadResponse) :
  forallb (λ ev, negb (is_render ev)) before = true ->
  successful r = true ->
  let s := run api Icon FileIcon CustomFileIcon
               (before ++ CallOnUpload r :: after) (constructor d v c) in
  button (nodes s) = None
  ∧ outcome (onUpload api FileIcon CustomFileIcon r') s
    = (if successful r' then Throw TypeError else Ok tt)
  ∧ doc (exec (onUpload api FileIcon CustomFileIcon r') s) = doc s.
Proof.
  intros Hb Hs s.
  assert (B : button (nodes s) = None).
  { subst s. rewrite run_app, run_cons.
    set (s1 := run api Icon FileIcon CustomFileIcon before (constructor d v c)).
    pose proof (refs_run_unrendered api Icon FileIcon CustomFileIcon before
                  (constructor d v c) Hb) as R1.
    fold s1 in R1.
    pose proof (refs_step api Icon FileIcon CustomFileIcon (CallOnUpload r) s1) as R2.
    cbv beta iota in R2. rewrite R1 in R2. apply (f_equal snd) in R2.
    rewrite button_run_full; [exact R2|].
    rewrite pluginHasData_step. cbn [successful_upload]. rewrite Hs. reflexivity. }
  split; [exact B|].
  destruct (successful r') eqn:Hs'.
  - destruct (successful_inv r' Hs') as (Ht & f & Hf). unfold outcome, exec.
    rewrite (onUpload_without_button api FileIcon CustomFileIcon r' f s B Ht Hf).
    split; reflexivity.
  - unfold outcome, exec.
    rewrite (onUpload_failure api FileIcon CustomFileIcon r' s Hs').
    split; reflexivity.
Qed.

Lemma X13_upload_before_render_blocks_later_ones_witness :
  forallb (λ ev, negb (is_render ev)) [CallRenderSettings] = true
  ∧ successful sample_response = true
  ∧ (let s := run editor_styles toolbox_svg standard_svg custom_svg
                  ([CallRenderSettings] ++ CallOnUpload sample_response
                     :: [CallRender; CallOnPreview])
                  (constructor empty_document Undefined no_config) in
     button (nodes s) = None
     ∧ outcome (onUpload editor_styles standard_svg custom_svg sample_response) s
       = (if successful sample_response then Throw TypeError else Ok tt)
     ∧ doc (exec (onUpload editor_styles standard_svg custom_svg sample_response) s)
       = doc s).
Proof.
  split; [reflexivity|]. split; [reflexivity|].
  exact (X13_upload_before_render_blocks_later_ones
           editor_styles toolbox_svg standard_svg custom_svg
           empty_document Undefined no_config
           [CallRenderSettings] [CallRender; CallOnPreview]
           sample_response sample_response eq_refl eq_refl).
Defined.

(** ** The uploader *)

(** X14.  The file picker is opened by enableFileUpload and by nothing
    else: along every life of an instance the uploader has been asked for a
    file once per call of enableFileUpload (a click on the button or on the
    card); neither render() nor an upload, successful or failed, asks
    again on its own. *)
Theorem X14_uploader_is_asked_on_request_only
    (api : API) (Icon FileIcon CustomFileIcon : string)
    (d : document) (v : value) (c : ToolConfig) (es : list event) :
  uploadSelectedFile (run api Icon FileIcon CustomFileIcon es (constructor d v c))
  = length (List.filter is_enableFileUpload es).
Proof. rewrite uploadSelectedFile_run. cbn. lia. Qed.

(** ** The loader *)

(** X15.  Showing and clearing the loader is a round trip.  On an instance
    with a wrapper that carries neither loading class, onPreview returns
    and puts both classes on the wrapper; a second onPreview changes
    nothing more; and the callback that removeLoader schedules then returns
    and leaves the instance exactly as it was before the first onPreview. *)
Theorem X15_loader_goes_on_and_comes_off
    (api : API) (s : tool) (w : node) (e : element) :
  wrapper (nodes s) = Some w -> heap (doc s) !! w = Some e ->
  wrapperLoading (CSS api) ∉ classList e -> loader (CSS api) ∉ classList e ->
  let s1 := exec (onPreview api) s in
  outcome (onPreview api) s = Ok tt
  ∧ wrapperLoading (CSS api) ∈ wrapper_classes s1
  ∧ loader (CSS api) ∈ wrapper_classes s1
  ∧ exec (onPreview api) s1 = s1
  ∧ outcome (removeLoader_callback api) s1 = Ok tt
  ∧ exec (removeLoader_callback api) s1 = s.
Proof.
  intros Hw He Ha Hb s1. subst s1.
  destruct s as [[h n] [w0 b0 t] dd dat cfg nt dc tm us tp]. cbn in Hw, He.
  subst w0. unfold outcome, exec.
  rewrite (onPreview_run api h n w b0 t e dd dat cfg nt dc tm us tp He). cbn [fst snd].
  split; [reflexivity|].
  split; [unfold wrapper_classes; cbn [nodes wrapper doc heap];
          rewrite lookup_insert_eq; destruct e; cbn [with_classList classList fold_left];
          apply add_token_keeps, add_token_elem|].
  split; [unfold wrapper_classes; cbn [nodes wrapper doc heap];
          rewrite lookup_insert_eq; destruct e; cbn [with_classList classList fold_left];
          apply add_token_elem|].
  split.
  - erewrite (onPreview_run api) by apply lookup_insert_eq. cbn [snd].
    rewrite insert_insert_eq. destruct e as [tag cl col ats ed cs p ls].
    unfold with_classList. cbn [tagName classList style_color attributes
      contentEditable childNodes parentNode listeners].
    rewrite add_tokens_idem. reflexivity.
  - erewrite (removeLoader_callback_run api) by apply lookup_insert_eq. cbn [fst snd].
    split; [reflexivity|].
    rewrite insert_insert_eq. destruct e as [tag cl col ats ed cs p ls].
    unfold with_classList. cbn [tagName classList style_color attributes
      contentEditable childNodes parentNode listeners] in *.
    rewrite add_remove_tokens by assumption.
    rewrite insert_id by exact He. reflexivity.
Qed.

Lemma X15_loader_goes_on_and_comes_off_witness :
  let s1 := exec (onPreview editor_styles) sample_tool in
  outcome (onPreview editor_styles) sample_tool = Ok tt
  ∧ wrapperLoading (CSS editor_styles) ∈ wrapper_classes s1
  ∧ loader (CSS editor_styles) ∈ wrapper_classes s1
  ∧ exec (onPreview editor_styles) s1 = s1
  ∧ outcome (removeLoader_callback editor_styles) s1 = Ok tt
  ∧ exec (removeLoader_callback editor_styles) s1 = sample_tool.
Proof.
  apply (X15_loader_goes_on_and_comes_off editor_styles sample_tool 1
           (Element "div" ["cdx-file-selector"] None [] None [Elem 2] (Some 0) []));
    try reflexivity;
    intros H; apply list_elem_of_singleton in H; discriminate.
Defined.

(** ** The wrapper *)

(** X16.  Along every life of an instance the wrapper, once there is one,
    is a node of the document and a plain div, without colour, attributes or
    contentEditable, and it listens to nothing or to clicks with the one
    bound enableFileUpload: however many uploads are drawn into it, a click
    on the card asks for a file once. *)
Theorem X16_wrapper_listens_once
    (api : API) (Icon FileIcon CustomFileIcon : string)
    (d : document) (v : value) (c : ToolConfig) (es : list event) :
  let s := run api Icon FileIcon CustomFileIcon es (constructor d v c) in
  match wrapper (nodes s) with
  | Some w =>
      w < next (doc s)
      ∧ ∃ e, heap (doc s) !! w = Some e
             ∧ tagName e = "div" ∧ style_color e = None ∧ attributes e = []
             ∧ contentEditable e = None
             ∧ (listeners e = [] ∨ listeners e = [("click", EnableFileUpload)])
  | None => True
  end.
Proof.
  intros s.
  assert (W : well_formed s)
    by (apply well_formed_run, well_formed_constructor).
  assert (P : plain_wrapper s).
  { apply plain_run; [apply well_formed_constructor|].
    apply plain_no_wrapper. reflexivity. }
  destruct (wrapper (nodes s)) as [w|] eqn:Hw; [|exact I].
  destruct (W w Hw) as [Hlt [e He]]. split; [exact Hlt|].
  exists e. split; [exact He|]. exact (P w e Hw He).
Qed.

(** ** The loader of an upload *)

(** X17.  On a rendered instance the loader that onPreview shows is gone
    once the upload is over and its timer has fired, whatever the response:
    onUpload returns and schedules exactly one removal, and when that
    removal runs the wrapper carries neither loading class, no timer is
    left over, and the display state is the one the upload left. *)
Theorem X17_loader_is_cleared_after_the_upload
    (api : API) (Icon FileIcon CustomFileIcon : string)
    (s : tool) (r : UploadResponse) :
  rendered s ->
  let s1 := exec (onPreview api) s in
  let s2 := exec (onUpload api FileIcon CustomFileIcon r) s1 in
  let s3 := exec (step api Icon FileIcon CustomFileIcon FireTimeout) s2 in
  outcome (onPreview api) s = Ok tt
  ∧ outcome (onUpload api FileIcon CustomFileIcon r) s1 = Ok tt
  ∧ timers s2 = S (timers s)
  ∧ outcome (step api Icon FileIcon CustomFileIcon FireTimeout) s2 = Ok tt
  ∧ timers s3 = timers s
  ∧ (wrapperLoading (CSS api) ∉ wrapper_classes s3)
  ∧ (loader (CSS api) ∉ wrapper_classes s3)
  ∧ _displayData s3 = _displayData s2.
Proof.
  intros R s1 s2 s3.
  assert (R1 : rendered s1)
    by exact (rendered_step api Icon FileIcon CustomFileIcon CallOnPreview s R).
  assert (T1 : timers s1 = timers s).
  { apply (keeps_onPreview api timers). repeat split; reflexivity. }
  destruct (rendered_onUpload api FileIcon CustomFileIcon r s1 R1) as [O2 R2].
  fold s2 in R2.
  assert (T2 : timers s2 = S (timers s)).
  { subst s2. rewrite timers_onUpload by exact R1. rewrite T1. reflexivity. }
  destruct (timeout_rendered api Icon FileIcon CustomFileIcon s2 (timers s) R2 T2)
    as (O3 & T3 & C1 & C2 & D3 & _).
  fold s3 in T3, C1, C2, D3.
  split.
  - destruct R as (w & b & e & Hw & Hb & He & Hlt).
    destruct s as [[h n] [w0 b0 t] dd dat cfg nt dc tm us tp]. cbn in Hw, He. subst w0.
    unfold outcome. rewrite (onPreview_run api h n w b0 t e dd dat cfg nt dc tm us tp He).
    reflexivity.
  - repeat split; assumption.
Qed.

Lemma X17_loader_is_cleared_after_the_upload_witness :
  let s1 := exec (onPreview editor_styles) sample_tool in
  let s2 := exec (onUpload editor_styles standard_svg custom_svg sample_response) s1 in
  let s3 := exec (step editor_styles toolbox_svg standard_svg custom_svg FireTimeout) s2 in
  outcome (onPreview editor_styles) sample_tool = Ok tt
  ∧ outcome (onUpload editor_styles standard_svg custom_svg sample_response) s1 = Ok tt
  ∧ timers s2 = S (timers sample_tool)
  ∧ outcome (step editor_styles toolbox_svg standard_svg custom_svg FireTimeout) s2 = Ok tt
  ∧ timers s3 = timers sample_tool
  ∧ (wrapperLoading (CSS editor_styles) ∉ wrapper_classes s3)
  ∧ (loader (CSS editor_styles) ∉ wrapper_classes s3)
  ∧ _displayData s3 = _displayData s2.
Proof.
  apply (X17_loader_is_cleared_after_the_upload
           editor_styles toolbox_svg standard_svg custom_svg sample_tool sample_response).
  exists 1, 2,
    (Element "div" ["cdx-file-selector"] None [] None [Elem 2] (Some 0) []).
  repeat split; vm_compute; reflexivity || lia.
Defined.

(** ** The response and render(), in either order *)

(** X18.  The card does not depend on whether the response came before or
    after render().  On an instance that is rendered, or that is fresh,
    rendering and then receiving a successful response draws what receiving
    the response first (which then throws, or draws into the old wrapper)
    and rendering afterwards draws: the card of the file in a new wrapper. *)
Theorem X18_response_and_render_commute
    (api : API) (Icon FileIcon CustomFileIcon : string)
    (s : tool) (r : UploadResponse) (f : FileData) (depth : nat) :
  unrendered s ∨ rendered s ->
  truthy (success r) = true ->
  file r = Some f ->
  let upload := exec (onUpload api FileIcon CustomFileIcon r) in
  let draw := exec (render api Icon FileIcon CustomFileIcon) in
  view depth (upload (draw s)) = view depth (draw (upload s))
  ∧ view depth (draw (upload s))
    = Some (cut depth (file_card api FileIcon CustomFileIcon (fresh_wrapper api)
                         (uploaded f))).
Proof.
  intros Hs Ht Hf upload draw. subst upload draw.
  rewrite (render_then_onUpload api Icon FileIcon CustomFileIcon r f s depth Hs Ht Hf).
  rewrite (onUpload_then_render api Icon FileIcon CustomFileIcon r f s depth Ht Hf).
  split; reflexivity.
Qed.

Lemma X18_response_and_render_commute_witness :
  let s := constructor empty_document Undefined no_config in
  let upload := exec (onUpload editor_styles standard_svg custom_svg sample_response) in
  let draw := exec (render editor_styles toolbox_svg standard_svg custom_svg) in
  view 3 (upload (draw s)) = view 3 (draw (upload s))
  ∧ view 3 (draw (upload s))
    = Some (cut 3 (file_card editor_styles standard_svg custom_svg
                     (fresh_wrapper editor_styles) (uploaded sample_file))).
Proof.
  apply (X18_response_and_render_commute
           editor_styles toolbox_svg standard_svg custom_svg
           (constructor empty_document Undefined no_config)
           sample_response sample_file 3); [|reflexivity|reflexivity].
  left. apply unrendered_constructor.
Defined.

(** ** The colour table *)

(** X19.  No entry of the colour table is out of reach: every key is its own
    lower-case form and holds no dot, so that a file named with a dot and
    the key derives exactly that key as its extension, and the table gives
    a colour for it that the icon can take (a non-empty string). *)
Theorem X19_every_colour_can_be_reached
    (k c pre : string) (s : tool) :
  EXTENSIONS !! k = Some c ->
  outcome (derive_extension (Some (pre +:+ String "." k))) s = Ok k
  ∧ EXTENSIONS_get k = Own c
  ∧ property_truthy (EXTENSIONS_get k) = true.
Proof.
  intros H.
  assert (N : map_Forall (λ (k : string) (_ : string),
                            toLowerCase k = k ∧ occurs "." k = false) EXTENSIONS).
  { refine (bool_decide_unpack _ _). vm_compute. exact I. }
  destruct (N k c H) as [L D].
  split; [|apply EXTENSIONS_own; exact H].
  unfold outcome. rewrite derive_extension_run. cbn [fst].
  assert (T : truthy_str (Some (pre +:+ String "." k)) = true)
    by (destruct pre; reflexivity).
  rewrite T. change (default "" (Some (pre +:+ String "." k))) with (pre +:+ String "." k).
  rewrite (pop_split_app "." pre k D).
  change (default "" (Some k)) with k. rewrite L. reflexivity.
Qed.

Lemma X19_every_colour_can_be_reached_witness :
  outcome (derive_extension (Some ("drawing" +:+ String "." "sketch"))) sample_tool
  = Ok "sketch"
  ∧ EXTENSIONS_get "sketch" = Own "#df821c"
  ∧ property_truthy (EXTENSIONS_get "sketch") = true.
Proof.
  apply (X19_every_colour_can_be_reached "sketch" "#df821c" "drawing" sample_tool).
  reflexivity.
Defined.

(** ** What the card holds *)

(** X20.  A title or a size that JavaScript takes for false is left off the
    card, and every other one is drawn.  On a rendered instance a successful
    upload creates the icon and the file info and, below the info, a title
    element exactly for a non-empty title and a size element exactly for a
    truthy size: a number other than zero or a non-empty string.  The number
    0 shows no size; the string "0" is truthy and is drawn.  Without a
    title, nodes.title keeps the reference it had before the upload. *)
Theorem X20_card_leaves_out_what_is_falsy
    (api : API) (FileIcon CustomFileIcon : string)
    (s : tool) (r : UploadResponse) (f : FileData)
    (w b : node) (e : element) :
  wrapper (nodes s) = Some w ->
  button (nodes s) = Some b ->
  heap (doc s) !! w = Some e ->
  w < next (doc s) ->
  truthy (success r) = true ->
  file r = Some f ->
  let s' := exec (onUpload api FileIcon CustomFileIcon r) s in
  let t := truthy_str (fd_title f) in
  let z := truthy_size (fd_size f) in
  let n := next (doc s) in
  let fileSize := if t then S (S (S n)) else S (S n) in
  next (doc s') = (if z then 1 else 0) + (if t then 1 else 0) + S (S n)
  ∧ title (nodes s') = (if t then Some (S (S n)) else title (nodes s))
  ∧ heap (doc s') !! S n
    = Some (Element "div" [fileInfo (CSS api)] None [] None
              ((if t then [Elem (S (S n))] else [])
               ++ (if z then [Elem fileSize] else []))
              (Some w) [])
  ∧ (z = true ->
     ∃ v, fd_size f = Some v
          ∧ heap (doc s') !! fileSize = Some (size_element api (S n) v)).
Proof.
  intros Hw Hb He Hlt Ht Hf s' t z n fileSize. subst s' t z n fileSize.
  destruct s as [[h n] [w0 b0 t] dd dat cfg nt dc tm us tp].
  cbn in Hw, Hb, He, Hlt. subst w0 b0.
  destruct (onUpload_run api FileIcon CustomFileIcon h n w b e t dd dat cfg nt dc tm us tp
              r f He Hlt Ht Hf) as (h1 & e1 & _ & E).
  unfold exec. rewrite E. cbn [snd doc nodes heap next title].
  split; [reflexivity|]. split; [reflexivity|].
  split.
  - unfold card_heap, uploaded. cbn [dd_title dd_file size].
    destruct (truthy_str (fd_title f)), (truthy_size (fd_size f));
      repeat rewrite lookup_insert_ne by lia; rewrite lookup_insert_eq; reflexivity.
  - intros Hz. destruct (fd_size f) as [v|] eqn:Hv; [|discriminate].
    exists v. split; [reflexivity|].
    assert (Hs : size (dd_file (uploaded f)) = Some v)
      by (unfold uploaded; cbn [dd_file size]; exact Hv).
    destruct (card_heap_size api FileIcon CustomFileIcon w e1 n (uploaded f) h1 v
                Hlt Hs Hz) as [H _].
    exact H.
Qed.

Lemma X20_card_leaves_out_what_is_falsy_witness :
  let r := {| success := Num 1;
              file := Some {| fd_url := None; fd_name := Some "empty.txt";
                              fd_size := Some (SizeStr "0"); fd_title := Some "" |} |} in
  let s' := exec (onUpload editor_styles standard_svg custom_svg r) sample_tool in
  next (doc s') = 6
  ∧ title (nodes s') = None
  ∧ heap (doc s') !! 4
    = Some (Element "div" ["cdx-file-selector__file-info"] None [] None [Elem 5]
              (Some 1) [])
  ∧ (true = true ->
     ∃ v, Some (SizeStr "0") = Some v
          ∧ heap (doc s') !! 5 = Some (size_element editor_styles 4 v)).
Proof.
  apply (X20_card_leaves_out_what_is_falsy
           editor_styles standard_svg custom_svg sample_tool
           {| success := Num 1;
              file := Some {| fd_url := None; fd_name := Some "empty.txt";
                              fd_size := Some (SizeStr "0"); fd_title := Some "" |} |}
           {| fd_url := None; fd_name := Some "empty.txt";
              fd_size := Some (SizeStr "0"); fd_title := Some "" |}
           1 2
           (Element "div" ["cdx-file-selector"] None [] None [Elem 2] (Some 0) []));
    try reflexivity.
  vm_compute. lia.
Defined.

(** An empty file whose size is the number 0 shows no size element; with the
    size as the string "0" the card shows 0.0 KiB. *)
Example card_of_an_empty_file :
  let card (sz : size_value) :=
    exec (onUpload editor_styles standard_svg custom_svg
            {| success := Num 1;
               file := Some {| fd_url := None; fd_name := Some "empty.txt";
                               fd_size := Some sz; fd_title := None |} |})
         sample_tool in
  childNodes <$> heap (doc (card (SizeNum 0))) !! 4 = Some []
  ∧ heap (doc (card (SizeNum 0))) !! 5 = None
  ∧ childNodes <$> heap (doc (card (SizeStr "0"))) !! 4 = Some [Elem 5]
  ∧ heap (doc (card (SizeStr "0"))) !! 5
    = Some (Element "div" ["cdx-file-selector__size"] None [("data-size", "KiB")]
              None [Text "0.0"] (Some 4) []).
Proof. vm_compute. repeat split; reflexivity. Qed.
